(** * To-do items: validation, owner-scoped data access and request handlers

    A shallow embedding of the to-do feature: the zod schema and the data
    access functions of [models/Todo.js], the mongoose schema of
    [schema/todo.ts], the controllers of [TodoController.js] and the
    authentication gate of the router.

    Conventions of the embedding:
    - a JavaScript string is the list of its UTF-16 code units ([list N]);
      [str] turns a literal into one;
    - a JavaScript object (request body, [todoData], [updateData]) is a
      finite map from property names to values, a missing property reads
      as [JUndefined];
    - the collection is the list of its documents in insertion order,
      together with the next fresh identifier; the clock is an argument
      [now] of every operation that calls [new Date()];
    - a function that can throw returns a [result]; one that also writes to
      the collection returns the new collection with it. *)

From stdpp Require Import gmap strings list sorting.
From Stdlib Require Import ZArith NArith Ascii Lia.

Local Open Scope string_scope.

(** ** JavaScript strings and values *)

Fixpoint str (s : string) : list N :=
  match s with
  | EmptyString => []
  | String a s' => N_of_ascii a :: str s'
  end.

(** White space and line terminators of ECMAScript, the code units that
    [String.prototype.trim] strips. *)
Definition is_ws (c : N) : bool :=
  ((9 <=? c) && (c <=? 13) || (c =? 32) || (c =? 160) || (c =? 5760)
   || (8192 <=? c) && (c <=? 8202) || (c =? 8232) || (c =? 8233)
   || (c =? 8239) || (c =? 8287) || (c =? 12288) || (c =? 65279))%N.

Fixpoint trimStart (s : list N) : list N :=
  match s with
  | [] => []
  | c :: s' => if is_ws c then trimStart s' else s
  end.

Definition trimEnd (s : list N) : list N := rev (trimStart (rev s)).

Definition trim (s : list N) : list N := trimEnd (trimStart s).

Arguments str : simpl never.
Arguments trim : simpl never.

(** The string is empty or its first code unit is not white space. *)
Definition starts_clean (s : list N) : Prop :=
  match s with
  | [] => True
  | c :: _ => is_ws c = false
  end.

Inductive JsVal : Type :=
  | JUndefined
  | JNull
  | JBool (b : bool)
  | JNum (n : Z)
  | JStr (s : list N)
  | JDate (t : option Z)
  | JObject.

Global Instance JsVal_eq_dec : EqDecision JsVal.
Proof. solve_decision. Defined.

(** [ToBoolean]: [undefined], [null], [false], [0] and the empty string are
    falsy. [JNum] carries integers only; [JDate t] is a [Date] object, of
    time value [t] or invalid ([None]); [JObject] stands for any other
    object or array. Every object is truthy and none has a [trim]
    method. *)
Definition truthy (v : JsVal) : bool :=
  match v with
  | JUndefined | JNull => false
  | JBool b => b
  | JNum n => negb (n =? 0)%Z
  | JStr s => negb (bool_decide (s = []))
  | JDate _ | JObject => true
  end.

(** [a || b] *)
Definition js_or (a b : JsVal) : JsVal := if truthy a then a else b.

(** Property read [o.k]. *)
Definition get (o : gmap string JsVal) (k : string) : JsVal :=
  default JUndefined (o !! k).

(** The three status values, [['pending', 'in_progress', 'completed']]. *)
Definition statuses : list (list N) :=
  [str "pending"; str "in_progress"; str "completed"].

(** [['pending', 'in_progress', 'completed'].includes(v)] *)
Definition includes_status (v : JsVal) : bool :=
  match v with
  | JStr s => bool_decide (s ∈ statuses)
  | _ => false
  end.

(** ** Errors *)

Inductive issue_code :=
  invalid_type | too_small | too_big | invalid_enum_value | invalid_date.

(** One zod issue: the path of the field, the code, and the message when the
    schema gives one ([None]: the library's default text). *)
Record issue := Issue {
  i_path : string;
  i_code : issue_code;
  i_message : option string
}.

Inductive error :=
  | Error (msg : string)              (* [new Error(msg)] *)
  | ZodError (issues : list issue)     (* thrown by [schema.parse] *)
  | ValidationError (path : string)    (* thrown by the mongoose validators *)
  | TypeError (what : string).         (* [x.trim is not a function] *)

Inductive result (A : Type) :=
  | Ok (a : A)
  | Throw (e : error).
Arguments Ok {A} a.
Arguments Throw {A} e.

Definition bind {A B} (r : result A) (k : A -> result B) : result B :=
  match r with
  | Ok a => k a
  | Throw e => Throw e
  end.

Notation "'let!' x ':=' r 'in' k" := (bind r (fun x => k))
  (at level 10, x name, r at level 100, k at level 200).

(** What [error.message] holds. *)
Inductive msg :=
  | Text (s : string)
  | IssuesText (issues : list issue)   (* the issues of a [ZodError], as JSON *)
  | ValidationText (path : string)
  | TypeErrorText (what : string)
  | StatusChangedTo (s : list N).      (* [`Todo status changed to ${s}`] *)

Definition error_message (e : error) : msg :=
  match e with
  | Error m => Text m
  | ZodError l => IssuesText l
  | ValidationError p => ValidationText p
  | TypeError w => TypeErrorText w
  end.

(** ** The zod schema ([models/Todo.js])

    A field schema maps a value to the issues it raises; an object schema
    is the list of its fields. Parsing collects the issues of every field,
    in the order of the shape, and throws when there is one. *)

Definition z_string (min max : option (nat * string))
    (path : string) (v : JsVal) : list issue :=
  match v with
  | JStr s =>
      match min with
      | Some (n, m) =>
          if (length s <? n)%nat then [Issue path too_small (Some m)] else []
      | None => []
      end ++
      match max with
      | Some (n, m) =>
          if (n <? length s)%nat then [Issue path too_big (Some m)] else []
      | None => []
      end
  | _ => [Issue path invalid_type None]
  end.

Definition z_enum (values : list (list N)) (path : string) (v : JsVal)
    : list issue :=
  match v with
  | JStr s =>
      if bool_decide (s ∈ values) then []
      else [Issue path invalid_enum_value None]
  | _ => [Issue path invalid_type None]
  end.

(** [z.date()]: a [Date] object whose time value is a number. *)
Definition z_date (path : string) (v : JsVal) : list issue :=
  match v with
  | JDate (Some _) => []
  | JDate None => [Issue path invalid_date None]
  | _ => [Issue path invalid_type None]
  end.

Definition z_optional (field : string -> JsVal -> list issue)
    (path : string) (v : JsVal) : list issue :=
  match v with
  | JUndefined => []
  | _ => field path v
  end.

Definition todoStatusSchema : string -> JsVal -> list issue :=
  z_enum statuses.

Definition todoSchema : list (string * (string -> JsVal -> list issue)) :=
  [ ("title", z_string (Some (1, "Title is required"))
                (Some (255, "Title must be 255 characters or less")));
    ("description",
       z_optional (z_string None
                (Some (1000, "Description must be 1000 characters or less"))));
    ("status", todoStatusSchema);
    ("user", z_string (Some (1, "User is required")) None);
    ("createdAt", z_optional z_date);
    ("updatedAt", z_optional z_date) ].

(** [schema.partial()] *)
Definition partial (schema : list (string * (string -> JsVal -> list issue)))
    : list (string * (string -> JsVal -> list issue)) :=
  map (fun kf => (kf.1, z_optional kf.2)) schema.

Definition schema_issues
    (schema : list (string * (string -> JsVal -> list issue)))
    (o : gmap string JsVal) : list issue :=
  concat (map (fun kf => kf.2 kf.1 (get o kf.1)) schema).

Definition as_str (v : JsVal) : option (list N) :=
  match v with
  | JStr s => Some s
  | _ => None
  end.

Definition as_date (v : JsVal) : option Z :=
  match v with
  | JDate t => t
  | _ => None
  end.

(** The parsed payload: the fields of the shape, [None] where the input has
    [undefined]. *)
Record validated := Validated {
  v_title : option (list N);
  v_description : option (list N);
  v_status : option (list N);
  v_user : option (list N);
  v_createdAt : option Z;
  v_updatedAt : option Z
}.

(** [schema.parse(o)] *)
Definition parse (schema : list (string * (string -> JsVal -> list issue)))
    (o : gmap string JsVal) : result validated :=
  match schema_issues schema o with
  | [] => Ok {| v_title := as_str (get o "title");
                v_description := as_str (get o "description");
                v_status := as_str (get o "status");
                v_user := as_str (get o "user");
                v_createdAt := as_date (get o "createdAt");
                v_updatedAt := as_date (get o "updatedAt") |}
  | issues => Throw (ZodError issues)
  end.

(** ** The mongoose schema ([schema/todo.ts]) and the collection *)

Record todo := {
  _id : N;
  title : list N;
  description : option (list N);
  status : list N;
  user : list N;
  createdAt : Z;
  updatedAt : Z
}.

Global Instance todo_eq_dec : EqDecision todo.
Proof. solve_decision. Defined.

(** The documents in insertion order and the identifier that the next
    [new Todo(...)] receives. *)
Record collection := {
  docs : list todo;
  next_id : N
}.

(** Validators of a path; all but [required] pass on an absent value. *)
Definition required (v : option (list N)) : bool :=
  match v with
  | Some (_ :: _) => true
  | _ => false
  end.

Definition maxlength (n : nat) (v : option (list N)) : bool :=
  match v with
  | Some s => (length s <=? n)%nat
  | None => true
  end.

Definition enum (values : list (list N)) (v : option (list N)) : bool :=
  match v with
  | Some s => bool_decide (s ∈ values)
  | None => true
  end.

Definition failing (path : string) (ok : bool) : list string :=
  if ok then [] else [path].

(** The paths that fail validation when a document is saved. *)
Definition validate_doc (t d s u : option (list N)) : list string :=
  failing "title" (required t && maxlength 255 t)
  ++ failing "description" (maxlength 1000 d)
  ++ failing "status" (required s && enum statuses s)
  ++ failing "user" (required u).

(** With [runValidators], the paths that an update sets are validated. *)
Definition when_set (v : option (list N)) (ok : bool) : bool :=
  match v with
  | Some _ => ok
  | None => true
  end.

Definition validate_update (upd : validated) : list string :=
  failing "title"
    (when_set (v_title upd) (required (v_title upd) && maxlength 255 (v_title upd)))
  ++ failing "description" (maxlength 1000 (v_description upd))
  ++ failing "status"
    (when_set (v_status upd) (required (v_status upd) && enum statuses (v_status upd)))
  ++ failing "user" (when_set (v_user upd) (required (v_user upd))).

(** The setters of the schema: [trim: true] on title and description. *)
Definition cast (v : validated) : validated :=
  {| v_title := trim <$> v_title v;
     v_description := trim <$> v_description v;
     v_status := v_status v;
     v_user := v_user v;
     v_createdAt := v_createdAt v;
     v_updatedAt := v_updatedAt v |}.

(** [new Todo(data).save()]: setters and the status default, validation,
    then the insert with a fresh [_id] and both timestamps. With
    [timestamps: true] a new document keeps the [createdAt] that the data
    give it and receives the current time otherwise, and its [updatedAt] is
    set to its [createdAt], whatever the data give. *)
Definition Todo_save (data : validated) (now : Z) (db : collection)
    : collection * result todo :=
  let c := cast data in
  let s := Some (default (str "pending") (v_status c)) in
  match validate_doc (v_title c) (v_description c) s (v_user c) with
  | [] =>
      let doc := {| _id := next_id db;
                    title := default [] (v_title c);
                    description := v_description c;
                    status := default (str "pending") (v_status c);
                    user := default [] (v_user c);
                    createdAt := default now (v_createdAt c);
                    updatedAt := default now (v_createdAt c) |} in
      ({| docs := docs db ++ [doc]; next_id := N.succ (next_id db) |}, Ok doc)
  | paths => (db, Throw (ValidationError (String.concat ", " paths)))
  end.

(** The filter [{ _id: todoId, user: userId }]. *)
Definition matches (todoId : N) (userId : list N) (d : todo) : Prop :=
  _id d = todoId /\ user d = userId.

Global Instance matches_dec todoId userId d : Decision (matches todoId userId d).
Proof. unfold matches. apply _. Defined.

(** [Todo.findOne({ _id, user })] *)
Definition Todo_findOne (todoId : N) (userId : list N) (db : collection)
    : option todo :=
  snd <$> list_find (matches todoId userId) (docs db).

(** The update document [{ ...fields, updatedAt }] applied to one document:
    a field that is [undefined] in the update is left as it is. The
    [updatedAt] of the update document is the current time, which replaces
    the one of the fields; [createdAt] cannot be changed once the document
    is stored: with [timestamps: true] it is taken out of every update. *)
Definition apply_update (upd : validated) (now : Z) (d : todo) : todo :=
  {| _id := _id d;
     title := default (title d) (v_title upd);
     description :=
       match v_description upd with
       | Some s => Some s
       | None => description d
       end;
     status := default (status d) (v_status upd);
     user := default (user d) (v_user upd);
     createdAt := createdAt d;
     updatedAt := now |}.

(** [Todo.findOneAndUpdate({ _id, user }, update, { new: true,
    runValidators: true })]: the first matching document is replaced and
    returned as updated; [null] when none matches. *)
Definition Todo_findOneAndUpdate (todoId : N) (userId : list N)
    (upd : validated) (now : Z) (db : collection)
    : collection * result (option todo) :=
  let c := cast upd in
  match validate_update c with
  | [] =>
      match list_find (matches todoId userId) (docs db) with
      | Some (i, d) =>
          let d' := apply_update c now d in
          ({| docs := <[i := d']> (docs db); next_id := next_id db |},
           Ok (Some d'))
      | None => (db, Ok None)
      end
  | paths => (db, Throw (ValidationError (String.concat ", " paths)))
  end.

(** [Todo.deleteOne({ _id, user })], with [deletedCount]. *)
Definition Todo_deleteOne (todoId : N) (userId : list N) (db : collection)
    : collection * nat :=
  match list_find (matches todoId userId) (docs db) with
  | Some (i, _) =>
      ({| docs := delete i (docs db); next_id := next_id db |}, 1%nat)
  | None => (db, 0%nat)
  end.

(** The filter of [Todo.find]: the owner, and a status when one is set. *)
Record find_filter := {
  f_user : list N;
  f_status : option (list N)
}.

Definition find_matches (f : find_filter) (d : todo) : bool :=
  bool_decide (user d = f_user f)
  && match f_status f with
     | Some s => bool_decide (status d = s)
     | None => true
     end.

(** [sort({ createdAt: -1 })]: newest first. *)
Definition newer_first (a b : todo) : Prop := (createdAt b <= createdAt a)%Z.

Global Instance newer_first_dec a b : Decision (newer_first a b).
Proof. unfold newer_first. apply _. Defined.

(** The store reads a limit of 0 as no limit. *)
Definition apply_limit (n : nat) (l : list todo) : list todo :=
  match n with
  | O => l
  | _ => take n l
  end.

(** [Todo.find(filter).sort({ createdAt: -1 }).limit(n).skip(k)]: whatever
    the order of the calls on the query, the store sorts, then skips, then
    limits. The sort key fixes no order among items of equal [createdAt];
    the model ranks them in the order of insertion, which is one of the
    orders that the store may return. *)
Definition Todo_find (f : find_filter) (n k : nat) (db : collection)
    : list todo :=
  apply_limit n (drop k (merge_sort newer_first (List.filter (find_matches f) (docs db)))).

(** ** The data access functions ([models/Todo.js]) *)

(** The query of a list request: [limit] and [skip] as [parseInt] reads
    them, [None] when the parameter is missing. A parameter that [parseInt]
    does not read as a natural number is outside the model. *)
Record query := {
  q_status : JsVal;
  q_limit : option nat;
  q_skip : option nat
}.

(** What the functions read of the request: [req.user.id] ([None]: there
    is no [req.user]), [req.body], [req.params.id] and [req.query]. The
    [:id] is the identifier that it denotes: a request whose [:id] is not a
    well-formed identifier, on which the store throws when it casts the
    filter, is outside the model. *)
Record request := {
  req_user : option (list N);
  req_body : gmap string JsVal;
  req_id : N;
  req_query : query
}.

(** [req?.user?.id] when it is truthy. *)
Definition user_id (req : request) : option (list N) :=
  match req_user req with
  | Some (c :: s) => Some (c :: s)
  | _ => None
  end.

Definition createTodo (req : request) (todoData : gmap string JsVal)
    (now : Z) (db : collection) : collection * result todo :=
  match user_id req with
  | None => (db, Throw (Error "User not authenticated"))
  | Some uid =>
      match parse todoSchema
              (<["status" := js_or (get todoData "status") (JStr (str "pending"))]>
                 (<["user" := JStr uid]> todoData)) with
      | Throw e => (db, Throw e)
      | Ok validatedData => Todo_save validatedData now db
      end
  end.

Definition getTodos (req : request) (q : query) (db : collection)
    : result (list todo) :=
  match user_id req with
  | None => Throw (Error "User not authenticated")
  | Some uid =>
      let limit := default 50%nat (q_limit q) in
      let skip := default 0%nat (q_skip q) in
      let filter :=
        {| f_user := uid;
           f_status :=
             if truthy (q_status q) && includes_status (q_status q)
             then as_str (q_status q) else None |} in
      Ok (Todo_find filter limit skip db)
  end.

Definition getTodo (req : request) (todoId : N) (db : collection)
    : result todo :=
  match user_id req with
  | None => Throw (Error "User not authenticated")
  | Some uid =>
      match Todo_findOne todoId uid db with
      | None => Throw (Error "Todo not found")
      | Some todo => Ok todo
      end
  end.

Definition updateTodo (req : request) (todoId : N)
    (updateData : gmap string JsVal) (now : Z) (db : collection)
    : collection * result todo :=
  match user_id req with
  | None => (db, Throw (Error "User not authenticated"))
  | Some uid =>
      match parse (partial todoSchema) (<["user" := JStr uid]> updateData) with
      | Throw e => (db, Throw e)
      | Ok validatedData =>
          match Todo_findOneAndUpdate todoId uid validatedData now db with
          | (db', Throw e) => (db', Throw e)
          | (db', Ok None) => (db', Throw (Error "Todo not found"))
          | (db', Ok (Some todo)) => (db', Ok todo)
          end
      end
  end.

Definition deleteTodo (req : request) (todoId : N) (db : collection)
    : collection * result bool :=
  match user_id req with
  | None => (db, Throw (Error "User not authenticated"))
  | Some uid =>
      match Todo_deleteOne todoId uid db with
      | (db', O) => (db', Throw (Error "Todo not found"))
      | (db', _) => (db', Ok true)
      end
  end.

(** The [switch] of [toggleTodoStatus]. *)
Definition newStatus (s : list N) : list N :=
  if bool_decide (s = str "pending") then str "in_progress"
  else if bool_decide (s = str "in_progress") then str "completed"
  else if bool_decide (s = str "completed") then str "pending"
  else str "pending".

(** The result is what [findOneAndUpdate] returns, [null] included. *)
Definition toggleTodoStatus (req : request) (todoId : N) (now : Z)
    (db : collection) : collection * result (option todo) :=
  match user_id req with
  | None => (db, Throw (Error "User not authenticated"))
  | Some uid =>
      match Todo_findOne todoId uid db with
      | None => (db, Throw (Error "Todo not found"))
      | Some todo =>
          Todo_findOneAndUpdate todoId uid
            {| v_title := None; v_description := None;
               v_status := Some (newStatus (status todo)); v_user := None;
               v_createdAt := None; v_updatedAt := None |}
            now db
      end
  end.

(** ** The controllers ([TodoController.js]) *)

Inductive payload :=
  | Item (t : todo)
  | Items (l : list todo).

(** [res.status(code).json({ success, data, message, count, error })] *)
Record response := {
  code : nat;
  success : bool;
  data : option payload;
  message : option msg;
  count : option nat;
  error_tag : option string
}.

Definition failure (c : nat) (m : msg) : response :=
  {| code := c; success := false; data := None; message := Some m;
     count := None; error_tag := None |}.

(** [error.message === 'Todo not found'] *)
Definition is_not_found (e : error) : bool :=
  match e with
  | Error m => bool_decide (m = "Todo not found")
  | _ => false
  end.

(** The [catch] of the controllers that tell a missing item apart. *)
Definition catch_404 (e : error) : response :=
  failure (if is_not_found e then 404 else 500) (error_message e).

(** [v.trim()] on a truthy value. *)
Definition call_trim (name : string) (v : JsVal) : result (list N) :=
  match v with
  | JStr s => Ok (trim s)
  | _ => Throw (TypeError (name ++ ".trim is not a function"))
  end.

(** [v?.trim()] *)
Definition optional_trim (name : string) (v : JsVal) : result JsVal :=
  match v with
  | JUndefined | JNull => Ok JUndefined
  | JStr s => Ok (JStr (trim s))
  | _ => Throw (TypeError (name ++ "?.trim is not a function"))
  end.

Definition getTodosController (req : request) (db : collection) : response :=
  match getTodos req (req_query req) db with
  | Ok todos =>
      {| code := 200; success := true; data := Some (Items todos);
         message := None; count := Some (length todos); error_tag := None |}
  | Throw e => failure 500 (error_message e)
  end.

Definition getTodoController (req : request) (db : collection) : response :=
  match getTodo req (req_id req) db with
  | Ok todo =>
      {| code := 200; success := true; data := Some (Item todo);
         message := None; count := None; error_tag := None |}
  | Throw e => catch_404 e
  end.

Definition createTodoController (req : request) (now : Z) (db : collection)
    : collection * response :=
  let title := get (req_body req) "title" in
  let description := get (req_body req) "description" in
  let status := get (req_body req) "status" in
  let catch e := failure 500 (error_message e) in
  if negb (truthy title) then (db, failure 400 (Text "Title is required"))
  else
    match call_trim "title" title with
    | Throw e => (db, catch e)
    | Ok t =>
        if (length t =? 0)%nat
        then (db, failure 400 (Text "Title is required"))
        else
          match optional_trim "description" description with
          | Throw e => (db, catch e)
          | Ok d =>
              let todoData : gmap string JsVal :=
                <["title" := JStr t]>
                  (<["description" := d]>
                     (<["status" := js_or status (JStr (str "pending"))]> ∅)) in
              match createTodo req todoData now db with
              | (db', Ok todo) =>
                  (db', {| code := 201; success := true;
                           data := Some (Item todo);
                           message := Some (Text "Todo created successfully");
                           count := None; error_tag := None |})
              | (db', Throw e) => (db', catch e)
              end
          end
    end.

(** The three guarded assignments of [updateTodoController]: each either
    returns a response early ([inl]), or goes on with [updateData] ([inr]),
    or throws. *)
Definition set_title (title : JsVal) (updateData : gmap string JsVal)
    : result (response + gmap string JsVal) :=
  if bool_decide (title = JUndefined) then Ok (inr updateData)
  else if negb (truthy title)
  then Ok (inl (failure 400 (Text "Title cannot be empty")))
  else
    let! t := call_trim "title" title in
    if (length t =? 0)%nat
    then Ok (inl (failure 400 (Text "Title cannot be empty")))
    else Ok (inr (<["title" := JStr t]> updateData)).

Definition set_description (description : JsVal)
    (updateData : gmap string JsVal) : result (response + gmap string JsVal) :=
  if bool_decide (description = JUndefined) then Ok (inr updateData)
  else
    let! d := optional_trim "description" description in
    Ok (inr (<["description" := d]> updateData)).

Definition set_status (status : JsVal) (updateData : gmap string JsVal)
    : result (response + gmap string JsVal) :=
  if bool_decide (status = JUndefined) then Ok (inr updateData)
  else if negb (includes_status status)
  then Ok (inl (failure 400
         (Text "Invalid status. Must be one of: pending, in_progress, completed")))
  else Ok (inr (<["status" := status]> updateData)).

(** [updateData] as the controller builds it from the body, or the early
    response. *)
Definition build_updateData (body : gmap string JsVal)
    : result (response + gmap string JsVal) :=
  let! r1 := set_title (get body "title") ∅ in
  match r1 with
  | inl resp => Ok (inl resp)
  | inr u1 =>
      let! r2 := set_description (get body "description") u1 in
      match r2 with
      | inl resp => Ok (inl resp)
      | inr u2 => set_status (get body "status") u2
      end
  end.

Definition updateTodoController (req : request) (now : Z) (db : collection)
    : collection * response :=
  match build_updateData (req_body req) with
  | Throw e => (db, catch_404 e)
  | Ok (inl resp) => (db, resp)
  | Ok (inr updateData) =>
      match updateTodo req (req_id req) updateData now db with
      | (db', Ok todo) =>
          (db', {| code := 200; success := true; data := Some (Item todo);
                   message := Some (Text "Todo updated successfully");
                   count := None; error_tag := None |})
      | (db', Throw e) => (db', catch_404 e)
      end
  end.

Definition deleteTodoController (req : request) (db : collection)
    : collection * response :=
  match deleteTodo req (req_id req) db with
  | (db', Ok _) =>
      (db', {| code := 200; success := true; data := None;
               message := Some (Text "Todo deleted successfully");
               count := None; error_tag := None |})
  | (db', Throw e) => (db', catch_404 e)
  end.

Definition toggleTodoStatusController (req : request) (now : Z)
    (db : collection) : collection * response :=
  match toggleTodoStatus req (req_id req) now db with
  | (db', Ok (Some todo)) =>
      (db', {| code := 200; success := true; data := Some (Item todo);
               message := Some (StatusChangedTo (status todo));
               count := None; error_tag := None |})
  | (db', Ok None) =>
      (db', catch_404 (TypeError "Cannot read properties of null"))
  | (db', Throw e) => (db', catch_404 e)
  end.

(** ** The router: every route behind [todoAuthMiddleware] *)

Inductive route :=
  | GET_todos | POST_todos | GET_todo | PUT_todo | DELETE_todo | PATCH_toggle.

Definition unauthorized : response :=
  {| code := 401; success := false; data := None;
     message := Some (Text "Authentication required");
     count := None; error_tag := Some "UNAUTHORIZED" |}.

Definition router (r : route) (req : request) (now : Z) (db : collection)
    : collection * response :=
  match req_user req with
  | None => (db, unauthorized)
  | Some _ =>
      match r with
      | GET_todos => (db, getTodosController req db)
      | POST_todos => createTodoController req now db
      | GET_todo => (db, getTodoController req db)
      | PUT_todo => updateTodoController req now db
      | DELETE_todo => deleteTodoController req db
      | PATCH_toggle => toggleTodoStatusController req now db
      end
  end.

(** ** Payload constraints

    The constraints of a create payload, read on the request body: the
    title after [trim] has 1 to 255 code units, the description is absent
    or has at most 1000 after [trim], the status is absent (or falsy) or
    one of the three. *)

Definition blank_title (v : JsVal) : bool :=
  negb (truthy v)
  || match v with
     | JStr s => bool_decide (trim s = [])
     | _ => false
     end.

Definition title_too_long (v : JsVal) : bool :=
  match v with
  | JStr s => (255 <? length (trim s))%nat
  | _ => false
  end.

Definition description_too_long (v : JsVal) : bool :=
  match v with
  | JStr s => (1000 <? length (trim s))%nat
  | _ => false
  end.

Definition status_not_allowed (v : JsVal) : bool :=
  truthy v && negb (includes_status v).

Definition fails_constraint (body : gmap string JsVal) : bool :=
  blank_title (get body "title")
  || title_too_long (get body "title")
  || description_too_long (get body "description")
  || status_not_allowed (get body "status").

Definition valid_title (v : JsVal) : bool :=
  match v with
  | JStr s => (1 <=? length (trim s))%nat && (length (trim s) <=? 255)%nat
  | _ => false
  end.

Definition valid_description (v : JsVal) : bool :=
  match v with
  | JUndefined | JNull => true
  | JStr s => (length (trim s) <=? 1000)%nat
  | _ => false
  end.

Definition valid_create_status (v : JsVal) : bool :=
  negb (truthy v) || includes_status v.

(** A description as both schemas accept it in [todoData]. *)
Definition short_description (d : JsVal) : Prop :=
  d = JUndefined \/ exists s, d = JStr s /\ (length s <= 1000)%nat.

(** The document that a create with a valid body inserts. *)
Definition created (uid : list N) (body : gmap string JsVal) (now : Z)
    (db : collection) : todo :=
  {| _id := next_id db;
     title := default [] (trim <$> as_str (get body "title"));
     description := trim <$> as_str (get body "description");
     status := default (str "pending")
                 (as_str (js_or (get body "status") (JStr (str "pending"))));
     user := uid;
     createdAt := now;
     updatedAt := now |}.

(** The collection after one insert. *)
Definition inserted (doc : todo) (db : collection) : collection :=
  {| docs := docs db ++ [doc]; next_id := N.succ (next_id db) |}.

(** The 201 response of a create. *)
Definition created_response (doc : todo) : response :=
  {| code := 201; success := true; data := Some (Item doc);
     message := Some (Text "Todo created successfully");
     count := None; error_tag := None |}.

(** The constraints of an update payload: each field that is supplied
    satisfies the constraint it has on create. *)
Definition valid_update_body (body : gmap string JsVal) : bool :=
  (bool_decide (get body "title" = JUndefined) || valid_title (get body "title"))
  && valid_description (get body "description")
  && (bool_decide (get body "status" = JUndefined)
      || includes_status (get body "status")).

(** The fields that an update with a valid body sets: the trimmed title and
    description when they are strings, the status when there is one, and
    the caller as owner. *)
Definition update_of (uid : list N) (body : gmap string JsVal) : validated :=
  {| v_title := trim <$> as_str (get body "title");
     v_description := trim <$> as_str (get body "description");
     v_status := as_str (get body "status");
     v_user := Some uid;
     v_createdAt := None;
     v_updatedAt := None |}.

(** The collection with the document at index [i] replaced. *)
Definition replaced (i : nat) (doc : todo) (db : collection) : collection :=
  {| docs := <[i := doc]> (docs db); next_id := next_id db |}.

(** The collection with the document at index [i] removed. *)
Definition removed (i : nat) (db : collection) : collection :=
  {| docs := delete i (docs db); next_id := next_id db |}.

Definition not_found : response := failure 404 (Text "Todo not found").

Definition item_response (doc : todo) (m : option msg) : response :=
  {| code := 200; success := true; data := Some (Item doc);
     message := m; count := None; error_tag := None |}.

(** The responses to an update that is rejected for its body: 400 from one
    of the two checks of the controller, or 500 with what its [catch]
    received, the issues of the schema or the type error of a [trim] on a
    value that is not a string. *)
Definition update_rejection (resp : response) : Prop :=
  resp = failure 400 (Text "Title cannot be empty")
  \/ resp = failure 400
       (Text "Invalid status. Must be one of: pending, in_progress, completed")
  \/ (exists issues, issues <> [] /\ resp = failure 500 (IssuesText issues))
  \/ (exists what, resp = failure 500 (TypeErrorText what)).

(** The item after a toggle. *)
Definition toggled (now : Z) (d : todo) : todo :=
  {| _id := _id d; title := title d; description := description d;
     status := newStatus (status d); user := user d;
     createdAt := createdAt d; updatedAt := now |}.

(** Identifiers are unique in the collection. *)
Definition unique_ids (db : collection) : Prop := NoDup (_id <$> docs db).

(** The items of one owner, in the order of the collection. *)
Definition owned_by (uid : list N) (db : collection) : list todo :=
  List.filter (fun d => bool_decide (user d = uid)) (docs db).

(** ** Histories

    One step on the collection: a call of a data access function with any
    arguments, or a request through the router. *)
Inductive operation :=
  | Create (req : request) (todoData : gmap string JsVal)
  | Update (req : request) (todoId : N) (updateData : gmap string JsVal)
  | Toggle (req : request) (todoId : N)
  | Delete (req : request) (todoId : N)
  | Request (r : route) (req : request).

Definition apply_operation (now : Z) (op : operation) (db : collection)
    : collection :=
  match op with
  | Create req todoData => (createTodo req todoData now db).1
  | Update req todoId updateData => (updateTodo req todoId updateData now db).1
  | Toggle req todoId => (toggleTodoStatus req todoId now db).1
  | Delete req todoId => (deleteTodo req todoId db).1
  | Request r req => (router r req now db).1
  end.

(** A history: the operations in order, each with the time of its call. *)
Fixpoint run (ops : list (Z * operation)) (db : collection) : collection :=
  match ops with
  | [] => db
  | (now, op) :: ops' => run ops' (apply_operation now op db)
  end.

(** Every stored status is one of the three. *)
Definition statuses_allowed (db : collection) : Prop :=
  Forall (fun d => status d ∈ statuses) (docs db).

(** Every identifier in use is below the next fresh one. *)
Definition ids_below_next (db : collection) : Prop :=
  Forall (fun d => (_id d < next_id db)%N) (docs db).

(** The operations that are calls of a data access function. *)
Definition is_call (op : operation) : Prop :=
  match op with
  | Request _ _ => False
  | _ => True
  end.

(** What one operation does to the collection: nothing, one insert of an
    item with a fresh identifier and an allowed status, one replacement
    that keeps the identifier and leaves an allowed status where there was
    one, or one removal. *)
Definition one_write (db db' : collection) : Prop :=
  db' = db
  \/ (exists doc, db' = inserted doc db
        /\ _id doc = next_id db /\ status doc ∈ statuses)
  \/ (exists i d d', docs db !! i = Some d
        /\ db' = replaced i d' db
        /\ _id d' = _id d
        /\ (status d ∈ statuses -> status d' ∈ statuses))
  \/ (exists i, db' = removed i db).

(** The 200 response of a list request. *)
Definition list_response (todos : list todo) : response :=
  {| code := 200; success := true; data := Some (Items todos);
     message := None; count := Some (length todos); error_tag := None |}.

(** The items of one owner that have a given status. *)
Definition owned_with_status (uid s : list N) (db : collection) : list todo :=
  List.filter (fun d => bool_decide (status d = s)) (owned_by uid db).

(** The items that a list request of [uid] with the status parameter [st]
    selects: those of [uid], with the status [st] when it is one of the
    three. *)
Definition selection (uid : list N) (st : JsVal) (db : collection)
    : list todo :=
  match st with
  | JStr s =>
      if bool_decide (s ∈ statuses) then owned_with_status uid s db
      else owned_by uid db
  | _ => owned_by uid db
  end.

(** ** Sample data *)

Definition alice : list N := str "alice".
Definition bob : list N := str "bob".

Definition empty_db : collection := {| docs := []; next_id := 0 |}.

Definition no_query : query :=
  {| q_status := JUndefined; q_limit := None; q_skip := None |}.

(** A request of [uid] with a body and an [:id]. *)
Definition request_of (uid : list N) (body : gmap string JsVal) (id : N)
    : request :=
  {| req_user := Some uid; req_body := body; req_id := id;
     req_query := no_query |}.

Definition titled (s : list N) : gmap string JsVal := {[ "title" := JStr s ]}.

Definition bobs_item : todo :=
  {| _id := 0; title := str "Buy milk"; description := None;
     status := str "pending"; user := bob; createdAt := 5; updatedAt := 5 |}.

(** The collection after Bob has created one item. *)
Definition bobs_db : collection := inserted bobs_item empty_db.

Definition alices_item : todo :=
  {| _id := 1; title := str "Call Bob"; description := None;
     status := str "completed"; user := alice; createdAt := 6; updatedAt := 6 |}.

(** Bob's item and one of Alice. *)
Definition shared_db : collection := inserted alices_item bobs_db.

(** An item of Alice with a description, as a create request leaves it in
    the empty collection at time 1. *)
Definition milk_body : gmap string JsVal :=
  <["description" := JStr (str "2 litres")]> (titled (str "Buy milk")).

Definition milk_item : todo :=
  {| _id := 0; title := str "Buy milk"; description := Some (str "2 litres");
     status := str "pending"; user := alice; createdAt := 1; updatedAt := 1 |}.

Definition milk_db : collection := inserted milk_item empty_db.

(** The query with another status filter, the request with another query. *)
Definition with_status (v : JsVal) (q : query) : query :=
  {| q_status := v; q_limit := q_limit q; q_skip := q_skip q |}.

Definition with_query (q : query) (req : request) : request :=
  {| req_user := req_user req; req_body := req_body req;
     req_id := req_id req; req_query := q |}.

(** Five items of Alice, created at 30, 10, 50, 20 and 40. *)
Definition five_items : list todo :=
  map (fun p : N * Z =>
         {| _id := p.1; title := str "task"; description := None;
            status := str "pending"; user := alice;
            createdAt := p.2; updatedAt := p.2 |})
      [(1%N, 30%Z); (2%N, 10%Z); (3%N, 50%Z); (4%N, 20%Z); (5%N, 40%Z)].

(** Bob's item and the five of Alice. *)
Definition five_db : collection :=
  {| docs := bobs_item :: five_items; next_id := 6 |}.

(** The query [?limit=..&skip=..]. *)
Definition page (limit skip : nat) : query :=
  {| q_status := JUndefined; q_limit := Some limit; q_skip := Some skip |}.

(** ** What one operation may write *)

(** The request that an operation carries. *)
Definition caller (op : operation) : request :=
  match op with
  | Create req _ | Update req _ _ | Toggle req _ | Delete req _
  | Request _ req => req
  end.

(** A document as the two schemas leave it: a title that is trimmed, not
    empty and of at most 255 code units, a description (when there is one)
    that is trimmed and of at most 1000, a status of the enumeration and an
    owner. *)
Definition well_formed (d : todo) : Prop :=
  title d <> [] /\ trim (title d) = title d /\ (length (title d) <= 255)%nat
  /\ (forall s, description d = Some s ->
        trim s = s /\ (length s <= 1000)%nat)
  /\ status d ∈ statuses
  /\ user d <> [].

(** The time that a new item carries: the [createdAt] date that the data
    of a call of [createTodo] give, the time of the call when they give
    none. The create controller hands on the title, the description and
    the status only, so an item created by a request carries the time of
    the call. *)
Definition creation_time (now : Z) (op : operation) : Z :=
  match op with
  | Create _ todoData => default now (as_date (get todoData "createdAt"))
  | _ => now
  end.

(** The operation gives no creation date: it is not a call of
    [createTodo] whose data hold a [Date] as [createdAt]. *)
Definition undated (op : operation) : Prop :=
  match op with
  | Create _ todoData => as_date (get todoData "createdAt") = None
  | _ => True
  end.

(** The writes of one operation of the caller [who] at time [now]: none;
    the insert of a well-formed item of the caller under the fresh
    identifier, created and updated at [born]; the replacement of an item
    of the caller by one with the same identifier, owner and creation time,
    updated [now], well-formed if the old one was; the removal of an item
    of the caller. *)
Inductive effect (who : option (list N)) (born now : Z) (db : collection)
    : collection -> Prop :=
  | effect_none : effect who born now db db
  | effect_insert doc :
      who = Some (user doc) ->
      _id doc = next_id db -> createdAt doc = born -> updatedAt doc = born ->
      well_formed doc ->
      effect who born now db (inserted doc db)
  | effect_replace i d d' :
      who = Some (user d) ->
      docs db !! i = Some d ->
      _id d' = _id d -> user d' = user d -> createdAt d' = createdAt d ->
      updatedAt d' = now ->
      (well_formed d -> well_formed d') ->
      effect who born now db (replaced i d' db)
  | effect_remove i d :
      who = Some (user d) ->
      docs db !! i = Some d ->
      effect who born now db (removed i db).

(** The data of a call of [createTodo] that give a creation date, and the
    item that the call inserts into [shared_db]. *)
Definition dated_data : gmap string JsVal :=
  <["createdAt" := JDate (Some 1000%Z)]> (titled (str "Call Eve")).

Definition dated_item : todo :=
  {| _id := 2; title := str "Call Eve"; description := None;
     status := str "pending"; user := alice;
     createdAt := 1000; updatedAt := 1000 |}.

(** Every item was created no later than it was last updated, and updated
    no later than [t]. *)
Definition timestamps_ordered (t : Z) (db : collection) : Prop :=
  Forall (fun d => (createdAt d <= updatedAt d <= t)%Z) (docs db).

(** The times of a history never go back, starting from [t]. *)
Fixpoint clock_monotone (t : Z) (ops : list (Z * operation)) : Prop :=
  match ops with
  | [] => True
  | (now, _) :: ops' => (t <= now)%Z /\ clock_monotone now ops'
  end.

(** No call of the history creates an item with a date ahead of the time
    of the call. *)
Definition not_postdated (ops : list (Z * operation)) : Prop :=
  Forall (fun p => (creation_time p.1 p.2 <= p.1)%Z) ops.

(** The time of the last operation of a history that starts at [t]. *)
Fixpoint last_time (t : Z) (ops : list (Z * operation)) : Z :=
  match ops with
  | [] => t
  | (now, _) :: ops' => last_time now ops'
  end.

(** ** Further payload predicates *)

(** A value on which [v?.trim()] does not throw: [undefined], [null] or a
    string. *)
Definition text_or_absent (v : JsVal) : bool :=
  match v with
  | JUndefined | JNull | JStr _ => true
  | _ => false
  end.

(** A title that the update controller lets through: none, or a string
    that is not blank. *)
Definition title_passes_update (v : JsVal) : bool :=
  match v with
  | JUndefined => true
  | JStr s => negb (bool_decide (trim s = []))
  | _ => false
  end.

(** A string that is not empty and trims to the empty string. *)
Definition whitespace_only (s : list N) : Prop := s <> [] /\ trim s = [].

(** The response is a well-formed envelope of the route: a success with
    the code of the route, or a failure with one of the four error codes, a
    message and no data. *)
Definition envelope (r : route) (resp : response) : Prop :=
  (success resp = true
   /\ code resp = match r with POST_todos => 201 | _ => 200 end%nat
   /\ error_tag resp = None)
  \/ (success resp = false
      /\ code resp ∈ [400; 401; 404; 500]%nat
      /\ data resp = None /\ count resp = None
      /\ is_Some (message resp)).

(** What every controller keeps, from the collection [db] to its result: a
    well-formed envelope, no write on a failure, never the code of the
    gate, a success only for a caller with an identity, and 404 only with
    the message of a missing item. *)
Definition controller_contract (r : route) (req : request)
    (db : collection) (res : collection * response) : Prop :=
  envelope r res.2
  /\ (success res.2 = false -> res.1 = db)
  /\ code res.2 <> 401%nat
  /\ (success res.2 = true -> is_Some (user_id req))
  /\ (code res.2 = 404%nat -> message res.2 = Some (Text "Todo not found")).

(** ** The client ([TodoForm.tsx], [TodoItem.tsx], [TodoList.tsx]) *)

(** [newErrors] of [validateForm], from the title and the description of
    the form. *)
Definition newErrors (title description : list N) : gmap string string :=
  let errors : gmap string string :=
    if bool_decide (trim title = [])
    then <["title" := "Title is required"]> ∅
    else if (255 <? length (trim title))%nat
         then <["title" := "Title must be 255 characters or less"]> ∅
         else ∅ in
  if (1000 <? length description)%nat
  then <["description" := "Description must be 1000 characters or less"]> errors
  else errors.

(** [validateForm()]: there is no error. *)
Definition validateForm (title description : list N) : bool :=
  bool_decide (newErrors title description = ∅).

(** [handleSubmit]: the data handed to [onSubmit], [None] when the form
    does not validate. *)
Definition handleSubmit (title description status : list N)
    : option (gmap string JsVal) :=
  if negb (validateForm title description) then None
  else Some (<["title" := JStr (trim title)]>
               (<["description" := js_or (JStr (trim description)) JUndefined]>
                  (<["status" := JStr status]> ∅))).

(** [formatStatus] and [getNextStatusText] of [TodoItem]. *)
Definition formatStatus (status : list N) : string :=
  if bool_decide (status = str "pending") then "Pending"
  else if bool_decide (status = str "in_progress") then "In Progress"
  else if bool_decide (status = str "completed") then "Completed"
  else "Unknown".

Definition getNextStatusText (status : list N) : string :=
  if bool_decide (status = str "pending") then "Mark as In Progress"
  else if bool_decide (status = str "in_progress") then "Mark as Completed"
  else if bool_decide (status = str "completed") then "Mark as Pending"
  else "Change Status".

(** The description as [TodoItem] shows it: cut after 100 code units, with
    an ellipsis. *)
Definition shown_description (description : list N) : list N :=
  if (100 <? length description)%nat
  then (take 100 description ++ str "...")%list
  else description.

(** [todoCounts] of [TodoList], over the list that the server returned. *)
Record counts := {
  all : nat;
  pending : nat;
  in_progress : nat;
  completed : nat
}.

Definition count_status (s : list N) (todos : list todo) : nat :=
  length (List.filter (fun todo => bool_decide (status todo = s)) todos).

Definition todoCounts (todos : list todo) : counts :=
  {| all := length todos;
     pending := count_status (str "pending") todos;
     in_progress := count_status (str "in_progress") todos;
     completed := count_status (str "completed") todos |}.

(** The query that [todoService.getTodos] sends for the filter of the
    list: a status unless the filter is empty or [all]. *)
Definition service_query (currentFilter : list N) : query :=
  {| q_status :=
       if negb (bool_decide (currentFilter = []))
          && negb (bool_decide (currentFilter = str "all"))
       then JStr currentFilter else JUndefined;
     q_limit := None;
     q_skip := None |}.

(** * Properties *)

(** ** Strings *)

Lemma trimStart_length s : (length (trimStart s) <= length s)%nat.
Proof.
  induction s as [|c s IH]; simpl; [lia|].
  destruct (is_ws c); simpl; lia.
Qed.

Lemma trim_length s : (length (trim s) <= length s)%nat.
Proof.
  unfold trim, trimEnd. rewrite length_rev.
  etransitivity; [apply trimStart_length|].
  rewrite length_rev. apply trimStart_length.
Qed.

(** A string that does not start with white space is its own [trimStart]. *)
Lemma trimStart_clean s : starts_clean s -> trimStart s = s.
Proof. destruct s as [|c s]; simpl; [done|]. by intros ->. Qed.

Lemma trimStart_starts_clean s : starts_clean (trimStart s).
Proof.
  induction s as [|c s IH]; simpl; [done|].
  destruct (is_ws c) eqn:E; [done|]. simpl. done.
Qed.

Lemma trimStart_suffix s : exists p, s = (p ++ trimStart s)%list.
Proof.
  induction s as [|c s [p Hp]]; simpl.
  - by exists [].
  - destruct (is_ws c).
    + exists (c :: p). simpl. by f_equal.
    + by exists [].
Qed.

(** Trimming the end keeps a clean start. *)
Lemma trimEnd_starts_clean s : starts_clean s -> starts_clean (trimEnd s).
Proof.
  intros Hs. unfold trimEnd.
  destruct (trimStart_suffix (rev s)) as [p Hp].
  destruct (trimStart (rev s)) as [|c r] eqn:E; [done|].
  assert (Hs' : s = (rev (c :: r) ++ rev p)%list).
  { rewrite <- (rev_involutive s), Hp, rev_app_distr. done. }
  destruct (rev (c :: r)) as [|c' r'] eqn:E'.
  - apply (f_equal (@length N)) in E'. rewrite length_rev in E'. done.
  - rewrite Hs' in Hs. done.
Qed.

Lemma trimEnd_idemp s : trimEnd (trimEnd s) = trimEnd s.
Proof.
  unfold trimEnd. rewrite rev_involutive.
  by rewrite (trimStart_clean _ (trimStart_starts_clean _)).
Qed.

Lemma trim_idemp s : trim (trim s) = trim s.
Proof.
  unfold trim at 1.
  rewrite (trimStart_clean (trim s)).
  - unfold trim. apply trimEnd_idemp.
  - unfold trim. apply trimEnd_starts_clean, trimStart_starts_clean.
Qed.

(** A string of white space trims to the empty string. *)
Lemma trim_whitespace s : forallb is_ws s = true -> trim s = [].
Proof.
  intros H. unfold trim.
  assert (E : trimStart s = []).
  { induction s as [|c s IH]; simpl in *; [done|].
    apply andb_prop in H as [-> H]. auto. }
  by rewrite E.
Qed.

Lemma truthy_str s : truthy (JStr s) = negb (bool_decide (s = [])).
Proof. done. Qed.

Lemma length_zero_iff (s : list N) : (length s =? 0)%nat = bool_decide (s = []).
Proof. destruct s; done. Qed.

(** ** Objects *)

Lemma get_insert_eq (o : gmap string JsVal) k v : get (<[k := v]> o) k = v.
Proof. unfold get. by rewrite lookup_insert_eq. Qed.

Lemma get_insert_ne (o : gmap string JsVal) k k' v :
  k <> k' -> get (<[k := v]> o) k' = get o k'.
Proof. intros. unfold get. by rewrite lookup_insert_ne. Qed.

Lemma get_empty k : get ∅ k = JUndefined.
Proof. done. Qed.

Lemma js_or_truthy a b : truthy b = true -> truthy (js_or a b) = true.
Proof. unfold js_or. by destruct (truthy a) eqn:E. Qed.

Lemma js_or_idemp a b : js_or (js_or a b) b = js_or a b.
Proof.
  unfold js_or. destruct (truthy a) eqn:E; [by rewrite E|].
  by destruct (truthy b).
Qed.

Lemma js_or_falsy a b : truthy a = false -> js_or a b = b.
Proof. unfold js_or. by intros ->. Qed.

Lemma includes_status_str v :
  includes_status v = true -> exists s, v = JStr s /\ s ∈ statuses.
Proof.
  destruct v; simpl; try done.
  intros H%bool_decide_eq_true. eauto.
Qed.

Lemma includes_status_truthy v : includes_status v = true -> truthy v = true.
Proof.
  intros (s & -> & Hs)%includes_status_str. simpl.
  destruct s; [|done]. exfalso. revert Hs. unfold statuses.
  rewrite !elem_of_cons, elem_of_nil. intros [?|[?|[?|[]]]]; done.
Qed.

(** ** The schema *)

Lemma z_string_nil min max path v :
  z_string min max path v = [] ->
  exists s, v = JStr s
    /\ (forall n m, min = Some (n, m) -> (n <= length s)%nat)
    /\ (forall n m, max = Some (n, m) -> (length s <= n)%nat).
Proof.
  destruct v; simpl; try done. intros [H1 H2]%app_nil.
  exists s. split; [done|]. split; intros n m ->.
  - destruct (Nat.ltb_spec (length s) n); [done | lia].
  - destruct (Nat.ltb_spec n (length s)); [done | lia].
Qed.

Lemma z_string_ok min max path s :
  (forall n m, min = Some (n, m) -> (n <= length s)%nat) ->
  (forall n m, max = Some (n, m) -> (length s <= n)%nat) ->
  z_string min max path (JStr s) = [].
Proof.
  intros Hmin Hmax. simpl.
  destruct min as [[n m]|], max as [[n' m']|]; simpl;
    repeat match goal with
    | |- context [(?a <? ?b)%nat] => destruct (Nat.ltb_spec a b)
    end; try done.
  all: try (specialize (Hmin _ _ eq_refl)); try (specialize (Hmax _ _ eq_refl)); lia.
Qed.

Lemma z_enum_nil values path v :
  z_enum values path v = [] -> exists s, v = JStr s /\ s ∈ values.
Proof.
  destruct v; simpl; try done.
  case_bool_decide; [eauto | done].
Qed.

Lemma z_optional_nil field path v :
  z_optional field path v = [] -> v = JUndefined \/ field path v = [].
Proof. destruct v; simpl; auto. Qed.

(** The issues of the two schemas, field by field. *)
Lemma schema_issues_todoSchema o :
  schema_issues todoSchema o =
    (z_string (Some (1%nat, "Title is required"))
       (Some (255%nat, "Title must be 255 characters or less"))
       "title" (get o "title")
     ++ z_optional (z_string None
          (Some (1000%nat, "Description must be 1000 characters or less")))
          "description" (get o "description")
     ++ todoStatusSchema "status" (get o "status")
     ++ z_string (Some (1%nat, "User is required")) None "user" (get o "user")
     ++ z_optional z_date "createdAt" (get o "createdAt")
     ++ z_optional z_date "updatedAt" (get o "updatedAt"))%list.
Proof. unfold schema_issues. simpl. by rewrite app_nil_r. Qed.

Lemma schema_issues_partial o :
  schema_issues (partial todoSchema) o =
    (z_optional (z_string (Some (1%nat, "Title is required"))
       (Some (255%nat, "Title must be 255 characters or less")))
       "title" (get o "title")
     ++ z_optional (z_optional (z_string None
          (Some (1000%nat, "Description must be 1000 characters or less"))))
          "description" (get o "description")
     ++ z_optional todoStatusSchema "status" (get o "status")
     ++ z_optional (z_string (Some (1%nat, "User is required")) None)
          "user" (get o "user")
     ++ z_optional (z_optional z_date) "createdAt" (get o "createdAt")
     ++ z_optional (z_optional z_date) "updatedAt" (get o "updatedAt"))%list.
Proof. unfold schema_issues. simpl. by rewrite app_nil_r. Qed.

Lemma parse_Ok schema o v :
  parse schema o = Ok v ->
  schema_issues schema o = []
  /\ v = {| v_title := as_str (get o "title");
            v_description := as_str (get o "description");
            v_status := as_str (get o "status");
            v_user := as_str (get o "user");
            v_createdAt := as_date (get o "createdAt");
            v_updatedAt := as_date (get o "updatedAt") |}.
Proof.
  unfold parse. destruct (schema_issues schema o); [|done].
  by intros [= <-].
Qed.

Lemma parse_issues schema o :
  schema_issues schema o <> [] ->
  parse schema o = Throw (ZodError (schema_issues schema o)).
Proof. unfold parse. by destruct (schema_issues schema o). Qed.

Lemma parse_no_issues schema o :
  schema_issues schema o = [] ->
  parse schema o = Ok {| v_title := as_str (get o "title");
                         v_description := as_str (get o "description");
                         v_status := as_str (get o "status");
                         v_user := as_str (get o "user");
                         v_createdAt := as_date (get o "createdAt");
                         v_updatedAt := as_date (get o "updatedAt") |}.
Proof. unfold parse. by intros ->. Qed.

(** Whatever parses under the full schema carries a status of the
    enumeration; under the partial schema, a status of the enumeration or
    none. *)
Lemma parse_todoSchema_status o v :
  parse todoSchema o = Ok v -> exists s, v_status v = Some s /\ s ∈ statuses.
Proof.
  intros [Hi ->]%parse_Ok. rewrite schema_issues_todoSchema in Hi.
  apply app_nil in Hi as [_ Hi]. apply app_nil in Hi as [_ Hi].
  apply app_nil in Hi as [Hs _].
  apply z_enum_nil in Hs as (s & -> & Hs). simpl. eauto.
Qed.

Lemma parse_partial_status o v s :
  parse (partial todoSchema) o = Ok v -> v_status v = Some s -> s ∈ statuses.
Proof.
  intros [Hi ->]%parse_Ok. rewrite schema_issues_partial in Hi.
  apply app_nil in Hi as [_ Hi]. apply app_nil in Hi as [_ Hi].
  apply app_nil in Hi as [Hs _]. simpl.
  apply z_optional_nil in Hs as [-> | Hs]; [done|].
  apply z_enum_nil in Hs as (s' & -> & Hs). simpl. by intros [= <-].
Qed.

(** ** Create *)

(** The call returned with the collection as it was. *)
Ltac unchanged := intros [= <- <-]; left; by eauto.

Create Rewrite HintDb js_get.
#[local] Hint Rewrite get_insert_eq get_empty : js_get.
#[local] Hint Rewrite get_insert_ne using done : js_get.

Lemma Todo_save_cases data now db db' r :
  Todo_save data now db = (db', r) ->
  (db' = db /\ exists e, r = Throw e)
  \/ (exists doc, r = Ok doc /\ db' = inserted doc db
        /\ _id doc = next_id db
        /\ status doc = default (str "pending") (v_status data)
        /\ user doc = default [] (v_user data)
        /\ createdAt doc = default now (v_createdAt data)
        /\ updatedAt doc = createdAt doc).
Proof.
  unfold Todo_save.
  destruct (validate_doc _ _ _ _); intros [= <- <-]; [right | left; eauto].
  eexists. repeat split; done.
Qed.

Lemma createTodo_cases req todoData now db db' r :
  createTodo req todoData now db = (db', r) ->
  (db' = db /\ exists e, r = Throw e)
  \/ (exists doc uid, user_id req = Some uid /\ r = Ok doc
        /\ db' = inserted doc db
        /\ _id doc = next_id db /\ user doc = uid /\ status doc ∈ statuses
        /\ createdAt doc = default now (as_date (get todoData "createdAt"))
        /\ updatedAt doc = createdAt doc).
Proof.
  unfold createTodo. destruct (user_id req) as [uid|] eqn:Hu.
  2: unchanged.
  destruct (parse _ _) as [v|e] eqn:Hp.
  2: unchanged.
  intros [H | (doc & -> & -> & Hid & Hs & Hu' & Hc & Hup)]%Todo_save_cases;
    [by left | right].
  exists doc, uid. repeat split; try done.
  - apply parse_Ok in Hp as [_ ->]. simpl in Hu'.
    autorewrite with js_get in Hu'. done.
  - apply parse_todoSchema_status in Hp as (s & Hv & Hin).
    rewrite Hs, Hv. done.
  - apply parse_Ok in Hp as [_ ->]. simpl in Hc.
    by autorewrite with js_get in Hc.
Qed.

(** Every outcome of the create controller: a failure envelope and the
    collection as it was, or the 201 response and one insert. *)
Lemma createTodoController_cases req now db db' resp :
  createTodoController req now db = (db', resp) ->
  (db' = db /\ success resp = false /\ data resp = None)
  \/ (exists doc uid, user_id req = Some uid
        /\ resp = created_response doc /\ db' = inserted doc db
        /\ _id doc = next_id db /\ user doc = uid /\ status doc ∈ statuses
        /\ createdAt doc = now /\ updatedAt doc = now).
Proof.
  unfold createTodoController.
  destruct (truthy (get (req_body req) "title")); simpl.
  2: unchanged.
  destruct (call_trim _ _) as [t|e]; simpl.
  2: unchanged.
  destruct (length t =? 0)%nat.
  1: unchanged.
  destruct (optional_trim _ _) as [d|e].
  2: unchanged.
  destruct (createTodo _ _ _ _) as [db1 [doc|e]] eqn:Hc; intros [= <- <-].
  - apply createTodo_cases in Hc
      as [[_ [e ?]] | (doc' & uid & Hu & [= <-] & -> & H)]; [done|].
    destruct H as (Hid & Hud & Hs & Hca & Hup).
    autorewrite with js_get in Hca. simpl in Hca.
    right. exists doc, uid. repeat split; congruence.
  - apply createTodo_cases in Hc as [[-> _] | (doc' & uid & _ & ? & _)];
      [by left | done].
Qed.

Lemma createTodoController_blank req now db :
  blank_title (get (req_body req) "title") = true ->
  createTodoController req now db
  = (db, failure 400 (Text "Title is required")).
Proof.
  unfold createTodoController, blank_title.
  destruct (truthy (get (req_body req) "title")) eqn:Ht; simpl; [|done].
  destruct (get (req_body req) "title"); try done. simpl.
  intros ->%bool_decide_eq_true. done.
Qed.

Lemma valid_title_inv v :
  valid_title v = true ->
  exists s, v = JStr s /\ (1 <= length (trim s) <= 255)%nat /\ truthy v = true.
Proof.
  destruct v; try done. unfold valid_title.
  intros [H1%Nat.leb_le H2%Nat.leb_le]%andb_prop.
  exists s. repeat split; try done.
  destruct s; [|done]. simpl in H1. lia.
Qed.

Lemma valid_description_inv v :
  valid_description v = true ->
  exists d, optional_trim "description" v = Ok d
    /\ as_str d = trim <$> as_str v
    /\ (d = JUndefined \/ exists s, d = JStr s /\ (length s <= 1000)%nat).
Proof.
  destruct v; try done; try (exists JUndefined; by auto).
  unfold valid_description. intros H%Nat.leb_le.
  exists (JStr (trim s)). repeat split; [right]. by exists (trim s).
Qed.

Lemma valid_create_status_inv v :
  valid_create_status v = true ->
  exists s, js_or v (JStr (str "pending")) = JStr s /\ s ∈ statuses.
Proof.
  unfold valid_create_status, js_or.
  destruct (truthy v) eqn:Ht; simpl.
  - by intros ?%includes_status_str.
  - intros _. exists (str "pending"). split; [done|]. apply elem_of_cons. by left.
Qed.

Lemma includes_status_or s :
  s ∈ statuses -> js_or (JStr s) (JStr (str "pending")) = JStr s.
Proof.
  intros Hin. unfold js_or.
  rewrite (includes_status_truthy (JStr s)); [done|].
  simpl. by apply bool_decide_eq_true.
Qed.

Lemma user_id_nonempty req uid : user_id req = Some uid -> uid <> [].
Proof.
  unfold user_id. destruct (req_user req) as [[|c s]|]; try done.
  by intros [= <-].
Qed.

Lemma validate_doc_ok t d s uid :
  t <> [] -> (length t <= 255)%nat ->
  (forall x, d = Some x -> (length x <= 1000)%nat) ->
  s ∈ statuses -> uid <> [] ->
  validate_doc (Some t) d (Some s) (Some uid) = [].
Proof.
  intros Ht Hl Hd Hs Hu. unfold validate_doc, required, maxlength, enum.
  destruct t; [done|]. destruct uid; [done|]. destruct s.
  { exfalso. revert Hs. unfold statuses.
    rewrite !elem_of_cons, elem_of_nil. intros [?|[?|[?|[]]]]; done. }
  rewrite (bool_decide_eq_true_2 _ Hs).
  replace (_ <=? 255)%nat with true by (symmetry; by apply Nat.leb_le).
  destruct d as [x|]; [|done].
  replace (_ <=? 1000)%nat with true; [done|].
  symmetry. apply Nat.leb_le. by apply Hd.
Qed.

(** The data access function on data that satisfies both schemas. *)
Lemma createTodo_valid req todoData now db uid t s :
  user_id req = Some uid ->
  get todoData "title" = JStr t -> (length t <= 255)%nat -> trim t <> [] ->
  short_description (get todoData "description") ->
  js_or (get todoData "status") (JStr (str "pending")) = JStr s ->
  s ∈ statuses ->
  get todoData "createdAt" = JUndefined ->
  get todoData "updatedAt" = JUndefined ->
  let doc := {| _id := next_id db;
                title := trim t;
                description := trim <$> as_str (get todoData "description");
                status := s;
                user := uid;
                createdAt := now;
                updatedAt := now |} in
  createTodo req todoData now db = (inserted doc db, Ok doc).
Proof.
  intros Hu Ht Hlen Hne Hd Hs Hin Hc Hup doc.
  pose proof (user_id_nonempty _ _ Hu) as Huid.
  assert (Ht1 : (1 <= length t)%nat).
  { destruct t; [done | simpl; lia]. }
  unfold createTodo. rewrite Hu, Hs.
  rewrite parse_no_issues.
  - autorewrite with js_get. rewrite Ht, Hc. unfold Todo_save, cast. simpl.
    rewrite validate_doc_ok; try done.
    + pose proof (trim_length t). lia.
    + intros x Hx. destruct Hd as [Hd | (s' & Hd & Hl)]; rewrite Hd in Hx;
        [done|]. injection Hx as <-. pose proof (trim_length s'). lia.
  - rewrite schema_issues_todoSchema. autorewrite with js_get.
    rewrite Ht, Hc, Hup.
    assert (Hu1 : (1 <= length uid)%nat) by (destruct uid; [done | simpl; lia]).
    rewrite !z_string_ok; try (by intros ? ? [= <- <-]); try done.
    unfold todoStatusSchema, z_enum. rewrite (bool_decide_eq_true_2 _ Hin).
    destruct Hd as [-> | (s' & -> & Hl)]; [done|].
    simpl. destruct (Nat.ltb_spec 1000 (length s')); [lia | done].
Qed.

Lemma fmap_trim_idemp (o : option (list N)) :
  trim <$> (trim <$> o) = trim <$> o.
Proof. destruct o as [x|]; [|done]. cbn. by rewrite trim_idemp. Qed.

(** A create with a valid body inserts [created] and answers 201. *)
Lemma createTodoController_valid req now db uid :
  user_id req = Some uid ->
  valid_title (get (req_body req) "title") = true ->
  valid_description (get (req_body req) "description") = true ->
  valid_create_status (get (req_body req) "status") = true ->
  createTodoController req now db
  = (inserted (created uid (req_body req) now db) db,
     created_response (created uid (req_body req) now db)).
Proof.
  intros Hu (t & Ht & Hlen & Htr)%valid_title_inv
    (d & Hd & Hds & Hdlen)%valid_description_inv
    (s & Hs & Hin)%valid_create_status_inv.
  unfold createTodoController, created. rewrite Htr. simpl. rewrite Ht. simpl.
  rewrite length_zero_iff.
  assert (Hne : trim t <> []).
  { intros E. rewrite E in Hlen. simpl in Hlen. lia. }
  rewrite bool_decide_eq_false_2 by done.
  rewrite Hd, Hs.
  erewrite createTodo_valid with (s := s) (t := trim t); try done;
    autorewrite with js_get; try done.
  - by rewrite trim_idemp, Hds, fmap_trim_idemp.
  - lia.
  - by rewrite trim_idemp.
  - by apply includes_status_or.
Qed.

(** A field that breaks the zod schema makes [createTodo] throw, whoever
    calls it, and nothing is written. *)
Lemma createTodo_throws req todoData now db :
  (exists t, get todoData "title" = JStr t /\ (255 < length t)%nat)
  \/ (exists d, get todoData "description" = JStr d /\ (1000 < length d)%nat)
  \/ includes_status (js_or (get todoData "status") (JStr (str "pending"))) = false ->
  exists e, createTodo req todoData now db = (db, Throw e).
Proof.
  intros H. unfold createTodo.
  destruct (user_id req) as [uid|]; [|eauto].
  rewrite parse_issues; [eauto|].
  rewrite schema_issues_todoSchema. autorewrite with js_get.
  destruct H as [(t & -> & Hl) | [(d & -> & Hl) | Hs]].
  - simpl. destruct (Nat.ltb_spec 255 (length t)); [|lia].
    intros [H1 _]%app_nil. by apply app_nil in H1 as [_ H1].
  - intros [_ [H1 _]%app_nil]%app_nil. simpl in H1.
    by destruct (Nat.ltb_spec 1000 (length d)); [|lia].
  - intros [_ [_ [H1 _]%app_nil]%app_nil]%app_nil.
    apply z_enum_nil in H1 as (s & E & Hin). rewrite E in Hs.
    simpl in Hs. by rewrite bool_decide_eq_true_2 in Hs.
Qed.

Lemma trim_nil : trim [] = [].
Proof. done. Qed.

Lemma createTodoController_title_too_long req now db :
  title_too_long (get (req_body req) "title") = true ->
  exists m, createTodoController req now db = (db, failure 500 m).
Proof.
  unfold title_too_long, createTodoController.
  destruct (get (req_body req) "title") as [| | | |s| |] eqn:Ht; try done.
  intros Hl%Nat.ltb_lt.
  assert (Hs : s <> []) by (intros ->; rewrite trim_nil in Hl; simpl in Hl; lia).
  rewrite truthy_str, bool_decide_eq_false_2 by done. simpl.
  rewrite length_zero_iff, bool_decide_eq_false_2
    by (intros E; rewrite E in Hl; simpl in Hl; lia).
  destruct (optional_trim _ _) as [d|e]; [|eauto].
  edestruct createTodo_throws as [e ->]; [|eauto].
  left. autorewrite with js_get. eauto.
Qed.

Lemma createTodoController_description_too_long req now db :
  blank_title (get (req_body req) "title") = false ->
  description_too_long (get (req_body req) "description") = true ->
  exists m, createTodoController req now db = (db, failure 500 m).
Proof.
  unfold blank_title, description_too_long, createTodoController.
  intros [Ht Hb]%orb_false_elim. apply negb_false_iff in Ht. rewrite Ht. simpl.
  destruct (get (req_body req) "title") as [| | | |s| |] eqn:Et;
    try (simpl; by eauto).
  simpl. rewrite length_zero_iff, Hb.
  destruct (get (req_body req) "description") as [| | | |d| |] eqn:Ed; try done.
  intros Hl%Nat.ltb_lt. simpl.
  edestruct createTodo_throws as [e ->]; [|eauto].
  right. left. autorewrite with js_get. eauto.
Qed.

Lemma createTodoController_status_not_allowed req now db :
  blank_title (get (req_body req) "title") = false ->
  status_not_allowed (get (req_body req) "status") = true ->
  exists m, createTodoController req now db = (db, failure 500 m).
Proof.
  unfold blank_title, status_not_allowed, createTodoController.
  intros [Ht Hb]%orb_false_elim [Hs Hi]%andb_prop.
  apply negb_false_iff in Ht. apply negb_true_iff in Hi. rewrite Ht. simpl.
  destruct (get (req_body req) "title") as [| | | |s| |] eqn:Et;
    try (simpl; by eauto).
  simpl. rewrite length_zero_iff, Hb.
  destruct (optional_trim _ _) as [d|e]; [|eauto].
  edestruct createTodo_throws as [e ->]; [|eauto].
  right. right. autorewrite with js_get.
  unfold js_or at 2. rewrite Hs. unfold js_or. by rewrite Hs.
Qed.

Lemma router_authenticated r req now db uid :
  user_id req = Some uid ->
  router r req now db =
    match r with
    | GET_todos => (db, getTodosController req db)
    | POST_todos => createTodoController req now db
    | GET_todo => (db, getTodoController req db)
    | PUT_todo => updateTodoController req now db
    | DELETE_todo => deleteTodoController req db
    | PATCH_toggle => toggleTodoStatusController req now db
    end.
Proof.
  unfold user_id, router. by destruct (req_user req) as [[|]|].
Qed.

(** C1, as stated, fails: a create whose title has 256 code units breaks a
    validation constraint, and the response carries the issue of the schema
    with status code 500, not 400. *)
Lemma create_title_too_long_is_500 :
  let req := request_of alice (titled (repeat 97%N 256)) 0 in
  user_id req = Some alice
  /\ fails_constraint (req_body req) = true
  /\ router POST_todos req 0 empty_db
     = (empty_db,
        failure 500
          (IssuesText [Issue "title" too_big
                         (Some "Title must be 255 characters or less")]))
  /\ code (router POST_todos req 0 empty_db).2 <> 400%nat.
Proof. vm_compute. repeat split; done. Qed.

(** C1, amended: for a create of an authenticated caller, a title that is
    missing, empty or only white space gives the failure envelope with the
    message [Title is required] and status code 400; a title longer than
    255 after trimming, or (the title not being blank) a description longer
    than 1000 after trimming, gives the failure envelope with status code
    500; in each case the collection is left as it was. *)
Theorem create_invalid_payload_response req now db uid :
  user_id req = Some uid ->
  (blank_title (get (req_body req) "title") = true ->
     router POST_todos req now db
     = (db, failure 400 (Text "Title is required")))
  /\ (title_too_long (get (req_body req) "title") = true ->
       exists m, router POST_todos req now db = (db, failure 500 m))
  /\ (blank_title (get (req_body req) "title") = false ->
       description_too_long (get (req_body req) "description") = true ->
       exists m, router POST_todos req now db = (db, failure 500 m)).
Proof.
  intros Hu. rewrite (router_authenticated _ _ _ _ _ Hu).
  split; [|split].
  - apply createTodoController_blank.
  - apply createTodoController_title_too_long.
  - apply createTodoController_description_too_long.
Qed.

Lemma create_invalid_payload_response_witness :
  router POST_todos (request_of alice (titled (str "   ")) 0) 0 empty_db
  = (empty_db, failure 400 (Text "Title is required")).
Proof.
  apply (create_invalid_payload_response
           (request_of alice (titled (str "   ")) 0) 0 empty_db alice);
    reflexivity.
Defined.

(** C2: for a create of an authenticated caller, whatever the body holds
    (a [user] or [owner] property included): a valid body answers 201 with
    an item whose owner is the caller, and that item is the one inserted;
    and whatever the outcome, the collection is either unchanged or has
    gained exactly that one item owned by the caller. *)
Theorem create_owner_is_caller req now db uid :
  user_id req = Some uid ->
  (valid_title (get (req_body req) "title") = true ->
   valid_description (get (req_body req) "description") = true ->
   valid_create_status (get (req_body req) "status") = true ->
   exists doc, router POST_todos req now db
                 = (inserted doc db, created_response doc)
               /\ user doc = uid)
  /\ (forall db' resp, router POST_todos req now db = (db', resp) ->
        (db' = db /\ success resp = false /\ data resp = None)
        \/ (exists doc, db' = inserted doc db /\ resp = created_response doc
                        /\ user doc = uid)).
Proof.
  intros Hu. rewrite (router_authenticated _ _ _ _ _ Hu). split.
  - intros Ht Hd Hs. eexists. split.
    + by apply createTodoController_valid.
    + done.
  - intros db' resp [H | (doc & uid' & Hu' & -> & -> & _ & Hdoc & _)]%createTodoController_cases;
      [by left | right].
    exists doc. repeat split; try done. congruence.
Qed.

Lemma create_owner_is_caller_witness :
  exists doc,
    router POST_todos
      (request_of alice (<["user" := JStr bob]> (<["owner" := JStr bob]>
                           (titled (str "Buy milk")))) 0) 7 empty_db
    = (inserted doc empty_db, created_response doc)
    /\ user doc = alice.
Proof.
  apply (create_owner_is_caller
           (request_of alice (<["user" := JStr bob]> (<["owner" := JStr bob]>
                                (titled (str "Buy milk")))) 0)
           7 empty_db alice); reflexivity.
Defined.

(** C9: a create whose title is empty or only white space is rejected with
    [Title is required] and status code 400; one whose title has 256 code
    units after trimming fails (failure envelope with status code 500,
    nothing written); one
    whose title has 255 after trimming, the rest of the body being valid,
    succeeds with the trimmed title. *)
Theorem create_title_boundaries req now db uid s :
  user_id req = Some uid ->
  get (req_body req) "title" = JStr s ->
  (forallb is_ws s = true ->
     router POST_todos req now db
     = (db, failure 400 (Text "Title is required")))
  /\ (length (trim s) = 256%nat ->
       exists m, router POST_todos req now db = (db, failure 500 m))
  /\ (length (trim s) = 255%nat ->
       valid_description (get (req_body req) "description") = true ->
       valid_create_status (get (req_body req) "status") = true ->
       exists doc, router POST_todos req now db
                     = (inserted doc db, created_response doc)
                   /\ title doc = trim s).
Proof.
  intros Hu Ht. rewrite (router_authenticated _ _ _ _ _ Hu).
  split; [|split].
  - intros Hw. apply createTodoController_blank.
    unfold blank_title. rewrite Ht, (trim_whitespace _ Hw).
    by rewrite orb_true_r.
  - intros Hl. apply createTodoController_title_too_long.
    rewrite Ht. unfold title_too_long. rewrite Hl. done.
  - intros Hl Hd Hs. eexists. split.
    + apply createTodoController_valid; try done.
      rewrite Ht. unfold valid_title. by rewrite Hl.
    + unfold created. rewrite Ht. done.
Qed.

Lemma create_title_boundaries_witness :
  exists doc,
    router POST_todos (request_of alice (titled (repeat 97%N 255)) 0) 7 empty_db
    = (inserted doc empty_db, created_response doc)
    /\ title doc = trim (repeat 97%N 255).
Proof.
  apply (create_title_boundaries
           (request_of alice (titled (repeat 97%N 255)) 0) 7 empty_db alice
           (repeat 97%N 255)); reflexivity.
Defined.

(** C10: a create whose status is falsy (the empty string, [null], [0],
    [false]), the title and description being valid, succeeds, and the item
    inserted and returned has the status [pending]. *)
Theorem create_falsy_status_is_pending req now db uid :
  user_id req = Some uid ->
  truthy (get (req_body req) "status") = false ->
  valid_title (get (req_body req) "title") = true ->
  valid_description (get (req_body req) "description") = true ->
  exists doc, router POST_todos req now db
                = (inserted doc db, created_response doc)
              /\ status doc = str "pending".
Proof.
  intros Hu Hf Ht Hd. rewrite (router_authenticated _ _ _ _ _ Hu).
  eexists. split.
  - apply createTodoController_valid; try done.
    unfold valid_create_status. by rewrite Hf.
  - unfold created. by rewrite (js_or_falsy _ _ Hf).
Qed.

Lemma create_falsy_status_is_pending_witness :
  exists doc,
    router POST_todos
      (request_of alice (<["status" := JStr []]> (titled (str "Buy milk"))) 0)
      7 empty_db
    = (inserted doc empty_db, created_response doc)
    /\ status doc = str "pending".
Proof.
  apply (create_falsy_status_is_pending
           (request_of alice (<["status" := JStr []]> (titled (str "Buy milk"))) 0)
           7 empty_db alice); reflexivity.
Defined.

(** ** Lookups by identifier and owner *)

Section unique_identifiers.
Context (db : collection) (Hnd : unique_ids db).

Lemma unique_ids_lookup i j (x y : todo) :
  docs db !! i = Some x -> docs db !! j = Some y -> _id x = _id y -> i = j.
Proof.
  intros Hi Hj Hxy. apply (NoDup_lookup _ i j (_id x) Hnd).
  - by rewrite list_lookup_fmap, Hi.
  - by rewrite list_lookup_fmap, Hj, Hxy.
Qed.

Lemma unique_ids_eq (x y : todo) :
  x ∈ docs db -> y ∈ docs db -> _id x = _id y -> x = y.
Proof.
  intros [i Hi]%list_elem_of_lookup [j Hj]%list_elem_of_lookup Hxy.
  assert (i = j) by (by eapply unique_ids_lookup). congruence.
Qed.

(** The filter [{ _id, user }] of an item finds that item, at its index. *)
Lemma list_find_own i d :
  docs db !! i = Some d ->
  list_find (matches (_id d) (user d)) (docs db) = Some (i, d).
Proof.
  intros Hi. apply list_find_Some. split; [done|]. split; [done|].
  intros j y Hj Hlt [Hid _].
  assert (i = j) by (by eapply unique_ids_lookup). lia.
Qed.

(** An identifier held by an item of another owner matches nothing of the
    caller's. *)
Lemma list_find_foreign uid d :
  d ∈ docs db -> user d <> uid ->
  list_find (matches (_id d) uid) (docs db) = None.
Proof.
  intros Hd Hu. apply list_find_None, Forall_forall.
  intros y Hy [Hid Huy]. apply Hu. rewrite <- Huy. f_equal.
  symmetry. by apply unique_ids_eq.
Qed.
End unique_identifiers.

(** Neither does an identifier that no item holds. *)
Lemma list_find_absent db uid id :
  id ∉ _id <$> docs db -> list_find (matches id uid) (docs db) = None.
Proof.
  intros Hid. apply list_find_None, Forall_forall.
  intros y Hy [Hy' _]. apply Hid. rewrite <- Hy'. by apply list_elem_of_fmap_2.
Qed.

Lemma newStatus_allowed s : newStatus s ∈ statuses.
Proof.
  unfold newStatus, statuses. repeat case_bool_decide; set_solver.
Qed.

Lemma statuses_nonempty s : s ∈ statuses -> s <> [].
Proof.
  unfold statuses. rewrite !elem_of_cons, elem_of_nil.
  intros [->|[->|[->|[]]]]; done.
Qed.

(** The item routes of an authenticated caller, by what the lookup finds. *)
Section authenticated_caller.
Context (req : request) (uid : list N) (Hu : user_id req = Some uid).

Lemma getTodoController_miss db :
  list_find (matches (req_id req) uid) (docs db) = None ->
  getTodoController req db = not_found.
Proof.
  intros Hf. unfold getTodoController, getTodo, Todo_findOne.
  by rewrite Hu, Hf.
Qed.

Lemma getTodoController_hit db i d :
  list_find (matches (req_id req) uid) (docs db) = Some (i, d) ->
  getTodoController req db = item_response d None.
Proof.
  intros Hf. unfold getTodoController, getTodo, Todo_findOne.
  by rewrite Hu, Hf.
Qed.

Lemma deleteTodoController_miss db :
  list_find (matches (req_id req) uid) (docs db) = None ->
  deleteTodoController req db = (db, not_found).
Proof.
  intros Hf. unfold deleteTodoController, deleteTodo, Todo_deleteOne.
  by rewrite Hu, Hf.
Qed.

Lemma deleteTodoController_hit db i d :
  list_find (matches (req_id req) uid) (docs db) = Some (i, d) ->
  deleteTodoController req db
  = (removed i db,
     {| code := 200; success := true; data := None;
        message := Some (Text "Todo deleted successfully");
        count := None; error_tag := None |}).
Proof.
  intros Hf. unfold deleteTodoController, deleteTodo, Todo_deleteOne.
  by rewrite Hu, Hf.
Qed.

Lemma toggleTodoStatusController_miss now db :
  list_find (matches (req_id req) uid) (docs db) = None ->
  toggleTodoStatusController req now db = (db, not_found).
Proof.
  intros Hf.
  unfold toggleTodoStatusController, toggleTodoStatus, Todo_findOne.
  by rewrite Hu, Hf.
Qed.

Lemma toggleTodoStatus_hit now db i d :
  list_find (matches (req_id req) uid) (docs db) = Some (i, d) ->
  toggleTodoStatus req (req_id req) now db
  = (replaced i (toggled now d) db, Ok (Some (toggled now d))).
Proof.
  intros Hf. unfold toggleTodoStatus, Todo_findOne.
  rewrite Hu, Hf. simpl. unfold Todo_findOneAndUpdate, validate_update. simpl.
  pose proof (newStatus_allowed (status d)) as Hin.
  pose proof (statuses_nonempty _ Hin) as Hne.
  rewrite (bool_decide_eq_true_2 _ Hin).
  destruct (newStatus (status d)) eqn:E; [done|]. simpl.
  rewrite Hf. unfold replaced, toggled, apply_update. simpl. by rewrite E.
Qed.
End authenticated_caller.

(** ** Update *)

Lemma set_title_valid v u :
  bool_decide (v = JUndefined) || valid_title v = true ->
  set_title v u
  = Ok (inr match v with
            | JStr t => <["title" := JStr (trim t)]> u
            | _ => u
            end).
Proof.
  unfold set_title. case_bool_decide as E; [by rewrite E|]. simpl.
  intros (t & -> & Hl & Ht)%valid_title_inv. rewrite Ht. simpl.
  rewrite length_zero_iff, bool_decide_eq_false_2; [done|].
  intros E'. rewrite E' in Hl. simpl in Hl. lia.
Qed.

Lemma set_description_valid v u :
  valid_description v = true ->
  set_description v u
  = Ok (inr match v with
            | JUndefined => u
            | JStr d => <["description" := JStr (trim d)]> u
            | _ => <["description" := JUndefined]> u
            end).
Proof. by destruct v. Qed.

Lemma set_status_valid v u :
  bool_decide (v = JUndefined) || includes_status v = true ->
  set_status v u
  = Ok (inr match v with
            | JUndefined => u
            | _ => <["status" := v]> u
            end).
Proof.
  unfold set_status. case_bool_decide as E; [by rewrite E|]. simpl.
  intros ->. by destruct v.
Qed.

Lemma validate_update_ok v :
  (forall t, v_title v = Some t -> t <> [] /\ (length t <= 255)%nat) ->
  (forall d, v_description v = Some d -> (length d <= 1000)%nat) ->
  (forall s, v_status v = Some s -> s ∈ statuses) ->
  (forall u, v_user v = Some u -> u <> []) ->
  validate_update v = [].
Proof.
  destruct v as [t d s u ca ua]. simpl. intros Ht Hd Hs Hu.
  unfold validate_update, when_set, required, maxlength, enum. simpl.
  assert (E1 : match t with
               | Some _ => match t with Some (_ :: _) => true | _ => false end
                           && match t with Some s0 => (length s0 <=? 255)%nat | None => true end
               | None => true
               end = true).
  { destruct t as [[|c t]|]; try done.
    - by destruct (Ht [] eq_refl).
    - destruct (Ht _ eq_refl) as [_ Hl]. cbn [andb]. by apply Nat.leb_le. }
  assert (E2 : match d with Some s0 => (length s0 <=? 1000)%nat | None => true end = true).
  { destruct d as [d|]; [|done]. apply Nat.leb_le. by apply Hd. }
  assert (E3 : match s with
               | Some _ => match s with Some (_ :: _) => true | _ => false end
                           && match s with Some s0 => bool_decide (s0 ∈ statuses) | None => true end
               | None => true
               end = true).
  { destruct s as [s|]; [|done].
    pose proof (Hs _ eq_refl) as Hin. pose proof (statuses_nonempty _ Hin).
    destruct s; [done|]. cbn [andb]. by apply bool_decide_eq_true. }
  assert (E4 : match u with
               | Some _ => match u with Some (_ :: _) => true | _ => false end
               | None => true
               end = true).
  { destruct u as [[|c u]|]; try done. by destruct (Hu [] eq_refl). }
  by rewrite E1, E2, E3, E4.
Qed.

Lemma valid_update_title_inv v :
  bool_decide (v = JUndefined) || valid_title v = true ->
  v = JUndefined \/ exists t, v = JStr t /\ (1 <= length (trim t) <= 255)%nat.
Proof.
  case_bool_decide; [by left|]. simpl.
  intros (t & -> & Hl & _)%valid_title_inv. right. eauto.
Qed.

Lemma valid_update_status_inv v :
  bool_decide (v = JUndefined) || includes_status v = true ->
  v = JUndefined \/ exists s, v = JStr s /\ s ∈ statuses.
Proof.
  case_bool_decide; [by left|]. simpl.
  intros ?%includes_status_str. by right.
Qed.

Lemma valid_description_cases v :
  valid_description v = true ->
  v = JUndefined \/ v = JNull
  \/ exists d, v = JStr d /\ (length (trim d) <= 1000)%nat.
Proof.
  destruct v; try done; auto. unfold valid_description.
  intros H%Nat.leb_le. right. right. eauto.
Qed.

(** What the controller hands to [updateTodo] for a valid body, read
    through the schema. *)
Lemma build_updateData_valid body uid :
  valid_update_body body = true -> uid <> [] ->
  exists u, build_updateData body = Ok (inr u)
    /\ parse (partial todoSchema) (<["user" := JStr uid]> u)
       = Ok (update_of uid body)
    /\ cast (update_of uid body) = update_of uid body
    /\ validate_update (update_of uid body) = [].
Proof.
  unfold valid_update_body.
  intros [[Ht Hd]%andb_prop Hs]%andb_prop Hu.
  unfold build_updateData.
  rewrite (set_title_valid _ _ Ht). cbn [bind].
  rewrite (set_description_valid _ _ Hd). cbn [bind].
  rewrite (set_status_valid _ _ Hs).
  eexists. split; [done|].
  assert (Hu1 : (1 <= length uid)%nat) by (destruct uid; [done | simpl; lia]).
  assert (Hus : z_string (Some (1%nat, "User is required")) None "user" (JStr uid) = []).
  { apply z_string_ok; [by intros ? ? [= <- <-] | done]. }
  apply valid_update_title_inv in Ht. apply valid_description_cases in Hd.
  apply valid_update_status_inv in Hs.
  split; [|split].
  - destruct Ht as [Et | (t & Et & Hl)], Hd as [Ed | [Ed | (d & Ed & Hdl)]],
      Hs as [Es | (s & Es & Hin)]; unfold update_of; rewrite Et, Ed, Es.
    all: rewrite parse_no_issues;
      [ by autorewrite with js_get
      | rewrite schema_issues_partial; autorewrite with js_get;
        cbn [z_optional app]; rewrite ?Hus; unfold todoStatusSchema;
        cbn [z_enum];
        rewrite ?z_string_ok, ?bool_decide_eq_true_2; try done;
        try (intros ? ? [= <- <-]; lia) ].
  - unfold cast, update_of. simpl. by rewrite !fmap_trim_idemp.
  - apply validate_update_ok; unfold update_of; simpl.
    + destruct Ht as [-> | (t & -> & Hl)]; [done|]. simpl. intros ? [= <-].
      split; [|lia]. intros E. rewrite E in Hl. simpl in Hl. lia.
    + destruct Hd as [-> | [-> | (d & -> & Hl)]]; try done. simpl.
      by intros ? [= <-].
    + destruct Hs as [-> | (s & -> & Hl)]; try done. simpl.
      by intros ? [= <-].
    + by intros ? [= <-].
Qed.

Lemma updateTodoController_valid req now db uid :
  user_id req = Some uid ->
  valid_update_body (req_body req) = true ->
  updateTodoController req now db
  = match list_find (matches (req_id req) uid) (docs db) with
    | Some (i, d) =>
        let d' := apply_update (update_of uid (req_body req)) now d in
        (replaced i d' db,
         item_response d' (Some (Text "Todo updated successfully")))
    | None => (db, not_found)
    end.
Proof.
  intros Hu Hv.
  destruct (build_updateData_valid _ uid Hv (user_id_nonempty _ _ Hu))
    as (u & Hb & Hp & Hc & Hval).
  unfold updateTodoController, updateTodo, Todo_findOneAndUpdate.
  rewrite Hb, Hu, Hp, Hc, Hval.
  by destruct (list_find _ _) as [[i d]|].
Qed.

(** An update whose body is not valid never reaches the lookup: one of the
    checks of the controller answers, or a [trim] throws, or the schema
    refuses a title or a description that is too long. *)
Lemma parse_partial_too_long uid u :
  (exists t, get u "title" = JStr t /\ (255 < length t)%nat)
  \/ (exists d, get u "description" = JStr d /\ (1000 < length d)%nat) ->
  exists issues, issues <> []
    /\ parse (partial todoSchema) (<["user" := JStr uid]> u)
       = Throw (ZodError issues).
Proof.
  intros H.
  assert (Hi : schema_issues (partial todoSchema) (<["user" := JStr uid]> u) <> []).
  { rewrite schema_issues_partial. autorewrite with js_get.
    destruct H as [(t & -> & Hl) | (d & -> & Hl)].
    - simpl. destruct (Nat.ltb_spec 255 (length t)); [|lia].
      intros [H1 _]%app_nil. by apply app_nil in H1 as [_ H1].
    - intros [_ [H1 _]%app_nil]%app_nil. simpl in H1.
      by destruct (Nat.ltb_spec 1000 (length d)); [|lia]. }
  eexists. split; [exact Hi | by apply parse_issues].
Qed.

Lemma set_title_outcome v u :
  set_title v u = Ok (inl (failure 400 (Text "Title cannot be empty")))
  \/ (exists w, set_title v u = Throw (TypeError w))
  \/ (set_title v u = Ok (inr u) /\ v = JUndefined)
  \/ (exists s, set_title v u = Ok (inr (<["title" := JStr (trim s)]> u))
        /\ v = JStr s /\ trim s <> []).
Proof.
  unfold set_title. case_bool_decide; [by right; right; left|].
  destruct (negb (truthy v)); [by left|].
  destruct v; try (right; left; by eauto). simpl.
  rewrite length_zero_iff. case_bool_decide; [by left|].
  right. right. right. eauto.
Qed.

Lemma set_description_outcome v u :
  (exists w, set_description v u = Throw (TypeError w))
  \/ (set_description v u = Ok (inr u) /\ v = JUndefined)
  \/ (set_description v u = Ok (inr (<["description" := JUndefined]> u))
      /\ v = JNull)
  \/ (exists d, set_description v u
                = Ok (inr (<["description" := JStr (trim d)]> u))
        /\ v = JStr d).
Proof.
  unfold set_description.
  destruct v; simpl; eauto 6.
Qed.

Lemma set_status_outcome v u :
  set_status v u
  = Ok (inl (failure 400
         (Text "Invalid status. Must be one of: pending, in_progress, completed")))
  \/ (set_status v u = Ok (inr u) /\ v = JUndefined)
  \/ (set_status v u = Ok (inr (<["status" := v]> u))
      /\ includes_status v = true).
Proof.
  unfold set_status. case_bool_decide; [by right; left|].
  destruct (includes_status v); simpl; auto.
Qed.

Lemma build_updateData_invalid body :
  valid_update_body body = false ->
  (exists resp, build_updateData body = Ok (inl resp)
     /\ (resp = failure 400 (Text "Title cannot be empty")
         \/ resp = failure 400
              (Text "Invalid status. Must be one of: pending, in_progress, completed")))
  \/ (exists w, build_updateData body = Throw (TypeError w))
  \/ (exists u, build_updateData body = Ok (inr u)
        /\ ((exists t, get u "title" = JStr t /\ (255 < length t)%nat)
            \/ (exists d, get u "description" = JStr d /\ (1000 < length d)%nat))).
Proof.
  intros Hv. unfold build_updateData.
  destruct (set_title_outcome (get body "title") ∅)
    as [-> | [[w ->] | [[-> Et] | (t & -> & Et & Hne)]]]; cbn [bind];
    [left; eauto | right; left; eauto | |].
  all: destruct (set_description_outcome (get body "description")
         (match get body "title" with JStr t => <["title" := JStr (trim t)]> ∅ | _ => ∅ end))
    as [[w Hd] | [[Hd Ed] | [[Hd Ed] | (d & Hd & Ed)]]]; rewrite Et in Hd; rewrite Hd; cbn [bind];
    try (right; left; by eauto).
  all: match goal with |- context [set_status ?v ?u] =>
    destruct (set_status_outcome v u) as [-> | [[-> Es] | [-> Es]]] end;
    try (left; by eauto).
  all: right; right; eexists; (split; [done|]).
  all: unfold valid_update_body, valid_title in Hv; rewrite Et, Ed in Hv;
    rewrite ?Es in Hv.
  all: try rewrite (proj2 (Nat.leb_le 1 (length (trim t))))
         in Hv by (destruct (trim t); [done | simpl; lia]).
  all: simpl in Hv; rewrite ?orb_true_r, ?andb_true_r in Hv.
  all: autorewrite with js_get.
  all: try done.
  all: repeat match type of Hv with
         | (_ && _) = false => apply andb_false_iff in Hv as [Hv | Hv]
         end.
  all: apply Nat.leb_gt in Hv.
  all: first [ left; eexists; split; [done|]; lia
             | right; eexists; split; [done|]; lia ].
Qed.

Lemma updateTodoController_invalid req now uid :
  user_id req = Some uid ->
  valid_update_body (req_body req) = false ->
  exists resp, update_rejection resp
    /\ forall db, updateTodoController req now db = (db, resp).
Proof.
  intros Hu Hv. unfold updateTodoController, update_rejection.
  destruct (build_updateData_invalid _ Hv)
    as [(resp & -> & Hr) | [[w ->] | (u & -> & Hl)]].
  - exists resp. split; [tauto | done].
  - eexists. split; [|done]. do 3 right. by eexists.
  - unfold updateTodo. rewrite Hu.
    destruct (parse_partial_too_long uid u Hl) as (issues & Hne & ->).
    eexists. split; [|done]. right. right. left. by exists issues.
Qed.

(** ** Owner scoping *)

(** The first match of the filter [{ _id, user }] is found among the
    caller's own items. *)
Lemma list_find_owned id uid (l : list todo) :
  snd <$> list_find (matches id uid) l
  = snd <$> list_find (matches id uid)
              (List.filter (fun d => bool_decide (user d = uid)) l).
Proof.
  induction l as [|d l IH]; [done|]. simpl.
  case_bool_decide as Hu; simpl.
  - case_decide; [done|].
    destruct (list_find _ l) as [[i x]|],
      (list_find _ (List.filter _ l)) as [[j y]|]; simpl in *; congruence.
  - case_decide as Hm; [by destruct Hm|].
    destruct (list_find _ l) as [[i x]|]; simpl in *; done.
Qed.

Lemma Todo_findOne_owned id uid db db' :
  owned_by uid db = owned_by uid db' ->
  Todo_findOne id uid db = Todo_findOne id uid db'.
Proof.
  intros H. unfold Todo_findOne.
  rewrite (list_find_owned id uid (docs db)), (list_find_owned id uid (docs db')).
  unfold owned_by in H. by rewrite H.
Qed.

(** The response of the four item routes is a function of the request and
    of what [findOne] returns for the caller. *)
Lemma item_routes_response r req now db db' uid :
  r ∈ [GET_todo; PUT_todo; DELETE_todo; PATCH_toggle] ->
  user_id req = Some uid ->
  Todo_findOne (req_id req) uid db = Todo_findOne (req_id req) uid db' ->
  (router r req now db).2 = (router r req now db').2.
Proof.
  intros Hr Hu Hf. rewrite !(router_authenticated _ _ _ _ _ Hu).
  unfold Todo_findOne in Hf.
  rewrite !elem_of_cons, elem_of_nil in Hr.
  destruct Hr as [-> | [-> | [-> | [-> | []]]]].
  - unfold getTodoController, getTodo, Todo_findOne. rewrite Hu.
    destruct (list_find _ (docs db)) as [[i d]|],
      (list_find _ (docs db')) as [[j d']|]; simpl in *; congruence.
  - unfold updateTodoController.
    destruct (build_updateData _) as [[resp|u]|e]; try done.
    unfold updateTodo. rewrite Hu.
    destruct (parse _ _) as [v|e]; [|done].
    unfold Todo_findOneAndUpdate.
    destruct (validate_update _); [|done].
    destruct (list_find _ (docs db)) as [[i d]|],
      (list_find _ (docs db')) as [[j d']|]; simpl in *; congruence.
  - unfold deleteTodoController, deleteTodo, Todo_deleteOne. rewrite Hu.
    destruct (list_find _ (docs db)) as [[i d]|],
      (list_find _ (docs db')) as [[j d']|]; simpl in *; congruence.
  - unfold toggleTodoStatusController, toggleTodoStatus, Todo_findOne.
    rewrite Hu. unfold Todo_findOneAndUpdate.
    destruct (list_find _ (docs db)) as [[i d]|] eqn:E1,
      (list_find _ (docs db')) as [[j d']|] eqn:E2; simpl in *; try congruence.
    injection Hf as <-.
    by destruct (validate_update _).
Qed.

(** When nothing matches, the collection is left as it is. *)
Lemma item_routes_miss r req now db uid :
  r ∈ [GET_todo; PUT_todo; DELETE_todo; PATCH_toggle] ->
  user_id req = Some uid ->
  list_find (matches (req_id req) uid) (docs db) = None ->
  (router r req now db).1 = db.
Proof.
  intros Hr Hu Hf. rewrite !(router_authenticated _ _ _ _ _ Hu).
  rewrite !elem_of_cons, elem_of_nil in Hr.
  destruct Hr as [-> | [-> | [-> | [-> | []]]]]; [done| | |].
  - unfold updateTodoController.
    destruct (build_updateData _) as [[resp|u]|e]; try done.
    unfold updateTodo. rewrite Hu.
    destruct (parse _ _) as [v|e]; [|done].
    unfold Todo_findOneAndUpdate.
    destruct (validate_update _); [|done]. by rewrite Hf.
  - by rewrite (deleteTodoController_miss _ _ Hu _ Hf).
  - by rewrite (toggleTodoStatusController_miss _ _ Hu _ _ Hf).
Qed.

(** Without a match, Get, Delete and Toggle answer 404; so does an Update
    whose body is valid. *)
Lemma item_routes_not_found r req now db uid :
  r ∈ [GET_todo; PUT_todo; DELETE_todo; PATCH_toggle] ->
  user_id req = Some uid ->
  (r = PUT_todo -> valid_update_body (req_body req) = true) ->
  list_find (matches (req_id req) uid) (docs db) = None ->
  router r req now db = (db, not_found).
Proof.
  intros Hr Hu Hv Hf. rewrite !(router_authenticated _ _ _ _ _ Hu).
  rewrite !elem_of_cons, elem_of_nil in Hr.
  destruct Hr as [-> | [-> | [-> | [-> | []]]]].
  - by rewrite (getTodoController_miss _ _ Hu _ Hf).
  - by rewrite (updateTodoController_valid _ _ _ _ Hu (Hv eq_refl)), Hf.
  - by apply deleteTodoController_miss with uid.
  - by apply toggleTodoStatusController_miss with uid.
Qed.

(** ** Claims on the item routes *)

(** C3, as stated, fails: an Update by Alice of Bob's item with a blank
    title is answered 400 before the collection is consulted, not 404; the
    answer is the same when no item has the identifier. *)
Lemma update_foreign_blank_title_is_400 :
  let req := request_of alice (titled []) 0 in
  bobs_db = (router POST_todos (request_of bob (titled (str "Buy milk")) 0) 5 empty_db).1
  /\ user_id req = Some alice
  /\ bobs_item ∈ docs bobs_db /\ _id bobs_item = req_id req
  /\ user bobs_item <> alice
  /\ router PUT_todo req 9 bobs_db
     = (bobs_db, failure 400 (Text "Title cannot be empty"))
  /\ router PUT_todo req 9 empty_db
     = (empty_db, failure 400 (Text "Title cannot be empty"))
  /\ code (router PUT_todo req 9 bobs_db).2 <> 404%nat.
Proof.
  repeat split; try by vm_compute.
  apply elem_of_cons. by left.
Qed.

(** C3, amended: for an authenticated caller and one of Get, Update, Delete
    and Toggle, on an identifier that an item of another owner holds and on
    an identifier that no item holds, the response is the same and the
    collection is left as it is; that response is 404 with [Todo not found]
    for Get, Delete and Toggle, and for an Update whose body is valid; an
    Update whose body is not valid is rejected before the lookup: it is
    answered with one validation failure (400 from a check of the
    controller, or 500 for the issues of the schema or a type error),
    whatever the collection holds, and so equally in both cases; and the
    response of these routes does not change with the items of other
    owners. *)
Theorem foreign_item_is_not_found r req now db1 db2 uid d :
  r ∈ [GET_todo; PUT_todo; DELETE_todo; PATCH_toggle] ->
  user_id req = Some uid ->
  unique_ids db1 -> d ∈ docs db1 -> _id d = req_id req -> user d <> uid ->
  req_id req ∉ _id <$> docs db2 ->
  (router r req now db1).2 = (router r req now db2).2
  /\ (router r req now db1).1 = db1
  /\ (router r req now db2).1 = db2
  /\ ((r = PUT_todo -> valid_update_body (req_body req) = true) ->
      router r req now db1 = (db1, not_found)
      /\ router r req now db2 = (db2, not_found))
  /\ (r = PUT_todo -> valid_update_body (req_body req) = false ->
      exists resp, update_rejection resp
        /\ code resp ∈ [400; 500]%nat /\ success resp = false
        /\ router r req now db1 = (db1, resp)
        /\ router r req now db2 = (db2, resp)
        /\ forall db, router r req now db = (db, resp))
  /\ (forall db db', owned_by uid db = owned_by uid db' ->
        (router r req now db).2 = (router r req now db').2).
Proof.
  intros Hr Hu Hnd Hd Hid Hud Habs.
  assert (H1 : list_find (matches (req_id req) uid) (docs db1) = None).
  { rewrite <- Hid. by apply list_find_foreign. }
  assert (H2 : list_find (matches (req_id req) uid) (docs db2) = None).
  { by apply list_find_absent. }
  split; [|split; [|split; [|split; [|split]]]].
  - apply item_routes_response with uid; try done.
    unfold Todo_findOne. by rewrite H1, H2.
  - by apply item_routes_miss with uid.
  - by apply item_routes_miss with uid.
  - intros Hv. split; by apply item_routes_not_found with uid.
  - intros -> Hv.
    destruct (updateTodoController_invalid req now uid Hu Hv) as (resp & Hrej & Hall).
    exists resp. split; [done|].
    assert (Hrt : forall db, router PUT_todo req now db = (db, resp)).
    { intros db. by rewrite (router_authenticated _ _ _ _ _ Hu). }
    split; [|split; [|by auto]].
    + destruct Hrej as [-> | [-> | [(l & _ & ->) | [w ->]]]]; simpl;
        rewrite !elem_of_cons; auto.
    + by destruct Hrej as [-> | [-> | [(l & _ & ->) | [w ->]]]].
  - intros db db' Ho. apply item_routes_response with uid; try done.
    by apply Todo_findOne_owned.
Qed.

Lemma foreign_item_is_not_found_witness :
  (router PATCH_toggle (request_of alice ∅ 0) 9 bobs_db = (bobs_db, not_found)
   /\ router PATCH_toggle (request_of alice ∅ 0) 9 empty_db = (empty_db, not_found))
  /\ (exists resp,
        update_rejection resp
        /\ code resp ∈ [400; 500]%nat /\ success resp = false
        /\ router PUT_todo (request_of alice (titled []) 0) 9 bobs_db
           = (bobs_db, resp)
        /\ router PUT_todo (request_of alice (titled []) 0) 9 empty_db
           = (empty_db, resp)
        /\ forall db, router PUT_todo (request_of alice (titled []) 0) 9 db
                      = (db, resp)).
Proof.
  split.
  - apply (foreign_item_is_not_found PATCH_toggle (request_of alice ∅ 0) 9
             bobs_db empty_db alice bobs_item).
    + repeat constructor.
    + reflexivity.
    + apply NoDup_singleton.
    + apply elem_of_cons. by left.
    + reflexivity.
    + discriminate.
    + apply not_elem_of_nil.
    + discriminate.
  - destruct (foreign_item_is_not_found PUT_todo (request_of alice (titled []) 0)
                9 bobs_db empty_db alice bobs_item) as (_ & _ & _ & _ & H & _).
    + apply elem_of_cons. right. apply elem_of_cons. by left.
    + reflexivity.
    + apply NoDup_singleton.
    + apply elem_of_cons. by left.
    + reflexivity.
    + discriminate.
    + apply not_elem_of_nil.
    + apply H; reflexivity.
Defined.

(** C4: the successor of a status is fixed ([pending] to [in_progress],
    [in_progress] to [completed], [completed] and every other value to
    [pending]); a toggle of an item of the caller replaces it in the
    collection by the item with the successor status and [updatedAt] set to
    the current time, every other field kept, and returns that item. *)
Theorem toggle_status_successor :
  newStatus (str "pending") = str "in_progress"
  /\ newStatus (str "in_progress") = str "completed"
  /\ newStatus (str "completed") = str "pending"
  /\ (forall s, s ∉ statuses -> newStatus s = str "pending")
  /\ (forall req now db uid i d,
        user_id req = Some uid ->
        unique_ids db -> docs db !! i = Some d ->
        _id d = req_id req -> user d = uid ->
        toggleTodoStatus req (req_id req) now db
        = (replaced i (toggled now d) db, Ok (Some (toggled now d)))
        /\ router PATCH_toggle req now db
           = (replaced i (toggled now d) db,
              item_response (toggled now d)
                (Some (StatusChangedTo (newStatus (status d)))))).
Proof.
  split; [done|]. split; [done|]. split; [done|]. split.
  - intros s Hs. unfold newStatus. repeat case_bool_decide; try done.
    all: exfalso; apply Hs; subst; unfold statuses; set_solver.
  - intros req now db uid i d Hu Hnd Hi Hid Hud.
    assert (Hf : list_find (matches (req_id req) uid) (docs db) = Some (i, d)).
    { rewrite <- Hid, <- Hud. by apply list_find_own. }
    pose proof (toggleTodoStatus_hit _ _ Hu now _ _ _ Hf) as Ht.
    split; [done|].
    rewrite (router_authenticated _ _ _ _ _ Hu).
    unfold toggleTodoStatusController. by rewrite Ht.
Qed.

Lemma toggle_status_successor_witness :
  toggleTodoStatus (request_of alice ∅ 1) 1 9 shared_db
  = (replaced 1 (toggled 9 alices_item) shared_db,
     Ok (Some (toggled 9 alices_item)))
  /\ router PATCH_toggle (request_of alice ∅ 1) 9 shared_db
     = (replaced 1 (toggled 9 alices_item) shared_db,
        item_response (toggled 9 alices_item)
          (Some (StatusChangedTo (newStatus (status alices_item))))).
Proof.
  destruct toggle_status_successor as (_ & _ & _ & _ & H).
  apply (H (request_of alice ∅ 1) 9%Z shared_db alice 1%nat alices_item).
  - reflexivity.
  - apply (bool_decide_unpack _). by vm_compute.
  - reflexivity.
  - reflexivity.
  - reflexivity.
Defined.

(** C8, as stated, fails: the body [{ description: null }] supplies a
    description; the Update of an item of the caller with it succeeds, and
    the description of the item is not replaced: the updated item, the one
    returned and stored, still holds the description it had. *)
Lemma update_null_description_is_kept :
  let body : gmap string JsVal := {[ "description" := JNull ]} in
  let req := request_of alice body 0 in
  let d' := apply_update (update_of alice body) 9 milk_item in
  milk_db = (router POST_todos (request_of alice milk_body 0) 1 empty_db).1
  /\ body !! "description" = Some JNull
  /\ router PUT_todo req 9 milk_db
     = (replaced 0 d' milk_db,
        item_response d' (Some (Text "Todo updated successfully")))
  /\ docs (replaced 0 d' milk_db) = [d']
  /\ description milk_item = Some (str "2 litres")
  /\ description d' = Some (str "2 litres")
  /\ updatedAt d' = 9%Z.
Proof. repeat split; by vm_compute. Qed.

(** C8, amended: an Update with a valid body of an item of the caller
    answers 200 with the updated item and replaces the item in the
    collection by it; the updated item has the trimmed title, the trimmed
    description and the status of the body where the body supplies them as
    strings and the stored ones otherwise (a description supplied as [null]
    is left as it is stored, like an absent one), [updatedAt] set to the
    current time, and the identifier, owner and [createdAt] it had; the
    other items of the collection are as they were. *)
Theorem update_replaces_supplied_fields req now db uid i d :
  user_id req = Some uid ->
  valid_update_body (req_body req) = true ->
  unique_ids db -> docs db !! i = Some d ->
  _id d = req_id req -> user d = uid ->
  let d' := apply_update (update_of uid (req_body req)) now d in
  router PUT_todo req now db
  = (replaced i d' db,
     item_response d' (Some (Text "Todo updated successfully")))
  /\ title d' = match get (req_body req) "title" with
                | JStr t => trim t
                | _ => title d
                end
  /\ description d' = match get (req_body req) "description" with
                      | JStr s => Some (trim s)
                      | _ => description d
                      end
  /\ status d' = match get (req_body req) "status" with
                 | JStr s => s
                 | _ => status d
                 end
  /\ updatedAt d' = now
  /\ _id d' = _id d /\ user d' = user d /\ createdAt d' = createdAt d
  /\ docs (replaced i d' db) !! i = Some d'
  /\ (forall j, j <> i -> docs (replaced i d' db) !! j = docs db !! j).
Proof.
  intros Hu Hv Hnd Hi Hid Hud d'.
  assert (Hf : list_find (matches (req_id req) uid) (docs db) = Some (i, d)).
  { rewrite <- Hid, <- Hud. by apply list_find_own. }
  rewrite (router_authenticated _ _ _ _ _ Hu).
  rewrite (updateTodoController_valid _ _ _ _ Hu Hv), Hf.
  repeat split; try done.
  - unfold d', update_of. simpl. by destruct (get (req_body req) "title").
  - unfold d', update_of. simpl. by destruct (get (req_body req) "description").
  - unfold d', update_of. simpl. by destruct (get (req_body req) "status").
  - simpl. apply list_lookup_insert_eq. by eapply lookup_lt_Some.
  - intros j Hj. simpl. by apply list_lookup_insert_ne.
Qed.

Lemma update_replaces_supplied_fields_witness :
  let req := request_of alice (titled (str " Call Bob today ")) 1 in
  let d' := apply_update (update_of alice (req_body req)) 9 alices_item in
  router PUT_todo req 9 shared_db
  = (replaced 1 d' shared_db,
     item_response d' (Some (Text "Todo updated successfully")))
  /\ title d' = str "Call Bob today"
  /\ description d' = None
  /\ status d' = str "completed"
  /\ updatedAt d' = 9%Z.
Proof.
  intros req d'.
  destruct (update_replaces_supplied_fields req 9 shared_db alice 1%nat alices_item)
    as (H1 & H2 & H3 & H4 & H5 & _).
  - reflexivity.
  - reflexivity.
  - apply (bool_decide_unpack _). by vm_compute.
  - reflexivity.
  - reflexivity.
  - reflexivity.
  - split; [exact H1|]. by vm_compute.
Defined.

(** The scenario of a whole life: Alice creates [Buy milk], toggles it three
    times through [in_progress] and [completed] back to [pending], deletes
    it, and a Get of the same identifier is then answered 404. *)
Example buy_milk_scenario :
  let req := request_of alice (titled (str "Buy milk")) 0 in
  let status_after (p : collection * response) :=
    match data p.2 with
    | Some (Item d) => Some (status d)
    | _ => None
    end in
  let s1 := router POST_todos req 1 empty_db in
  let s2 := router PATCH_toggle req 2 s1.1 in
  let s3 := router PATCH_toggle req 3 s2.1 in
  let s4 := router PATCH_toggle req 4 s3.1 in
  let s5 := router DELETE_todo req 5 s4.1 in
  let s6 := router GET_todo req 6 s5.1 in
  status_after <$> [s1; s2; s3; s4]
  = Some <$> [str "pending"; str "in_progress"; str "completed"; str "pending"]
  /\ code s5.2 = 200%nat /\ docs s5.1 = []
  /\ s6.2 = not_found.
Proof. by vm_compute. Qed.

(** ** Invariants of the collection *)

Lemma Todo_findOneAndUpdate_cases todoId uid upd now db db' r :
  Todo_findOneAndUpdate todoId uid upd now db = (db', r) ->
  db' = db
  \/ exists i d, list_find (matches todoId uid) (docs db) = Some (i, d)
       /\ docs db !! i = Some d /\ matches todoId uid d
       /\ db' = replaced i (apply_update (cast upd) now d) db
       /\ r = Ok (Some (apply_update (cast upd) now d)).
Proof.
  unfold Todo_findOneAndUpdate.
  destruct (validate_update _); [|unchanged].
  destruct (list_find _ _) as [[i d]|] eqn:Hf; intros [= <- <-]; [|by left].
  pose proof Hf as (Hi & Hm & _)%list_find_Some. right. by exists i, d.
Qed.

Lemma updateTodo_cases req todoId updateData now db db' r :
  updateTodo req todoId updateData now db = (db', r) ->
  db' = db
  \/ exists i d v, docs db !! i = Some d /\ matches todoId (user d) d
       /\ parse (partial todoSchema) (<["user" := JStr (user d)]> updateData) = Ok v
       /\ db' = replaced i (apply_update (cast v) now d) db
       /\ r = Ok (apply_update (cast v) now d).
Proof.
  unfold updateTodo. destruct (user_id req) as [uid|]; [|unchanged].
  destruct (parse _ _) as [v|e] eqn:Hp; [|unchanged].
  destruct (Todo_findOneAndUpdate _ _ _ _ _) as [db1 r1] eqn:Hf.
  apply Todo_findOneAndUpdate_cases in Hf
    as [-> | (i & d & _ & Hi & Hm & -> & ->)].
  - destruct r1 as [[?|]|]; unchanged.
  - intros [= <- <-]. right. exists i, d, v.
    destruct Hm as [Hid Hu]. rewrite Hu. done.
Qed.

Lemma toggleTodoStatus_cases req todoId now db db' r :
  toggleTodoStatus req todoId now db = (db', r) ->
  db' = db
  \/ exists i d, docs db !! i = Some d /\ db' = replaced i (toggled now d) db.
Proof.
  unfold toggleTodoStatus.
  destruct (user_id req) as [uid|]; [|unchanged].
  unfold Todo_findOne.
  destruct (list_find _ _) as [[i d]|] eqn:Hf; [|unchanged].
  simpl. intros [-> | (j & d' & Hf' & Hj & Hm & -> & _)]%Todo_findOneAndUpdate_cases;
    [by left | right].
  rewrite Hf in Hf'. injection Hf' as <- <-. by exists i, d.
Qed.

Lemma deleteTodo_cases req todoId db db' r :
  deleteTodo req todoId db = (db', r) ->
  db' = db \/ exists i, db' = removed i db.
Proof.
  unfold deleteTodo, Todo_deleteOne.
  destruct (user_id req) as [uid|]; [|unchanged].
  destruct (list_find _ _) as [[i d]|]; intros [= <- <-]; [right | by left].
  by exists i.
Qed.

(** The effect of a request on the collection is that of one call of a
    data access function, or none. *)
Lemma router_effect r req now db :
  (router r req now db).1 = db
  \/ exists op, is_call op
       /\ (router r req now db).1 = apply_operation now op db.
Proof.
  unfold router. destruct (req_user req); [|by left].
  destruct r; try by left.
  - unfold createTodoController.
    destruct (negb _); [by left|].
    destruct (call_trim _ _) as [t|]; [|by left]. simpl.
    destruct (_ =? _)%nat; [by left|].
    destruct (optional_trim _ _) as [d|]; [|by left].
    match goal with
    | |- context [createTodo req ?td now db] => right; exists (Create req td)
    end.
    split; [done|]. simpl.
    by destruct (createTodo _ _ _ _) as [? [?|?]].
  - unfold updateTodoController.
    destruct (build_updateData _) as [[?|u]|]; try by left.
    right. exists (Update req (req_id req) u). split; [done|]. simpl.
    by destruct (updateTodo _ _ _ _ _) as [? [?|?]].
  - right. exists (Delete req (req_id req)). split; [done|]. simpl.
    unfold deleteTodoController.
    by destruct (deleteTodo _ _ _) as [? [?|?]].
  - right. exists (Toggle req (req_id req)). split; [done|]. simpl.
    unfold toggleTodoStatusController.
    by destruct (toggleTodoStatus _ _ _ _) as [? [[?|]|?]].
Qed.

Lemma call_one_write now op db :
  is_call op -> one_write db (apply_operation now op db).
Proof.
  destruct op as [req d|req id d|req id|req id|]; simpl; [| | | |done]; intros _.
  - destruct (createTodo _ _ _ _) as [db' r] eqn:H.
    apply createTodo_cases in H
      as [[-> _] | (doc & uid & _ & _ & -> & Hid & _ & Hs & _)]; [by left|].
    right. left. by exists doc.
  - destruct (updateTodo _ _ _ _ _) as [db' r] eqn:H.
    apply updateTodo_cases in H
      as [-> | (i & x & v & Hi & Hm & Hp & -> & _)]; [by left|].
    right. right. left. exists i, x, (apply_update (cast v) now x).
    repeat split; try done. simpl. intros Hx.
    destruct (v_status v) as [s|] eqn:Es; [|done]. simpl.
    by apply (parse_partial_status _ _ _ Hp).
  - destruct (toggleTodoStatus _ _ _ _) as [db' r] eqn:H.
    apply toggleTodoStatus_cases in H as [-> | (i & x & Hi & ->)]; [by left|].
    right. right. left. exists i, x, (toggled now x).
    repeat split; try done. intros _. apply newStatus_allowed.
  - destruct (deleteTodo _ _ _) as [db' r] eqn:H.
    apply deleteTodo_cases in H as [-> | (i & ->)]; [by left|].
    right. right. right. by exists i.
Qed.

Lemma apply_operation_one_write now op db :
  one_write db (apply_operation now op db).
Proof.
  destruct op as [| | | |r req]; try by apply call_one_write.
  simpl. destruct (router_effect r req now db) as [-> | (op & Hc & ->)].
  - by left.
  - by apply call_one_write.
Qed.

Lemma one_write_statuses db db' :
  one_write db db' -> statuses_allowed db -> statuses_allowed db'.
Proof.
  unfold statuses_allowed.
  intros [-> | [(doc & -> & _ & Hs) | [(i & d & d' & Hi & -> & _ & Hs) | (i & ->)]]] H;
    simpl; try done.
  - apply Forall_app. split; [done|]. by apply Forall_singleton.
  - apply Forall_insert; [done|]. apply Hs.
    by apply (Forall_lookup_1 _ _ _ _ H Hi).
  - by apply Forall_delete.
Qed.

Lemma one_write_ids db db' :
  one_write db db' ->
  unique_ids db /\ ids_below_next db -> unique_ids db' /\ ids_below_next db'.
Proof.
  unfold unique_ids, ids_below_next.
  intros [-> | [(doc & -> & Hid & _) | [(i & d & d' & Hi & -> & Hid & _) | (i & ->)]]]
    [Hnd Hb]; simpl; try done.
  - split.
    + rewrite fmap_app. apply NoDup_app. split; [done|]. split.
      * intros x Hx [->|[]%elem_of_nil]%elem_of_cons.
        apply list_elem_of_fmap in Hx as (y & Hy & Hin).
        rewrite Forall_forall in Hb. specialize (Hb _ Hin). lia.
      * apply NoDup_singleton.
    + apply Forall_app. split.
      * eapply Forall_impl; [done|]. simpl. intros. lia.
      * apply Forall_singleton. lia.
  - split.
    + rewrite list_fmap_insert, Hid. rewrite list_insert_id; [done|].
      by rewrite list_lookup_fmap, Hi.
    + apply Forall_insert; [done|]. rewrite Hid.
      by apply (Forall_lookup_1 _ _ _ _ Hb Hi).
  - split.
    + rewrite list_fmap_delete.
      eapply sublist_NoDup; [done|]. apply sublist_delete.
    + by apply Forall_delete.
Qed.

Lemma run_invariant (P : collection -> Prop) :
  (forall db db', one_write db db' -> P db -> P db') ->
  forall ops db, P db -> P (run ops db).
Proof.
  intros Hstep ops. induction ops as [|[now op] ops IH]; intros db H; [done|].
  simpl. apply IH. eapply Hstep; [|done]. apply apply_operation_one_write.
Qed.

(** In every collection that a history reaches from the empty one,
    identifiers are unique. *)
Lemma run_unique_ids ops : unique_ids (run ops empty_db).
Proof.
  apply (run_invariant (fun db => unique_ids db /\ ids_below_next db)).
  - intros db db'. apply one_write_ids.
  - split; [apply NoDup_nil_2 | apply Forall_nil_2].
Qed.

(** C5: in every collection that a history of operations (calls of the data
    access functions with any arguments, requests through the router)
    reaches from the empty collection, and after every further history
    from there, the status of every item is one of the three values. *)
Theorem stored_status_always_allowed ops0 ops :
  statuses_allowed (run ops (run ops0 empty_db)).
Proof.
  do 2 (apply (run_invariant statuses_allowed);
        [intros db db'; apply one_write_statuses|]).
  apply Forall_nil_2.
Qed.

(** ** List *)

Global Instance newer_first_total : Total newer_first.
Proof. intros a b. unfold newer_first. lia. Qed.

Global Instance newer_first_trans : Transitive newer_first.
Proof. intros a b c. unfold newer_first. lia. Qed.

Lemma filter_find_matches uid st (l : list todo) :
  List.filter (find_matches {| f_user := uid; f_status := st |}) l
  = List.filter (fun d => match st with
                          | Some s => bool_decide (status d = s)
                          | None => true
                          end)
      (List.filter (fun d => bool_decide (user d = uid)) l).
Proof.
  induction l as [|d l IH]; [done|]. simpl. unfold find_matches at 1. simpl.
  destruct (bool_decide (user d = uid)); simpl; [|done].
  destruct (match st with Some s => _ | None => _ end); by rewrite IH.
Qed.

Lemma filter_true {A} (l : list A) : List.filter (fun _ => true) l = l.
Proof. induction l; simpl; congruence. Qed.

Lemma owned_by_user uid db : Forall (fun d => user d = uid) (owned_by uid db).
Proof.
  apply Forall_forall. intros d Hd%list_elem_of_In. unfold owned_by in Hd.
  apply filter_In in Hd as [_ Hd]. by apply bool_decide_eq_true in Hd.
Qed.

Lemma filter_Forall {A} (P : A -> Prop) f (l : list A) :
  Forall P l -> Forall P (List.filter f l).
Proof.
  rewrite !Forall_forall. intros H x Hx%list_elem_of_In.
  apply filter_In in Hx as [Hx _]. by apply H, list_elem_of_In.
Qed.

Lemma apply_limit_positive n (l : list todo) :
  (0 < n)%nat -> apply_limit n l = take n l.
Proof. destruct n; [lia | done]. Qed.

(** What [getTodos] returns to an authenticated caller. *)
Lemma getTodos_authenticated req q db uid :
  user_id req = Some uid ->
  getTodos req q db
  = Ok (apply_limit (default 50%nat (q_limit q))
          (drop (default 0%nat (q_skip q))
             (merge_sort newer_first
                (List.filter
                   (fun d => match (if includes_status (q_status q)
                                    then as_str (q_status q) else None) with
                             | Some s => bool_decide (status d = s)
                             | None => true
                             end)
                   (owned_by uid db))))).
Proof.
  intros Hu. unfold getTodos, Todo_find. rewrite Hu.
  rewrite filter_find_matches. unfold owned_by. 
  destruct (includes_status (q_status q)) eqn:E.
  - by rewrite (includes_status_truthy _ E).
  - by rewrite andb_false_r.
Qed.

(** In a list sorted by a relation, an earlier element is related to every
    later one. *)
Lemma StronglySorted_lookup {A} (R : relation A) (l : list A) i j a b :
  StronglySorted R l -> (i < j)%nat ->
  l !! i = Some a -> l !! j = Some b -> R a b.
Proof.
  intros Hs. revert i j. induction Hs as [|x l Hs IH Hx]; intros i j Hij Hi Hj.
  { done. }
  destruct j as [|j]; [lia|]. destruct i as [|i]; simpl in *.
  - injection Hi as <-. rewrite Forall_forall in Hx.
    apply Hx. by eapply list_elem_of_lookup_2.
  - apply (IH i j); [lia | done | done].
Qed.

(** C6: a list request of an authenticated caller answers 200 with a page
    of the ranking of the caller's items (all of them, or those with the
    status of the filter when it is one of the three): the ranking is a
    permutation of these items in which no item comes before one with a
    later [createdAt], every item of it is owned by the caller, and the
    page is the ranking after skipping [skip] (default 0) items and then
    keeping [limit] (default 50) items, so the page is in descending order
    of [createdAt] as well, [count] being its length; a limit of 0 is read
    by the store as no limit. With a limit of 2 and a skip of 1 and five
    items in the ranking, the page holds the second and the third. *)
Theorem list_newest_first req now db uid :
  user_id req = Some uid ->
  let q := req_query req in
  let n := default 50%nat (q_limit q) in
  let k := default 0%nat (q_skip q) in
  exists ranked : list todo,
    (includes_status (q_status q) = false -> ranked ≡ₚ owned_by uid db)
    /\ (forall s, q_status q = JStr s -> s ∈ statuses ->
          ranked ≡ₚ owned_with_status uid s db)
    /\ Forall (fun d => user d = uid) ranked
    /\ (forall i j a b, (i < j)%nat ->
          ranked !! i = Some a -> ranked !! j = Some b ->
          (createdAt a >= createdAt b)%Z)
    /\ getTodos req q db = Ok (apply_limit n (drop k ranked))
    /\ router GET_todos req now db
       = (db, list_response (apply_limit n (drop k ranked)))
    /\ (forall i j a b, (i < j)%nat ->
          apply_limit n (drop k ranked) !! i = Some a ->
          apply_limit n (drop k ranked) !! j = Some b ->
          (createdAt a >= createdAt b)%Z)
    /\ ((0 < n)%nat -> apply_limit n (drop k ranked) = take n (drop k ranked))
    /\ (q_limit q = Some 2%nat -> q_skip q = Some 1%nat ->
        forall d1 d2 d3 d4 d5, ranked = [d1; d2; d3; d4; d5] ->
        getTodos req q db = Ok [d2; d3]
        /\ (createdAt d1 >= createdAt d2)%Z /\ (createdAt d2 >= createdAt d3)%Z
        /\ (createdAt d3 >= createdAt d4)%Z /\ (createdAt d4 >= createdAt d5)%Z).
Proof.
  intros Hu q n k.
  pose proof (getTodos_authenticated req q db uid Hu) as Hg.
  fold n k in Hg.
  match type of Hg with
  | _ = Ok (apply_limit n (drop k ?r)) => set (ranked := r) in *
  end.
  assert (Hsorted : forall i j a b, (i < j)%nat ->
            ranked !! i = Some a -> ranked !! j = Some b ->
            (createdAt a >= createdAt b)%Z).
  { intros i j a b Hij Hi Hj.
    assert (Hab : newer_first a b).
    { apply (StronglySorted_lookup newer_first ranked i j); try done.
      apply StronglySorted_merge_sort; apply _. }
    unfold newer_first in Hab. lia. }
  exists ranked.
  split; [|split; [|split; [|split; [done|split; [exact Hg|split; [|split; [|split]]]]]]].
  - intros E. unfold ranked. rewrite E, filter_true. apply merge_sort_Permutation.
  - intros s Es Hs. unfold ranked. rewrite Es. simpl.
    rewrite (bool_decide_eq_true_2 _ Hs). apply merge_sort_Permutation.
  - unfold ranked. rewrite merge_sort_Permutation.
    apply filter_Forall, owned_by_user.
  - rewrite (router_authenticated _ _ _ _ _ Hu). unfold getTodosController.
    fold q. by rewrite Hg.
  - intros i j a b Hij Hi Hj.
    assert (Hpage : forall x c, apply_limit n (drop k ranked) !! x = Some c ->
              ranked !! (k + x)%nat = Some c).
    { intros x c. destruct n as [|n']; simpl.
      - by rewrite lookup_drop.
      - intros [Hx _]%lookup_take_Some. by rewrite lookup_drop in Hx. }
    apply (Hsorted (k + i)%nat (k + j)%nat); [lia | by apply Hpage..].
  - apply apply_limit_positive.
  - intros Hl Hk d1 d2 d3 d4 d5 Hr. rewrite Hg. unfold n, k.
    rewrite Hl, Hk, Hr. split; [done|].
    split; [apply (Hsorted 0%nat 1%nat); [lia | by rewrite Hr..]|].
    split; [apply (Hsorted 1%nat 2%nat); [lia | by rewrite Hr..]|].
    split; [apply (Hsorted 2%nat 3%nat); [lia | by rewrite Hr..]|].
    apply (Hsorted 3%nat 4%nat); [lia | by rewrite Hr..].
Qed.

Lemma list_newest_first_witness :
  let req := with_query (page 2 1) (request_of alice ∅ 0) in
  (exists ranked : list todo,
    (includes_status JUndefined = false -> ranked ≡ₚ owned_by alice five_db)
    /\ (forall s, JUndefined = JStr s -> s ∈ statuses ->
          ranked ≡ₚ owned_with_status alice s five_db)
    /\ Forall (fun d => user d = alice) ranked
    /\ (forall i j a b, (i < j)%nat ->
          ranked !! i = Some a -> ranked !! j = Some b ->
          (createdAt a >= createdAt b)%Z)
    /\ getTodos req (page 2 1) five_db = Ok (apply_limit 2 (drop 1 ranked))
    /\ router GET_todos req 0 five_db
       = (five_db, list_response (apply_limit 2 (drop 1 ranked)))
    /\ (forall i j a b, (i < j)%nat ->
          apply_limit 2 (drop 1 ranked) !! i = Some a ->
          apply_limit 2 (drop 1 ranked) !! j = Some b ->
          (createdAt a >= createdAt b)%Z)
    /\ ((0 < 2)%nat -> apply_limit 2 (drop 1 ranked) = take 2 (drop 1 ranked))
    /\ (Some 2%nat = Some 2%nat -> Some 1%nat = Some 1%nat ->
        forall d1 d2 d3 d4 d5, ranked = [d1; d2; d3; d4; d5] ->
        getTodos req (page 2 1) five_db = Ok [d2; d3]
        /\ (createdAt d1 >= createdAt d2)%Z /\ (createdAt d2 >= createdAt d3)%Z
        /\ (createdAt d3 >= createdAt d4)%Z /\ (createdAt d4 >= createdAt d5)%Z))
  /\ createdAt <$> owned_by alice five_db = [30; 10; 50; 20; 40]%Z
  /\ (createdAt <$> default [] (match getTodos req (page 2 1) five_db with
                                | Ok todos => Some todos
                                | Throw _ => None
                                end)) = [40; 30]%Z.
Proof.
  intros req. split; [|split; by vm_compute].
  apply (list_newest_first req 0 five_db alice). reflexivity.
Defined.

(** Five items of Alice created at 30, 10, 50, 20 and 40, and one of Bob:
    with a limit of 2 and a skip of 1 the list holds the items created at
    40 and 30, in this order. *)
Example list_second_and_third :
  createdAt <$> owned_by alice five_db = [30; 10; 50; 20; 40]%Z
  /\ exists d2 d3,
       getTodos (request_of alice ∅ 0) (page 2 1) five_db = Ok [d2; d3]
       /\ createdAt d2 = 40%Z /\ createdAt d3 = 30%Z.
Proof. split; [by vm_compute|]. do 2 eexists. by vm_compute. Qed.

Lemma page_subseteq n k (l : list todo) :
  apply_limit n (drop k (merge_sort newer_first l)) ⊆ l.
Proof.
  transitivity (merge_sort newer_first l).
  - transitivity (drop k (merge_sort newer_first l)); [|apply subseteq_drop].
    destruct n; [done | apply subseteq_take].
  - intros x. by rewrite merge_sort_Permutation.
Qed.



(** ** The writes of an operation *)

Lemma failing_nil path ok : failing path ok = [] -> ok = true.
Proof. by destruct ok. Qed.

Lemma validate_doc_nil t d s u :
  validate_doc t d s u = [] ->
  required t = true /\ maxlength 255 t = true /\ maxlength 1000 d = true
  /\ enum statuses s = true /\ required u = true.
Proof.
  unfold validate_doc.
  intros [[H1 H2]%failing_nil%andb_prop
          [H3%failing_nil [[_ H4]%failing_nil%andb_prop H5%failing_nil]%app_nil]%app_nil]%app_nil.
  done.
Qed.

Lemma validate_update_nil upd :
  validate_update upd = [] ->
  (forall t, v_title upd = Some t -> t <> [] /\ (length t <= 255)%nat)
  /\ (forall d, v_description upd = Some d -> (length d <= 1000)%nat)
  /\ (forall s, v_status upd = Some s -> s ∈ statuses)
  /\ (forall u, v_user upd = Some u -> u <> []).
Proof.
  unfold validate_update.
  intros [H1%failing_nil
          [H2%failing_nil [H3%failing_nil H4%failing_nil]%app_nil]%app_nil]%app_nil.
  destruct upd as [t d s u ca ua]. simpl in *. split; [|split; [|split]].
  - intros ? ->. simpl in H1. apply andb_prop in H1 as [H0 H1].
    split; [by destruct t0 | by apply Nat.leb_le].
  - intros ? ->. simpl in H2. by apply Nat.leb_le.
  - intros ? ->. simpl in H3. apply andb_prop in H3 as [_ H3].
    by apply bool_decide_eq_true in H3.
  - intros ? ->. simpl in H4. by destruct u0.
Qed.

Lemma required_Some v : required v = true -> exists s, v = Some s /\ s <> [].
Proof. destruct v as [[|c s]|]; try done. intros _. by eexists. Qed.

(** What [save] inserts: the cast data, validated. *)
Lemma Todo_save_Ok data now db db' doc :
  Todo_save data now db = (db', Ok doc) ->
  db' = inserted doc db
  /\ _id doc = next_id db
  /\ createdAt doc = default now (v_createdAt data)
  /\ updatedAt doc = createdAt doc
  /\ v_user data = Some (user doc)
  /\ well_formed doc.
Proof.
  unfold Todo_save.
  destruct (validate_doc _ _ _ _) eqn:Hv; [|done].
  apply validate_doc_nil in Hv as (Ht & Htl & Hd & Hs & Hu).
  intros [= <- <-]. simpl in *.
  apply required_Some in Ht as (t & Et & Hne).
  apply required_Some in Hu as (u & Eu & Hune).
  rewrite Eu. split; [done|]. do 4 (split; [done|]).
  unfold well_formed. simpl. rewrite Et. simpl.
  destruct (v_title data) as [t0|]; [|done]. injection Et as <-.
  split; [done|]. split; [apply trim_idemp|]. split; [by apply Nat.leb_le|].
  split; [|split; [by apply bool_decide_eq_true in Hs | done]].
  intros s Es. rewrite Es in Hd. split; [|by apply Nat.leb_le].
  destruct (v_description data) as [d|]; [|done]. injection Es as <-.
  apply trim_idemp.
Qed.

Lemma apply_update_well_formed c now d :
  validate_update c = [] -> cast c = c ->
  well_formed d -> well_formed (apply_update c now d).
Proof.
  intros (Ht & Hd & Hs & Hu)%validate_update_nil Hc
    (Wt & Wtt & Wtl & Wd & Ws & Wu).
  unfold well_formed, apply_update. simpl.
  assert (Htrim : forall t, v_title c = Some t -> trim t = t).
  { intros t Et. rewrite <- Hc in Et. simpl in Et.
    destruct (v_title c); [|done]. injection Et as <-. apply trim_idemp. }
  assert (Hdtrim : forall s, v_description c = Some s -> trim s = s).
  { intros s Es. rewrite <- Hc in Es. simpl in Es.
    destruct (v_description c); [|done]. injection Es as <-. apply trim_idemp. }
  split; [|split; [|split; [|split; [|split]]]].
  - destruct (v_title c) as [t|]; [|done]. simpl. by apply Ht.
  - destruct (v_title c) as [t|]; [|done]. simpl. by apply Htrim.
  - destruct (v_title c) as [t|]; [|done]. simpl. by apply Ht.
  - destruct (v_description c) as [s|]; [|done].
    intros ? [= <-]. split; [by apply Hdtrim | by apply Hd].
  - destruct (v_status c) as [s|]; [|done]. simpl. by apply Hs.
  - destruct (v_user c) as [u|]; [|done]. simpl. by apply Hu.
Qed.

Lemma cast_idemp v : cast (cast v) = cast v.
Proof. unfold cast. simpl. by rewrite !fmap_trim_idemp. Qed.

Lemma Todo_findOneAndUpdate_effect todoId uid upd born now db :
  (forall u, v_user upd = Some u -> u = uid) ->
  effect (Some uid) born now db (Todo_findOneAndUpdate todoId uid upd now db).1.
Proof.
  intros Hu. unfold Todo_findOneAndUpdate.
  destruct (validate_update _) eqn:Hv; [|constructor].
  destruct (list_find _ _) as [[i d]|] eqn:Hf; [|constructor].
  apply list_find_Some in Hf as (Hi & [Hid Hud] & _). simpl.
  apply (effect_replace _ _ _ _ i d); try done.
  - by rewrite Hud.
  - simpl. destruct (v_user upd) as [u|] eqn:E; [|done]. simpl.
    rewrite Hud. by apply Hu.
  - apply apply_update_well_formed; [done | apply cast_idemp].
Qed.

Lemma createTodo_effect req todoData now db :
  effect (user_id req) (creation_time now (Create req todoData)) now db
    (createTodo req todoData now db).1.
Proof.
  unfold createTodo. destruct (user_id req) as [uid|]; [|constructor].
  destruct (parse _ _) as [v|e] eqn:Hp; [|constructor].
  apply parse_Ok in Hp as [_ Hv].
  assert (Huv : v_user v = Some uid).
  { rewrite Hv. simpl. by autorewrite with js_get. }
  assert (Hcv : v_createdAt v = as_date (get todoData "createdAt")).
  { rewrite Hv. simpl. by autorewrite with js_get. }
  destruct (Todo_save v now db) as [db' [doc|e]] eqn:Hs.
  - apply Todo_save_Ok in Hs as (-> & Hid & Hc & Hup & Hu & Hw). simpl.
    apply effect_insert; try done; congruence.
  - apply Todo_save_cases in Hs as [[-> _] | (doc & ? & _)]; [|done].
    constructor.
Qed.

Lemma updateTodo_effect req todoId updateData born now db :
  effect (user_id req) born now db (updateTodo req todoId updateData now db).1.
Proof.
  unfold updateTodo. destruct (user_id req) as [uid|]; [|constructor].
  destruct (parse _ _) as [v|e] eqn:Hp; [|constructor].
  apply parse_Ok in Hp as [_ Hv].
  assert (Huv : v_user v = Some uid).
  { rewrite Hv. simpl. by autorewrite with js_get. }
  pose proof (Todo_findOneAndUpdate_effect todoId uid v born now db) as He.
  destruct (Todo_findOneAndUpdate _ _ _ _ _) as [db' [[?|]|?]]; simpl in *;
    apply He; intros u; rewrite Huv; by intros [= <-].
Qed.

Lemma toggleTodoStatus_effect req todoId born now db :
  effect (user_id req) born now db (toggleTodoStatus req todoId now db).1.
Proof.
  unfold toggleTodoStatus. destruct (user_id req) as [uid|]; [|constructor].
  destruct (Todo_findOne _ _ _); [|constructor].
  by apply Todo_findOneAndUpdate_effect.
Qed.

Lemma deleteTodo_effect req todoId db born now :
  effect (user_id req) born now db (deleteTodo req todoId db).1.
Proof.
  unfold deleteTodo, Todo_deleteOne.
  destruct (user_id req) as [uid|]; [|constructor].
  destruct (list_find _ _) as [[i d]|] eqn:Hf; [|constructor].
  apply list_find_Some in Hf as (Hi & [Hid Hud] & _). simpl.
  apply (effect_remove _ _ _ _ i d); [by rewrite Hud | done].
Qed.

(** A request writes what one call of a data access function with the same
    request writes, or nothing. *)
Lemma router_call r req now db :
  (router r req now db).1 = db
  \/ exists op, is_call op /\ caller op = req
       /\ creation_time now op = now
       /\ (router r req now db).1 = apply_operation now op db.
Proof.
  unfold router. destruct (req_user req); [|by left].
  destruct r; try by left.
  - unfold createTodoController.
    destruct (negb _); [by left|].
    destruct (call_trim _ _) as [t|]; [|by left]. simpl.
    destruct (_ =? _)%nat; [by left|].
    destruct (optional_trim _ _) as [d|]; [|by left].
    match goal with
    | |- context [createTodo req ?td now db] => right; exists (Create req td)
    end.
    split; [done|]. split; [done|]. simpl.
    split; [by autorewrite with js_get|].
    by destruct (createTodo _ _ _ _) as [? [?|?]].
  - unfold updateTodoController.
    destruct (build_updateData _) as [[?|u]|]; try by left.
    right. exists (Update req (req_id req) u). do 3 (split; [done|]). simpl.
    by destruct (updateTodo _ _ _ _ _) as [? [?|?]].
  - right. exists (Delete req (req_id req)). do 3 (split; [done|]). simpl.
    unfold deleteTodoController.
    by destruct (deleteTodo _ _ _) as [? [?|?]].
  - right. exists (Toggle req (req_id req)). do 3 (split; [done|]). simpl.
    unfold toggleTodoStatusController.
    by destruct (toggleTodoStatus _ _ _ _) as [? [[?|]|?]].
Qed.

Lemma call_effect now op db :
  is_call op ->
  effect (user_id (caller op)) (creation_time now op) now db
    (apply_operation now op db).
Proof.
  destruct op; simpl; [| | | |done]; intros _.
  - apply createTodo_effect.
  - apply updateTodo_effect.
  - apply toggleTodoStatus_effect.
  - apply deleteTodo_effect.
Qed.

Theorem operation_effect now op db :
  effect (user_id (caller op)) (creation_time now op) now db
    (apply_operation now op db).
Proof.
  destruct op as [| | | |r req]; try by apply call_effect.
  simpl. destruct (router_call r req now db) as [-> | (op & Hc & <- & Hb & ->)].
  - constructor.
  - rewrite <- Hb at 1. by apply call_effect.
Qed.

(** ** Consequences for the items of others, identities, fields and times *)

Lemma filter_insert_false {A} (f : A -> bool) (l : list A) i x y :
  l !! i = Some x -> f x = false -> f y = false ->
  List.filter f (<[i := y]> l) = List.filter f l.
Proof.
  revert i. induction l as [|a l IH]; intros [|i] Hi Hx Hy; try done; simpl in *.
  - injection Hi as ->. by rewrite Hx, Hy.
  - by rewrite (IH i).
Qed.

Lemma filter_delete_false {A} (f : A -> bool) (l : list A) i x :
  l !! i = Some x -> f x = false ->
  List.filter f (delete i l) = List.filter f l.
Proof.
  revert i. induction l as [|a l IH]; intros [|i] Hi Hx; try done; simpl in *.
  - injection Hi as ->. by rewrite Hx.
  - by rewrite (IH i).
Qed.

Lemma creation_time_undated now op : undated op -> creation_time now op = now.
Proof. destruct op; simpl; try done. by intros ->. Qed.

Lemma effect_owned_by who born now db db' uid :
  effect who born now db db' -> who <> Some uid ->
  owned_by uid db' = owned_by uid db.
Proof.
  intros [|doc Hw _ _ _ _|i d d' Hw Hi _ Hu _ _ _|i d Hw Hi] Hne;
    unfold owned_by; simpl; try done.
  - rewrite List.filter_app. simpl.
    rewrite bool_decide_eq_false_2, app_nil_r; [done|]. congruence.
  - apply filter_insert_false with d; [done| |];
      apply bool_decide_eq_false_2; congruence.
  - apply filter_delete_false with d; [done|].
    apply bool_decide_eq_false_2; congruence.
Qed.

Lemma effect_identity who born now db db' d' :
  effect who born now db db' -> d' ∈ docs db' ->
  (_id d' = next_id db /\ createdAt d' = born /\ updatedAt d' = born
   /\ who = Some (user d'))
  \/ (exists d, d ∈ docs db /\ _id d = _id d' /\ user d = user d'
                /\ createdAt d = createdAt d').
Proof.
  intros [|doc Hw Hid Hc Hup _|i d x Hw Hi Hid Hu Hc _ _|i d Hw Hi] Hin;
    simpl in Hin.
  - right. by exists d'.
  - apply elem_of_app in Hin as [Hin | ->%list_elem_of_singleton].
    + right. by exists d'.
    + by left.
  - apply list_elem_of_lookup in Hin as [j Hj].
    apply list_lookup_insert_Some in Hj as [(-> & -> & _) | [_ Hj]].
    + right. exists d. split; [by eapply list_elem_of_lookup_2|]. done.
    + right. exists d'. split; [by eapply list_elem_of_lookup_2|]. done.
  - right. exists d'. split; [by eapply list_elem_of_delete_inv|]. done.
Qed.

Lemma effect_well_formed who born now db db' :
  effect who born now db db' ->
  Forall well_formed (docs db) -> Forall well_formed (docs db').
Proof.
  intros [|doc _ _ _ _ Hw|i d d' _ Hi _ _ _ _ Hw|i d _ Hi] H; simpl; try done.
  - apply Forall_app. split; [done|]. by apply Forall_singleton.
  - apply Forall_insert; [done|]. apply Hw.
    by apply (Forall_lookup_1 _ _ _ _ H Hi).
  - by apply Forall_delete.
Qed.

Lemma effect_timestamps who born now db db' t :
  effect who born now db db' -> (born <= now)%Z -> (t <= now)%Z ->
  timestamps_ordered t db -> timestamps_ordered now db'.
Proof.
  unfold timestamps_ordered.
  intros He Hb Ht H.
  assert (H' : Forall (fun d => (createdAt d <= updatedAt d <= now)%Z) (docs db)).
  { eapply Forall_impl; [done|]. simpl. intros. lia. }
  destruct He as [|doc _ _ Hc Hu _|i d d' _ Hi _ _ Hc Hu _|i d _ Hi]; simpl;
    try done.
  - apply Forall_app. split; [done|]. apply Forall_singleton. lia.
  - apply Forall_insert; [done|].
    pose proof (Forall_lookup_1 _ _ _ _ H Hi) as Hd. simpl in Hd. lia.
  - by apply Forall_delete.
Qed.

(** X1: an operation leaves the items of every owner other than its caller
    as they were, in content and in order. *)
Theorem operation_leaves_other_owners now op db uid :
  user_id (caller op) <> Some uid ->
  owned_by uid (apply_operation now op db) = owned_by uid db.
Proof. intros H. eapply effect_owned_by; [apply operation_effect | done]. Qed.

Lemma operation_leaves_other_owners_witness :
  owned_by bob
    (apply_operation 9
       (Request DELETE_todo (request_of alice ∅ 1)) shared_db)
  = owned_by bob shared_db
  /\ docs (apply_operation 9
             (Request DELETE_todo (request_of alice ∅ 1)) shared_db)
     <> docs shared_db.
Proof.
  split.
  - apply (operation_leaves_other_owners 9
             (Request DELETE_todo (request_of alice ∅ 1)) shared_db bob).
    by vm_compute.
  - by vm_compute.
Defined.

(** X2: after an operation, every item of the collection either is new or
    has the identifier, the owner and the creation time of an item that
    was there before. A new item has the fresh identifier and is owned by
    the caller; it is created and updated at the time of the call, unless
    the operation is a call of [createTodo] whose data give a [createdAt]
    date, which the item then carries as both. *)
Theorem operation_keeps_identity now op db d' :
  d' ∈ docs (apply_operation now op db) ->
  (_id d' = next_id db
   /\ user_id (caller op) = Some (user d')
   /\ createdAt d' = creation_time now op
   /\ updatedAt d' = creation_time now op
   /\ (undated op -> createdAt d' = now /\ updatedAt d' = now))
  \/ (exists d, d ∈ docs db /\ _id d = _id d' /\ user d = user d'
                /\ createdAt d = createdAt d').
Proof.
  intros Hin.
  destruct (effect_identity _ _ _ _ _ _ (operation_effect now op db) Hin)
    as [(Hid & Hc & Hup & Hw) | H]; [left | by right].
  do 4 (split; [done|]). intros Hu.
  rewrite Hc, Hup, (creation_time_undated _ _ Hu). done.
Qed.

Lemma operation_keeps_identity_witness :
  let op := Create (request_of alice ∅ 0) dated_data in
  (_id dated_item = next_id shared_db
   /\ user_id (caller op) = Some (user dated_item)
   /\ createdAt dated_item = creation_time 7 op
   /\ updatedAt dated_item = creation_time 7 op
   /\ (undated op -> createdAt dated_item = 7%Z /\ updatedAt dated_item = 7%Z))
  \/ (exists d, d ∈ docs shared_db /\ _id d = _id dated_item
                /\ user d = user dated_item
                /\ createdAt d = createdAt dated_item).
Proof.
  intros op.
  apply (operation_keeps_identity 7 op shared_db dated_item).
  vm_compute. do 2 (apply elem_of_cons; right). apply elem_of_cons. by left.
Defined.

Lemma run_well_formed ops db :
  Forall well_formed (docs db) -> Forall well_formed (docs (run ops db)).
Proof.
  revert db. induction ops as [|[now op] ops IH]; intros db H; [done|].
  simpl. apply IH. eapply effect_well_formed; [apply operation_effect | done].
Qed.

(** X3: in every collection that a history reaches from the empty one,
    every item is well-formed: its title is trimmed, not empty and of at
    most 255 code units, its description, when it has one, is trimmed and
    of at most 1000, its status is one of the three and it has an owner. *)
Theorem stored_items_well_formed ops :
  Forall well_formed (docs (run ops empty_db)).
Proof. apply run_well_formed, Forall_nil_2. Qed.

Lemma run_timestamps t ops db :
  clock_monotone t ops -> not_postdated ops -> timestamps_ordered t db ->
  timestamps_ordered (last_time t ops) (run ops db).
Proof.
  revert t db. induction ops as [|[now op] ops IH]; intros t db Hm Hp H; [done|].
  destruct Hm as [Ht Hm]. apply Forall_cons in Hp as [Hb Hp].
  simpl in *. apply IH; [done | done |].
  by apply (effect_timestamps _ _ _ _ _ t (operation_effect now op db)).
Qed.

(** Requests give no creation date. *)
Lemma requests_not_postdated ops :
  Forall (fun p : Z * operation => ~ is_call p.2) ops -> not_postdated ops.
Proof.
  intros H. eapply Forall_impl; [exact H|].
  intros [now op] Hc. simpl in *. by destruct op.
Qed.

(** X4: when the clock never goes back along a history from the empty
    collection, and no call of [createTodo] in it gives a [createdAt] date
    ahead of the time of the call (a request never gives one), every item
    was created no later than it was last updated, and updated no later
    than the last call. *)
Theorem timestamps_never_reversed t ops :
  clock_monotone t ops -> not_postdated ops ->
  timestamps_ordered (last_time t ops) (run ops empty_db).
Proof. intros H Hp. apply run_timestamps; [done | done | apply Forall_nil_2]. Qed.

Lemma timestamps_never_reversed_witness :
  let ops := [(1%Z, Request POST_todos (request_of alice (titled (str "Buy milk")) 0));
              (4%Z, Request PATCH_toggle (request_of alice ∅ 0));
              (7%Z, Create (request_of bob ∅ 0)
                      (<["createdAt" := JDate (Some 2%Z)]> (titled (str "Call Eve"))))] in
  timestamps_ordered 7 (run ops empty_db)
  /\ (createdAt <$> docs (run ops empty_db), updatedAt <$> docs (run ops empty_db))
     = ([1%Z; 2%Z], [4%Z; 2%Z]).
Proof.
  intros ops. split.
  - apply (timestamps_never_reversed 0 ops).
    + simpl. lia.
    + repeat apply Forall_cons_2; try apply Forall_nil_2; by vm_compute.
  - by vm_compute.
Defined.

(** X23: a call of [createTodo] whose data are valid and give a
    [createdAt] date inserts the item with that date as [createdAt] and as
    [updatedAt], whatever the time of the call and whatever [updatedAt] the
    data give; when the date is ahead of the call, the stored item is
    updated later than the call. *)
Theorem createTodo_keeps_given_date req todoData now db uid t s born :
  user_id req = Some uid ->
  get todoData "title" = JStr t -> (length t <= 255)%nat -> trim t <> [] ->
  short_description (get todoData "description") ->
  js_or (get todoData "status") (JStr (str "pending")) = JStr s ->
  s ∈ statuses ->
  get todoData "createdAt" = JDate (Some born) ->
  (get todoData "updatedAt" = JUndefined
   \/ exists u, get todoData "updatedAt" = JDate (Some u)) ->
  exists doc,
    createTodo req todoData now db = (inserted doc db, Ok doc)
    /\ _id doc = next_id db /\ user doc = uid
    /\ createdAt doc = born /\ updatedAt doc = born
    /\ ((now < born)%Z -> ~ timestamps_ordered now (inserted doc db)).
Proof.
  intros Hu Ht Hlen Hne Hd Hs Hin Hc Hup.
  pose proof (user_id_nonempty _ _ Hu) as Huid.
  assert (Ht1 : (1 <= length t)%nat).
  { destruct t; [done | simpl; lia]. }
  unfold createTodo. rewrite Hu, Hs.
  rewrite parse_no_issues.
  - autorewrite with js_get. rewrite Ht, Hc. unfold Todo_save, cast. simpl.
    rewrite validate_doc_ok; try done.
    + eexists. split; [done|]. simpl. do 4 (split; [done|]).
      intros Hlt Ho. unfold timestamps_ordered in Ho. simpl in Ho.
      apply Forall_app in Ho as [_ Ho].
      apply (proj1 (Forall_singleton _ _)) in Ho. simpl in Ho. lia.
    + pose proof (trim_length t). lia.
    + intros x Hx. destruct Hd as [Hd | (s' & Hd & Hl)]; rewrite Hd in Hx;
        [done|]. injection Hx as <-. pose proof (trim_length s'). lia.
  - rewrite schema_issues_todoSchema. autorewrite with js_get.
    rewrite Ht, Hc.
    assert (Hu1 : (1 <= length uid)%nat) by (destruct uid; [done | simpl; lia]).
    rewrite !z_string_ok; try (by intros ? ? [= <- <-]); try done.
    unfold todoStatusSchema, z_enum. rewrite (bool_decide_eq_true_2 _ Hin).
    destruct Hup as [-> | [u ->]];
      (destruct Hd as [-> | (s' & -> & Hl)]; [done|]);
      simpl; by destruct (Nat.ltb_spec 1000 (length s')); [lia|].
Qed.

Lemma createTodo_keeps_given_date_witness :
  exists doc,
    createTodo (request_of alice ∅ 0) dated_data 7 shared_db
    = (inserted doc shared_db, Ok doc)
    /\ _id doc = next_id shared_db /\ user doc = alice
    /\ createdAt doc = 1000%Z /\ updatedAt doc = 1000%Z
    /\ ((7 < 1000)%Z -> ~ timestamps_ordered 7 (inserted doc shared_db)).
Proof.
  apply (createTodo_keeps_given_date (request_of alice ∅ 0) dated_data 7
           shared_db alice (str "Call Eve") (str "pending") 1000);
    try reflexivity.
  - vm_compute. lia.
  - discriminate.
  - by left.
  - apply elem_of_cons. by left.
  - by left.
Defined.

(** ** Sequences of requests *)

(** After a replacement by an item with the same identifier and owner, the
    lookup finds the new item at the same index. *)
Lemma list_find_replaced todoId uid (l : list todo) i d d' :
  list_find (matches todoId uid) l = Some (i, d) ->
  matches todoId uid d' ->
  list_find (matches todoId uid) (<[i := d']> l) = Some (i, d').
Proof.
  intros (Hi & Hm & Hlt)%list_find_Some Hm'. apply list_find_Some.
  split; [|split; [done|]].
  - apply list_lookup_insert_eq. by eapply lookup_lt_Some.
  - intros j y Hj Hji. rewrite list_lookup_insert_ne in Hj by lia.
    by apply (Hlt j).
Qed.

Lemma replaced_replaced i d d' db :
  replaced i d' (replaced i d db) = replaced i d' db.
Proof. unfold replaced. simpl. by rewrite list_insert_insert_eq. Qed.

Lemma newStatus_cycle s : s ∈ statuses -> newStatus (newStatus (newStatus s)) = s.
Proof.
  unfold statuses. rewrite !elem_of_cons, elem_of_nil.
  intros [->|[->|[->|[]]]]; by vm_compute.
Qed.

(** A fresh identifier matches nothing. *)
Lemma list_find_fresh db uid :
  ids_below_next db -> list_find (matches (next_id db) uid) (docs db) = None.
Proof.
  intros H. apply list_find_None. eapply Forall_impl; [exact H|].
  simpl. intros d Hd [Hid _]. lia.
Qed.

Lemma list_find_inserted db uid doc :
  ids_below_next db -> _id doc = next_id db ->
  list_find (matches (next_id db) uid) (docs (inserted doc db))
  = if decide (user doc = uid) then Some (length (docs db), doc) else None.
Proof.
  intros H Hid. simpl. rewrite list_find_app_r by by apply list_find_fresh.
  simpl. case_decide as Hm.
  - destruct Hm as [_ Hu]. by rewrite decide_True.
  - rewrite decide_False; [done|]. intros Hu. by apply Hm.
Qed.

(** X5: a create with a valid body, on a collection whose identifiers are
    below the next one, is followed by a Get of the new identifier: the
    creator gets the item that was created, any other caller gets 404. *)
Theorem create_then_get req req' now now' db uid :
  user_id req = Some uid ->
  valid_title (get (req_body req) "title") = true ->
  valid_description (get (req_body req) "description") = true ->
  valid_create_status (get (req_body req) "status") = true ->
  ids_below_next db ->
  req_id req' = next_id db ->
  let doc := created uid (req_body req) now db in
  let db' := (router POST_todos req now db).1 in
  db' = inserted doc db
  /\ (user_id req' = Some uid ->
      router GET_todo req' now' db' = (db', item_response doc None))
  /\ (forall uid', uid' <> uid -> user_id req' = Some uid' ->
      router GET_todo req' now' db' = (db', not_found)).
Proof.
  intros Hu Ht Hd Hs Hb Hid doc db'.
  assert (Hdb : db' = inserted doc db).
  { unfold db'. rewrite (router_authenticated _ _ _ _ _ Hu).
    by rewrite (createTodoController_valid _ _ _ _ Hu Ht Hd Hs). }
  split; [done|]. rewrite Hdb. split.
  - intros Hu'. rewrite (router_authenticated _ _ _ _ _ Hu'). f_equal.
    apply (getTodoController_hit _ _ Hu' _ (length (docs db))).
    rewrite Hid, list_find_inserted by done. by rewrite decide_True.
  - intros uid' Hne Hu'. rewrite (router_authenticated _ _ _ _ _ Hu'). f_equal.
    apply (getTodoController_miss _ _ Hu').
    rewrite Hid, list_find_inserted by done. rewrite decide_False; [done|].
    simpl. congruence.
Qed.

Lemma create_then_get_witness :
  let req := request_of alice (titled (str "Call Bob")) 0 in
  let doc := created alice (req_body req) 6 bobs_db in
  let db' := (router POST_todos req 6 bobs_db).1 in
  db' = inserted doc bobs_db
  /\ (user_id (request_of alice ∅ 1) = Some alice ->
      router GET_todo (request_of alice ∅ 1) 7 db' = (db', item_response doc None))
  /\ (forall uid', uid' <> alice -> user_id (request_of alice ∅ 1) = Some uid' ->
      router GET_todo (request_of alice ∅ 1) 7 db' = (db', not_found)).
Proof.
  intros req.
  apply (create_then_get req (request_of alice ∅ 1) 6 7 bobs_db alice);
    try reflexivity.
  apply (bool_decide_unpack _). by vm_compute.
Defined.

Lemma NoDup_delete_lookup {A} (l : list A) i x :
  NoDup l -> l !! i = Some x -> x ∉ delete i l.
Proof.
  intros Hnd Hi. rewrite (delete_Permutation l i x Hi) in Hnd.
  by apply NoDup_cons in Hnd as [? _].
Qed.

(** X6: a Delete of an item of the caller answers 200 and removes that item
    and no other; afterwards no item has its identifier, and a Get or a
    second Delete of it is answered 404. *)
Theorem delete_then_not_found req now now' db uid i d :
  user_id req = Some uid ->
  unique_ids db -> docs db !! i = Some d ->
  _id d = req_id req -> user d = uid ->
  let db' := removed i db in
  router DELETE_todo req now db
  = (db', {| code := 200; success := true; data := None;
             message := Some (Text "Todo deleted successfully");
             count := None; error_tag := None |})
  /\ (docs db ≡ₚ d :: docs db')
  /\ (req_id req ∉ _id <$> docs db')
  /\ router GET_todo req now' db' = (db', not_found)
  /\ router DELETE_todo req now' db' = (db', not_found).
Proof.
  intros Hu Hnd Hi Hid Hud db'.
  assert (Hf : list_find (matches (req_id req) uid) (docs db) = Some (i, d)).
  { rewrite <- Hid, <- Hud. by apply list_find_own. }
  assert (Habs : req_id req ∉ _id <$> docs db').
  { unfold db'. simpl. rewrite list_fmap_delete, <- Hid.
    apply NoDup_delete_lookup; [done|]. by rewrite list_lookup_fmap, Hi. }
  pose proof (list_find_absent db' uid _ Habs) as Hf'.
  rewrite !(router_authenticated _ _ _ _ _ Hu).
  split; [by apply (deleteTodoController_hit _ _ Hu _ i d)|].
  split; [by apply delete_Permutation|].
  split; [done|]. split.
  - by rewrite (getTodoController_miss _ _ Hu _ Hf').
  - by apply deleteTodoController_miss with uid.
Qed.

Lemma delete_then_not_found_witness :
  let req := request_of alice ∅ 1 in
  let db' := removed 1 shared_db in
  router DELETE_todo req 8 shared_db
  = (db', {| code := 200; success := true; data := None;
             message := Some (Text "Todo deleted successfully");
             count := None; error_tag := None |})
  /\ (docs shared_db ≡ₚ alices_item :: docs db')
  /\ (req_id req ∉ _id <$> docs db')
  /\ router GET_todo req 9 db' = (db', not_found)
  /\ router DELETE_todo req 9 db' = (db', not_found).
Proof.
  intros req.
  apply (delete_then_not_found req 8 9 shared_db alice 1%nat alices_item);
    try reflexivity.
  apply (bool_decide_unpack _). by vm_compute.
Defined.

(** The item with another time of update. *)
Lemma toggled_thrice t1 t2 t3 d :
  status d ∈ statuses ->
  toggled t3 (toggled t2 (toggled t1 d))
  = {| _id := _id d; title := title d; description := description d;
       status := status d; user := user d; createdAt := createdAt d;
       updatedAt := t3 |}.
Proof. intros H. unfold toggled. simpl. by rewrite newStatus_cycle. Qed.

Lemma toggle_step req now db uid i d :
  user_id req = Some uid ->
  list_find (matches (req_id req) uid) (docs db) = Some (i, d) ->
  router PATCH_toggle req now db
  = (replaced i (toggled now d) db,
     item_response (toggled now d) (Some (StatusChangedTo (newStatus (status d)))))
  /\ list_find (matches (req_id req) uid) (docs (replaced i (toggled now d) db))
     = Some (i, toggled now d).
Proof.
  intros Hu Hf. split.
  - rewrite (router_authenticated _ _ _ _ _ Hu).
    unfold toggleTodoStatusController.
    by rewrite (toggleTodoStatus_hit _ _ Hu now _ _ _ Hf).
  - simpl. apply list_find_replaced with d; [done|].
    by apply list_find_Some in Hf as (_ & Hm & _).
Qed.

(** X7: three Toggles in a row of an item of the caller whose status is one
    of the three bring the item back: the collection holds the item it held
    at first, with only the time of update changed, and the third response
    announces the original status. *)
Theorem toggle_three_times req t1 t2 t3 db uid i d :
  user_id req = Some uid ->
  unique_ids db -> docs db !! i = Some d ->
  _id d = req_id req -> user d = uid ->
  status d ∈ statuses ->
  let db1 := (router PATCH_toggle req t1 db).1 in
  let db2 := (router PATCH_toggle req t2 db1).1 in
  let d3 := {| _id := _id d; title := title d; description := description d;
               status := status d; user := user d; createdAt := createdAt d;
               updatedAt := t3 |} in
  router PATCH_toggle req t3 db2
  = (replaced i d3 db, item_response d3 (Some (StatusChangedTo (status d)))).
Proof.
  intros Hu Hnd Hi Hid Hud Hs db1 db2 d3.
  assert (Hf : list_find (matches (req_id req) uid) (docs db) = Some (i, d)).
  { rewrite <- Hid, <- Hud. by apply list_find_own. }
  destruct (toggle_step req t1 db uid i d Hu Hf) as [E1 Hf1].
  unfold db2, db1. rewrite E1. simpl fst.
  destruct (toggle_step req t2 _ uid i _ Hu Hf1) as [E2 Hf2].
  rewrite E2. simpl fst.
  destruct (toggle_step req t3 _ uid i _ Hu Hf2) as [E3 _].
  rewrite E3, !replaced_replaced. rewrite toggled_thrice by done.
  fold d3. simpl. by rewrite newStatus_cycle.
Qed.

Lemma toggle_three_times_witness :
  let req := request_of alice ∅ 1 in
  let db1 := (router PATCH_toggle req 7 shared_db).1 in
  let db2 := (router PATCH_toggle req 8 db1).1 in
  let d3 := {| _id := 1; title := str "Call Bob"; description := None;
               status := str "completed"; user := alice; createdAt := 6;
               updatedAt := 9 |} in
  router PATCH_toggle req 9 db2
  = (replaced 1 d3 shared_db,
     item_response d3 (Some (StatusChangedTo (str "completed")))).
Proof.
  intros req.
  apply (toggle_three_times req 7 8 9 shared_db alice 1%nat alices_item);
    try reflexivity.
  - apply (bool_decide_unpack _). by vm_compute.
  - apply (bool_decide_unpack _). by vm_compute.
Defined.

Lemma apply_update_twice u t1 t2 d :
  apply_update u t2 (apply_update u t1 d) = apply_update u t2 d.
Proof.
  unfold apply_update. simpl.
  by destruct (v_title u), (v_description u), (v_status u), (v_user u).
Qed.

(** X8: an Update is idempotent: repeating an Update with the same valid
    body leaves the collection and the response as one Update at the time
    of the second gives them. *)
Theorem update_twice req t1 t2 db uid :
  user_id req = Some uid ->
  valid_update_body (req_body req) = true ->
  router PUT_todo req t2 (router PUT_todo req t1 db).1
  = router PUT_todo req t2 db.
Proof.
  intros Hu Hv. rewrite !(router_authenticated _ _ _ _ _ Hu).
  rewrite !(updateTodoController_valid _ _ _ _ Hu Hv).
  destruct (list_find _ (docs db)) as [[i d]|] eqn:Hf; simpl.
  - rewrite (list_find_replaced _ _ _ _ _ _ Hf).
    + by rewrite replaced_replaced, apply_update_twice.
    + apply list_find_Some in Hf as (_ & [Hid Hud] & _). by split.
  - by rewrite Hf.
Qed.

Lemma update_twice_witness :
  let req := request_of alice (titled (str "Call Eve")) 1 in
  router PUT_todo req 9 (router PUT_todo req 8 shared_db).1
  = router PUT_todo req 9 shared_db
  /\ (router PUT_todo req 9 shared_db).1 <> shared_db.
Proof.
  intros req. split.
  - apply (update_twice req 8 9 shared_db alice); reflexivity.
  - by vm_compute.
Defined.

(** ** The checks of the update controller *)

Lemma router_passed r req now db u :
  req_user req = Some u ->
  router r req now db =
    match r with
    | GET_todos => (db, getTodosController req db)
    | POST_todos => createTodoController req now db
    | GET_todo => (db, getTodoController req db)
    | PUT_todo => updateTodoController req now db
    | DELETE_todo => deleteTodoController req db
    | PATCH_toggle => toggleTodoStatusController req now db
    end.
Proof. unfold router. by intros ->. Qed.

Lemma set_title_passes v u :
  title_passes_update v = true ->
  set_title v u
  = Ok (inr match v with
            | JStr t => <["title" := JStr (trim t)]> u
            | _ => u
            end).
Proof.
  destruct v as [| | | |s| |]; try done. unfold title_passes_update, set_title.
  intros Hs%negb_true_iff%bool_decide_eq_false.
  assert (s <> []) by (by intros ->).
  rewrite bool_decide_eq_false_2 by done.
  rewrite truthy_str, bool_decide_eq_false_2 by done. simpl.
  by rewrite length_zero_iff, bool_decide_eq_false_2.
Qed.

(** X9: an Update that supplies a blank title is answered 400 with [Title
    cannot be empty], and one that supplies a status outside the
    enumeration (its title, if any, not being blank and its description
    being a string or absent) is answered 400 with [Invalid status...];
    both before the caller's identity or the collection is looked at, and
    nothing is written. *)
Theorem update_rejected_before_lookup req now db u :
  req_user req = Some u ->
  (get (req_body req) "title" <> JUndefined ->
   blank_title (get (req_body req) "title") = true ->
   router PUT_todo req now db
   = (db, failure 400 (Text "Title cannot be empty")))
  /\ (title_passes_update (get (req_body req) "title") = true ->
      text_or_absent (get (req_body req) "description") = true ->
      get (req_body req) "status" <> JUndefined ->
      includes_status (get (req_body req) "status") = false ->
      router PUT_todo req now db
      = (db, failure 400
           (Text "Invalid status. Must be one of: pending, in_progress, completed"))).
Proof.
  intros Hu. rewrite (router_passed _ _ _ _ _ Hu).
  unfold updateTodoController, build_updateData. split.
  - intros Hne Hb. unfold set_title.
    rewrite bool_decide_eq_false_2 by done.
    unfold blank_title in Hb.
    destruct (truthy (get (req_body req) "title")) eqn:Ht; simpl in *; [|done].
    destruct (get (req_body req) "title"); try done. simpl.
    apply bool_decide_eq_true in Hb. by rewrite Hb.
  - intros Ht Hd Hs Hi. rewrite (set_title_passes _ _ Ht). cbn [bind].
    assert (Hd' : exists u', set_description (get (req_body req) "description")
              match get (req_body req) "title" with
              | JStr t => <["title" := JStr (trim t)]> ∅
              | _ => ∅
              end = Ok (inr u')).
    { unfold set_description.
      destruct (get (req_body req) "description"); try done; by eexists. }
    destruct Hd' as [u' ->]. cbn [bind]. unfold set_status.
    by rewrite bool_decide_eq_false_2, Hi by done.
Qed.

Lemma update_rejected_before_lookup_witness :
  router PUT_todo
    (request_of bob (<["status" := JStr (str "done")]> (titled (str "x"))) 7)
    3 shared_db
  = (shared_db, failure 400
       (Text "Invalid status. Must be one of: pending, in_progress, completed")).
Proof.
  apply (update_rejected_before_lookup
           (request_of bob (<["status" := JStr (str "done")]> (titled (str "x"))) 7)
           3 shared_db bob); try reflexivity. discriminate.
Defined.

(** ** The second validation *)

Lemma parse_todoSchema_inv o v :
  parse todoSchema o = Ok v ->
  exists t s u,
    get o "title" = JStr t /\ (1 <= length t <= 255)%nat
    /\ short_description (get o "description")
    /\ get o "status" = JStr s /\ s ∈ statuses
    /\ get o "user" = JStr u /\ u <> [].
Proof.
  intros [Hi _]%parse_Ok. rewrite schema_issues_todoSchema in Hi.
  apply app_nil in Hi as [Ht Hi]. apply app_nil in Hi as [Hd Hi].
  apply app_nil in Hi as [Hs Hi]. apply app_nil in Hi as [Hu _].
  apply z_string_nil in Ht as (t & Et & Hmin & Hmax).
  apply z_enum_nil in Hs as (s & Es & Hin).
  apply z_string_nil in Hu as (u & Eu & Humin & _).
  exists t, s, u. repeat split; try done.
  - by eapply Hmin.
  - by eapply Hmax.
  - apply z_optional_nil in Hd as [Hd | Hd]; [by left|].
    apply z_string_nil in Hd as (d & Ed & _ & Hdmax). right.
    exists d. split; [done|]. by eapply Hdmax.
  - specialize (Humin _ _ eq_refl). intros ->. simpl in Humin. lia.
Qed.

Lemma parse_partial_inv o v :
  parse (partial todoSchema) o = Ok v ->
  (forall t, v_title v = Some t -> (1 <= length t <= 255)%nat)
  /\ (forall d, v_description v = Some d -> (length d <= 1000)%nat)
  /\ (forall s, v_status v = Some s -> s ∈ statuses)
  /\ (forall u, v_user v = Some u -> u <> []).
Proof.
  intros [Hi ->]%parse_Ok. rewrite schema_issues_partial in Hi.
  apply app_nil in Hi as [Ht Hi]. apply app_nil in Hi as [Hd Hi].
  apply app_nil in Hi as [Hs Hi]. apply app_nil in Hi as [Hu _]. simpl.
  split; [|split; [|split]].
  - intros t Et. apply z_optional_nil in Ht as [Ht | Ht];
      [by rewrite Ht in Et|].
    apply z_string_nil in Ht as (t' & Et' & Hmin & Hmax).
    rewrite Et' in Et. injection Et as <-. split; [by eapply Hmin | by eapply Hmax].
  - intros d Ed. apply z_optional_nil in Hd as [Hd | Hd];
      [by rewrite Hd in Ed|].
    apply z_optional_nil in Hd as [Hd | Hd]; [by rewrite Hd in Ed|].
    apply z_string_nil in Hd as (d' & Ed' & _ & Hmax).
    rewrite Ed' in Ed. injection Ed as <-. by eapply Hmax.
  - intros s Es. apply z_optional_nil in Hs as [Hs | Hs];
      [by rewrite Hs in Es|].
    apply z_enum_nil in Hs as (s' & Es' & Hin).
    rewrite Es' in Es. by injection Es as <-.
  - intros u Eu. apply z_optional_nil in Hu as [Hu | Hu];
      [by rewrite Hu in Eu|].
    apply z_string_nil in Hu as (u' & Eu' & Hmin & _).
    rewrite Eu' in Eu. injection Eu as <-.
    specialize (Hmin _ _ eq_refl). intros ->. simpl in Hmin. lia.
Qed.

Lemma parse_Throw schema o e :
  parse schema o = Throw e -> exists issues, e = ZodError issues.
Proof.
  unfold parse. destruct (schema_issues schema o); [done|].
  intros [= <-]. eauto.
Qed.

Lemma createTodo_ValidationError req todoData now db db' p :
  createTodo req todoData now db = (db', Throw (ValidationError p)) ->
  exists t, get todoData "title" = JStr t /\ whitespace_only t.
Proof.
  unfold createTodo. destruct (user_id req) as [uid|]; [|done].
  destruct (parse _ _) as [v|e] eqn:Hp;
    [|by apply parse_Throw in Hp as [? ->]].
  pose proof Hp as (t & s & u & Et & Hl & Hd & Es & Hin & Eu & Hu)%parse_todoSchema_inv.
  apply parse_Ok in Hp as [_ ->].
  autorewrite with js_get in Et, Hd, Es, Eu. autorewrite with js_get.
  rewrite Et, Es. unfold Todo_save, cast. simpl.
  intros H. exists t. split; [done|]. split.
  { intros ->. simpl in Hl. lia. }
  destruct (decide (trim t = [])) as [|Hne]; [done|]. exfalso.
  injection Eu as <-.
  rewrite validate_doc_ok in H; try done.
  - pose proof (trim_length t). lia.
  - intros x Hx. destruct Hd as [Hd | (d & Hd & Hdl)]; rewrite Hd in Hx; [done|].
    injection Hx as <-. pose proof (trim_length d). lia.
Qed.

Lemma updateTodo_ValidationError req todoId updateData now db db' p :
  updateTodo req todoId updateData now db = (db', Throw (ValidationError p)) ->
  exists t, get updateData "title" = JStr t /\ whitespace_only t.
Proof.
  unfold updateTodo. destruct (user_id req) as [uid|]; [|done].
  destruct (parse _ _) as [v|e] eqn:Hp;
    [|by apply parse_Throw in Hp as [? ->]].
  pose proof Hp as (Ht & Hd & Hs & Hu)%parse_partial_inv.
  apply parse_Ok in Hp as [_ Hv].
  assert (Etitle : v_title v = as_str (get updateData "title")).
  { rewrite Hv. simpl. by autorewrite with js_get. }
  unfold Todo_findOneAndUpdate.
  destruct (validate_update (cast v)) eqn:Hval.
  { destruct (list_find _ _) as [[??]|]; simpl; intros H; inversion H. }
  intros _.
  destruct (v_title v) as [t|] eqn:Et.
  - destruct (decide (trim t = [])) as [Hw|Hne].
    + exists t. split.
      * destruct (get updateData "title"); simpl in Etitle; try done.
        by injection Etitle as ->.
      * split; [|done]. intros ->. specialize (Ht _ eq_refl). simpl in Ht. lia.
    + exfalso. rewrite validate_update_ok in Hval; [done|..]; simpl.
      * rewrite Et. simpl. intros ? [= <-]. split; [done|].
        pose proof (trim_length t). specialize (Ht _ eq_refl). lia.
      * intros d Ed. destruct (v_description v) as [d'|]; [|done].
        injection Ed as <-. pose proof (trim_length d').
        specialize (Hd _ eq_refl). lia.
      * done.
      * done.
  - exfalso. rewrite validate_update_ok in Hval; [done|..]; simpl.
    + by rewrite Et.
    + intros d Ed. destruct (v_description v) as [d'|]; [|done].
      injection Ed as <-. pose proof (trim_length d').
      specialize (Hd _ eq_refl). lia.
    + done.
    + done.
Qed.

Lemma toggleTodoStatus_throws req todoId now db db' e :
  toggleTodoStatus req todoId now db = (db', Throw e) ->
  exists m, e = Error m.
Proof.
  unfold toggleTodoStatus. destruct (user_id req) as [uid|] eqn:Hu;
    [|intros [= _ <-]; eauto].
  unfold Todo_findOne.
  destruct (list_find _ _) as [[i d]|] eqn:Hf; [|intros [= _ <-]; eauto].
  simpl. unfold Todo_findOneAndUpdate.
  rewrite validate_update_ok; simpl; try done.
  - by rewrite Hf.
  - intros s [= <-]. apply newStatus_allowed.
Qed.

(** X10: a whitespace-only title reaches [createTodo] only from a caller
    other than the controller; it passes the zod schema, which counts the
    code units before trimming, and is rejected by the validators of the
    model, which run after the [trim] setter: the call throws the
    validation error of the path [title] and writes nothing. *)
Theorem createTodo_whitespace_title req todoData now db uid t :
  user_id req = Some uid ->
  get todoData "title" = JStr t -> whitespace_only t ->
  (length t <= 255)%nat ->
  short_description (get todoData "description") ->
  includes_status (js_or (get todoData "status") (JStr (str "pending"))) = true ->
  get todoData "createdAt" = JUndefined ->
  get todoData "updatedAt" = JUndefined ->
  createTodo req todoData now db = (db, Throw (ValidationError "title")).
Proof.
  intros Hu Et [Hne Hw] Hl Hd (s & Es & Hin)%includes_status_str Hc Hup.
  pose proof (user_id_nonempty _ _ Hu) as Huid.
  assert (Ht1 : (1 <= length t)%nat) by (destruct t; [done | simpl; lia]).
  assert (Hu1 : (1 <= length uid)%nat) by (destruct uid; [done | simpl; lia]).
  unfold createTodo. rewrite Hu, Es.
  rewrite parse_no_issues.
  - autorewrite with js_get. rewrite Et. unfold Todo_save, cast. simpl.
    rewrite Hw. unfold validate_doc. simpl.
    assert (E : maxlength 1000 (trim <$> as_str (get todoData "description")) = true).
    { destruct Hd as [-> | (d & -> & Hdl)]; [done|]. simpl.
      apply Nat.leb_le. pose proof (trim_length d). lia. }
    rewrite E. pose proof (statuses_nonempty _ Hin).
    destruct s; [done|]. rewrite (bool_decide_eq_true_2 _ Hin).
    by destruct uid.
  - rewrite schema_issues_todoSchema. autorewrite with js_get.
    rewrite Et, Hc, Hup.
    rewrite !z_string_ok; try (by intros ? ? [= <- <-]); try done.
    unfold todoStatusSchema, z_enum. rewrite (bool_decide_eq_true_2 _ Hin).
    destruct Hd as [-> | (s' & -> & Hl')]; [done|].
    simpl. destruct (Nat.ltb_spec 1000 (length s')); [lia | done].
Qed.

Lemma createTodo_whitespace_title_witness :
  createTodo (request_of alice ∅ 0) (titled (str "  ")) 3 bobs_db
  = (bobs_db, Throw (ValidationError "title")).
Proof.
  apply (createTodo_whitespace_title (request_of alice ∅ 0) (titled (str "  "))
           3 bobs_db alice (str "  ")); try reflexivity.
  - split; [discriminate | reflexivity].
  - vm_compute. lia.
  - by left.
Defined.

Lemma trimmed_not_whitespace_only s : trim s <> [] -> ~ whitespace_only (trim s).
Proof. intros Hne [_ Hw]. by rewrite trim_idemp in Hw. Qed.

Lemma call_trim_Ok name v t :
  call_trim name v = Ok t -> exists s, v = JStr s /\ t = trim s.
Proof. destruct v; try done. intros [= <-]. eauto. Qed.

Lemma call_trim_Throw name v e :
  call_trim name v = Throw e -> exists w, e = TypeError w.
Proof. destruct v; try done; intros [= <-]; eauto. Qed.

Lemma optional_trim_Throw name v e :
  optional_trim name v = Throw e -> exists w, e = TypeError w.
Proof. destruct v; try done; intros [= <-]; eauto. Qed.

(** The three guarded assignments: what they return early, what they throw
    and what they do to the title. *)
Lemma set_title_cases v u :
  (exists m, set_title v u = Ok (inl (failure 400 (Text m))))
  \/ (exists w, set_title v u = Throw (TypeError w))
  \/ (set_title v u = Ok (inr u) /\ v = JUndefined)
  \/ (exists s, set_title v u = Ok (inr (<["title" := JStr (trim s)]> u))
        /\ v = JStr s /\ trim s <> []).
Proof.
  unfold set_title. case_bool_decide; [by right; right; left|].
  destruct (negb (truthy v)); [left; eauto|].
  destruct (call_trim "title" v) as [t|e] eqn:Hc; cbn [bind].
  - apply call_trim_Ok in Hc as (s & -> & ->).
    rewrite length_zero_iff. case_bool_decide; [left; eauto|].
    right. right. right. eauto.
  - apply call_trim_Throw in Hc as [w ->]. right. left. eauto.
Qed.

Lemma set_description_cases v u :
  (exists w, set_description v u = Throw (TypeError w))
  \/ (exists u', set_description v u = Ok (inr u')
        /\ get u' "title" = get u "title").
Proof.
  unfold set_description. case_bool_decide; [right; eauto|].
  destruct (optional_trim "description" v) as [d|e] eqn:Hd; cbn [bind].
  - right. eexists. split; [done|]. by autorewrite with js_get.
  - apply optional_trim_Throw in Hd as [w ->]. left. eauto.
Qed.

Lemma set_status_cases v u :
  (exists m, set_status v u = Ok (inl (failure 400 (Text m))))
  \/ (exists u', set_status v u = Ok (inr u')
        /\ get u' "title" = get u "title").
Proof.
  unfold set_status. case_bool_decide; [right; eauto|].
  destruct (negb (includes_status v)); [left; eauto|].
  right. eexists. split; [done|]. by autorewrite with js_get.
Qed.

(** What the update controller does before it calls [updateTodo]: an early
    400, a [TypeError], or the data with a title that is trimmed and not
    empty when there is one. *)
Lemma build_updateData_cases body :
  (exists m, build_updateData body = Ok (inl (failure 400 (Text m))))
  \/ (exists w, build_updateData body = Throw (TypeError w))
  \/ (exists u, build_updateData body = Ok (inr u)
        /\ (get u "title" = JUndefined
            \/ exists s, get u "title" = JStr (trim s) /\ trim s <> [])).
Proof.
  unfold build_updateData.
  destruct (set_title_cases (get body "title") ∅)
    as [[m ->] | [[w ->] | [[-> _] | (s & -> & _ & Hne)]]]; cbn [bind];
    [left; eauto | right; left; eauto | |].
  - destruct (set_description_cases (get body "description") ∅)
      as [[w ->] | (u1 & -> & H1)]; cbn [bind]; [right; left; eauto|].
    destruct (set_status_cases (get body "status") u1)
      as [[m ->] | (u2 & -> & H2)]; [left; eauto|].
    right. right. eexists. split; [done|]. left. by rewrite H2, H1.
  - destruct (set_description_cases (get body "description")
                (<["title" := JStr (trim s)]> ∅))
      as [[w ->] | (u1 & -> & H1)]; cbn [bind]; [right; left; eauto|].
    destruct (set_status_cases (get body "status") u1)
      as [[m ->] | (u2 & -> & H2)]; [left; eauto|].
    right. right. eexists. split; [done|]. right. exists s.
    rewrite H2, H1. by autorewrite with js_get.
Qed.

(** X11: no response of the router carries the validation error of the
    model: what the controllers pass on and the zod schema accepts, the
    validators of the mongoose schema accept as well. *)
Theorem router_never_reports_model_validation r req now db p :
  message (router r req now db).2 <> Some (ValidationText p).
Proof.
  unfold router. destruct (req_user req); [|done].
  destruct r.
  - unfold getTodosController, getTodos. by destruct (user_id req).
  - unfold createTodoController.
    destruct (negb _); [done|].
    destruct (call_trim _ _) as [t|e] eqn:Hc.
    2: { by apply call_trim_Throw in Hc as [w ->]. }
    simpl. rewrite length_zero_iff. case_bool_decide as Hne; [done|].
    destruct (optional_trim _ _) as [d|e] eqn:Hd.
    2: { by apply optional_trim_Throw in Hd as [w ->]. }
    destruct (createTodo _ _ _ _) as [db' [doc|e]] eqn:Hcr; [done|].
    destruct e; try done. exfalso.
    apply createTodo_ValidationError in Hcr as (t' & Et & Hw).
    autorewrite with js_get in Et. injection Et as <-.
    apply call_trim_Ok in Hc as (s & _ & ->).
    by apply (trimmed_not_whitespace_only s).
  - unfold getTodoController, getTodo. destruct (user_id req); [|done].
    by destruct (Todo_findOne _ _ _).
  - unfold updateTodoController.
    destruct (build_updateData_cases (req_body req))
      as [[m ->] | [[w ->] | (u & -> & Hu)]]; [done | done |].
    destruct (updateTodo _ _ _ _ _) as [db' [doc|e]] eqn:Hup; [done|].
    destruct e; try done. exfalso.
    apply updateTodo_ValidationError in Hup as (t & Et & Hw).
    destruct Hu as [Hu | (s & Hu & Hne)]; rewrite Hu in Et; [done|].
    injection Et as <-. by apply (trimmed_not_whitespace_only s).
  - unfold deleteTodoController, deleteTodo, Todo_deleteOne.
    destruct (user_id req); [|done]. by destruct (list_find _ _) as [[??]|].
  - unfold toggleTodoStatusController.
    destruct (toggleTodoStatus _ _ _ _) as [db' [[doc|]|e]] eqn:Ht; try done.
    by apply toggleTodoStatus_throws in Ht as [m ->].
Qed.

(** ** The envelope *)

Lemma failure_contract r req db c m :
  c = 400%nat \/ c = 404%nat \/ c = 500%nat ->
  (c = 404%nat -> m = Text "Todo not found") ->
  controller_contract r req db (db, failure c m).
Proof.
  intros Hc Hm. unfold controller_contract, envelope. simpl.
  split; [right; repeat split; [|by eexists]|].
  { rewrite !elem_of_cons. tauto. }
  split; [done|]. split; [by destruct Hc as [-> | [-> | ->]]|].
  split; [done|]. intros E. by rewrite (Hm E).
Qed.

Lemma catch_404_contract r req db e :
  controller_contract r req db (db, catch_404 e).
Proof.
  unfold catch_404. destruct (is_not_found e) eqn:E.
  - apply failure_contract; [tauto|]. intros _.
    destruct e; try done. simpl in E. apply bool_decide_eq_true in E.
    by rewrite E.
  - apply failure_contract; [tauto | done].
Qed.

Lemma catch_500_contract r req db e :
  controller_contract r req db (db, failure 500 (error_message e)).
Proof. apply failure_contract; [tauto | done]. Qed.

Lemma success_contract r req db db' resp uid :
  user_id req = Some uid ->
  success resp = true ->
  code resp = match r with POST_todos => 201 | _ => 200 end%nat ->
  error_tag resp = None ->
  controller_contract r req db (db', resp).
Proof.
  intros Hu Hs Hc He. unfold controller_contract, envelope. simpl.
  split; [by left|]. split; [by rewrite Hs|].
  split; [rewrite Hc; by destruct r|]. split; [by rewrite Hu|].
  rewrite Hc. by destruct r.
Qed.

Lemma createTodo_Throw req todoData now db db' e :
  createTodo req todoData now db = (db', Throw e) -> db' = db.
Proof.
  intros [[-> _] | (doc & uid & _ & ? & _)]%createTodo_cases; done.
Qed.

Lemma createTodo_Ok req todoData now db db' doc :
  createTodo req todoData now db = (db', Ok doc) -> is_Some (user_id req).
Proof.
  intros [[_ [e ?]] | (doc' & uid & -> & _)]%createTodo_cases; done.
Qed.

Lemma createTodoController_contract req now db :
  controller_contract POST_todos req db (createTodoController req now db).
Proof.
  unfold createTodoController.
  destruct (negb _); [apply failure_contract; [tauto | done]|].
  destruct (call_trim _ _) as [t|e]; [|apply catch_500_contract]. simpl.
  destruct (_ =? _)%nat; [apply failure_contract; [tauto | done]|].
  destruct (optional_trim _ _) as [d|e]; [|apply catch_500_contract].
  destruct (createTodo _ _ _ _) as [db' [doc|e]] eqn:Hc.
  - apply createTodo_Ok in Hc as [uid Hu]. by eapply success_contract.
  - apply createTodo_Throw in Hc as ->. apply catch_500_contract.
Qed.

Lemma updateTodoController_contract req now db :
  controller_contract PUT_todo req db (updateTodoController req now db).
Proof.
  unfold updateTodoController.
  destruct (build_updateData_cases (req_body req))
    as [[m ->] | [[w ->] | (u & -> & _)]];
    [apply failure_contract; [tauto | done] | apply catch_404_contract |].
  unfold updateTodo. destruct (user_id req) as [uid|] eqn:Hu;
    [|apply catch_404_contract].
  destruct (parse _ _) as [v|e]; [|apply catch_404_contract].
  unfold Todo_findOneAndUpdate.
  destruct (validate_update _); [|apply catch_404_contract].
  destruct (list_find _ _) as [[i d]|]; [|apply catch_404_contract].
  by eapply success_contract.
Qed.

Lemma deleteTodoController_contract req db :
  controller_contract DELETE_todo req db (deleteTodoController req db).
Proof.
  unfold deleteTodoController, deleteTodo, Todo_deleteOne.
  destruct (user_id req) as [uid|] eqn:Hu; [|apply catch_404_contract].
  destruct (list_find _ _) as [[i d]|]; [|apply catch_404_contract].
  by eapply success_contract.
Qed.

Lemma toggleTodoStatusController_contract req now db :
  controller_contract PATCH_toggle req db (toggleTodoStatusController req now db).
Proof.
  unfold toggleTodoStatusController, toggleTodoStatus.
  destruct (user_id req) as [uid|] eqn:Hu; [|apply catch_404_contract].
  unfold Todo_findOne.
  destruct (list_find _ _) as [[i d]|] eqn:Hf; [|apply catch_404_contract].
  simpl. unfold Todo_findOneAndUpdate.
  destruct (validate_update _); [|apply catch_404_contract].
  rewrite Hf. by eapply success_contract.
Qed.

Lemma getTodoController_contract req db :
  controller_contract GET_todo req db (db, getTodoController req db).
Proof.
  unfold getTodoController, getTodo.
  destruct (user_id req) as [uid|] eqn:Hu; [|apply catch_404_contract].
  destruct (Todo_findOne _ _ _); [|apply catch_404_contract].
  by eapply success_contract.
Qed.

Lemma getTodosController_contract req db :
  controller_contract GET_todos req db (db, getTodosController req db).
Proof.
  unfold getTodosController, getTodos.
  destruct (user_id req) as [uid|] eqn:Hu; [|apply catch_500_contract].
  by eapply success_contract.
Qed.

(** X12: every response of the router is a well-formed envelope: a success
    with code 201 for a create and 200 otherwise, or a failure with code
    400, 401, 404 or 500, a message and no data. A failed request writes
    nothing; the code is 401 exactly when the request carries no user; a
    success is only granted to a caller with an identity; and 404 always
    comes with the message [Todo not found]. *)
Theorem router_envelope r req now db :
  envelope r (router r req now db).2
  /\ (success (router r req now db).2 = false -> (router r req now db).1 = db)
  /\ (code (router r req now db).2 = 401%nat <-> req_user req = None)
  /\ (success (router r req now db).2 = true -> is_Some (user_id req))
  /\ (code (router r req now db).2 = 404%nat ->
      message (router r req now db).2 = Some (Text "Todo not found")).
Proof.
  unfold router. destruct (req_user req) as [u|] eqn:Hu.
  - assert (H : controller_contract r req db
                  match r with
                  | GET_todos => (db, getTodosController req db)
                  | POST_todos => createTodoController req now db
                  | GET_todo => (db, getTodoController req db)
                  | PUT_todo => updateTodoController req now db
                  | DELETE_todo => deleteTodoController req db
                  | PATCH_toggle => toggleTodoStatusController req now db
                  end).
    { destruct r; [apply getTodosController_contract
                  | apply createTodoController_contract
                  | apply getTodoController_contract
                  | apply updateTodoController_contract
                  | apply deleteTodoController_contract
                  | apply toggleTodoStatusController_contract]. }
    destruct H as (He & Hw & Hc & Hs & Hn). repeat split; try done.
  - simpl. repeat split; try done.
    right. repeat split; [|by eexists].
    rewrite !elem_of_cons. tauto.
Qed.

(** ** Pages of the list *)

Lemma filter_length_le {A} f (l : list A) :
  (length (List.filter f l) <= length l)%nat.
Proof. induction l as [|a l IH]; simpl; [done|]. destruct (f a); simpl; lia. Qed.

Lemma apply_limit_length n (l : list todo) :
  (length (apply_limit n l) <= length l)%nat
  /\ ((0 < n)%nat -> (length (apply_limit n l) <= n)%nat).
Proof.
  destruct n; simpl; [split; [done | lia]|].
  rewrite length_take. lia.
Qed.

Lemma apply_limit_all n (l : list todo) :
  (length l <= n)%nat -> apply_limit n l = l.
Proof. destruct n; [done|]. intros H. simpl. by apply take_ge. Qed.

(** X13: the list response of an authenticated caller carries the page as
    data and its length as count; the page is never longer than the limit
    (50 when none is given), nor than the number of items of the caller. *)
Theorem list_count_bounds req now db uid :
  user_id req = Some uid ->
  exists todos,
    router GET_todos req now db = (db, list_response todos)
    /\ data (list_response todos) = Some (Items todos)
    /\ count (list_response todos) = Some (length todos)
    /\ (length todos <= length (owned_by uid db))%nat
    /\ (forall n, q_limit (req_query req) = Some n -> (0 < n)%nat ->
          (length todos <= n)%nat)
    /\ (q_limit (req_query req) = None -> (length todos <= 50)%nat).
Proof.
  intros Hu. pose proof (getTodos_authenticated req (req_query req) db uid Hu) as Hg.
  eexists. split; [|split; [done|split; [done|split; [|split]]]].
  - rewrite (router_authenticated _ _ _ _ _ Hu). unfold getTodosController.
    by rewrite Hg.
  - etransitivity; [apply (proj1 (apply_limit_length _ _))|].
    rewrite length_drop, merge_sort_Permutation.
    pose proof (filter_length_le
      (fun d => match (if includes_status (q_status (req_query req))
                       then as_str (q_status (req_query req)) else None) with
                | Some s => bool_decide (status d = s)
                | None => true
                end) (owned_by uid db)). lia.
  - intros n -> Hn. simpl. by apply (proj2 (apply_limit_length _ _)).
  - intros ->. simpl. rewrite length_take. lia.
Qed.

Lemma list_count_bounds_witness :
  exists todos,
    router GET_todos (with_query (page 2 1) (request_of alice ∅ 0)) 0 five_db
    = (five_db, list_response todos)
    /\ data (list_response todos) = Some (Items todos)
    /\ count (list_response todos) = Some (length todos)
    /\ (length todos <= length (owned_by alice five_db))%nat
    /\ (forall n, Some 2%nat = Some n -> (0 < n)%nat -> (length todos <= n)%nat)
    /\ (Some 2%nat = None -> (length todos <= 50)%nat).
Proof.
  apply (list_count_bounds (with_query (page 2 1) (request_of alice ∅ 0)) 0
           five_db alice). reflexivity.
Defined.

(** X14: with a status of the enumeration as filter, every item of the page
    has that status and is owned by the caller; and without a skip, when
    the items selected (those of the caller, with the status of the filter
    if there is one) are no more than the limit, the page holds them all. *)
Theorem list_complete_page req db uid :
  user_id req = Some uid ->
  let q := req_query req in
  let n := default 50%nat (q_limit q) in
  exists todos,
    getTodos req q db = Ok todos
    /\ (forall s, q_status q = JStr s -> s ∈ statuses ->
          Forall (fun d => status d = s /\ user d = uid) todos
          /\ (default 0%nat (q_skip q) = 0%nat ->
              (length (owned_with_status uid s db) <= n)%nat ->
              todos ≡ₚ owned_with_status uid s db))
    /\ (includes_status (q_status q) = false ->
        default 0%nat (q_skip q) = 0%nat ->
        (length (owned_by uid db) <= n)%nat ->
        todos ≡ₚ owned_by uid db).
Proof.
  intros Hu q n.
  pose proof (getTodos_authenticated req q db uid Hu) as Hg. fold n in Hg.
  eexists. split; [exact Hg|]. split.
  - intros s Es Hs. rewrite Es. simpl. rewrite (bool_decide_eq_true_2 _ Hs).
    fold (owned_with_status uid s db). split.
    + apply Forall_forall. intros d Hd%page_subseteq.
      apply list_elem_of_In, filter_In in Hd as [Hd Hst].
      split; [by apply bool_decide_eq_true in Hst|].
      apply filter_In in Hd as [_ Hd]. by apply bool_decide_eq_true in Hd.
    + intros -> Hl. rewrite drop_0, apply_limit_all.
      * apply merge_sort_Permutation.
      * by rewrite merge_sort_Permutation.
  - intros Hi -> Hl. rewrite Hi, filter_true, drop_0, apply_limit_all.
    + apply merge_sort_Permutation.
    + by rewrite merge_sort_Permutation.
Qed.

Lemma list_complete_page_witness :
  let req := with_query (with_status (JStr (str "pending")) no_query)
               (request_of alice ∅ 0) in
  exists todos,
    getTodos req (req_query req) five_db = Ok todos
    /\ (forall s, JStr (str "pending") = JStr s -> s ∈ statuses ->
          Forall (fun d => status d = s /\ user d = alice) todos
          /\ (0%nat = 0%nat ->
              (length (owned_with_status alice s five_db) <= 50)%nat ->
              todos ≡ₚ owned_with_status alice s five_db))
    /\ (includes_status (JStr (str "pending")) = false ->
        0%nat = 0%nat ->
        (length (owned_by alice five_db) <= 50)%nat ->
        todos ≡ₚ owned_by alice five_db).
Proof.
  intros req. apply (list_complete_page req five_db alice). reflexivity.
Defined.

(** X15: the list response of a caller is the same on any two collections
    that hold the same items of that caller: the items of other owners
    change neither the page nor the count. *)
Theorem list_independent_of_others req now db db' uid :
  user_id req = Some uid ->
  owned_by uid db = owned_by uid db' ->
  (router GET_todos req now db).2 = (router GET_todos req now db').2.
Proof.
  intros Hu Ho. rewrite !(router_authenticated _ _ _ _ _ Hu).
  unfold getTodosController.
  by rewrite !(getTodos_authenticated _ _ _ _ Hu), Ho.
Qed.

Lemma list_independent_of_others_witness :
  (router GET_todos (request_of bob ∅ 0) 0 bobs_db).2
  = (router GET_todos (request_of bob ∅ 0) 0 shared_db).2.
Proof.
  apply (list_independent_of_others (request_of bob ∅ 0) 0 bobs_db shared_db bob);
    reflexivity.
Defined.

(** A list in which every earlier element is related to every later one is
    sorted. *)
Lemma lookup_StronglySorted {A} (R : relation A) (l : list A) :
  (forall i j a b, (i < j)%nat -> l !! i = Some a -> l !! j = Some b -> R a b) ->
  StronglySorted R l.
Proof.
  induction l as [|x l IH]; intros H; constructor.
  - apply IH. intros i j a b Hij Hi Hj. apply (H (S i) (S j)); [lia | done..].
  - apply Forall_forall. intros b [j Hj]%list_elem_of_lookup.
    apply (H 0%nat (S j)); [lia | done..].
Qed.

Lemma NoDup_fmap_eq {A B} (f : A -> B) (l : list A) x y :
  NoDup (f <$> l) -> x ∈ l -> y ∈ l -> f x = f y -> x = y.
Proof.
  induction l as [|a l IH]; intros Hnd Hx Hy E; [by apply elem_of_nil in Hx|].
  rewrite fmap_cons in Hnd. apply NoDup_cons in Hnd as [Ha Hnd].
  apply elem_of_cons in Hx as [-> | Hx]; apply elem_of_cons in Hy as [-> | Hy].
  - done.
  - destruct Ha. rewrite E. by apply list_elem_of_fmap_2.
  - destruct Ha. rewrite <- E. by apply list_elem_of_fmap_2.
  - by apply IH.
Qed.

(** The ranking of [getTodos] is over the selection. *)
Lemma ranking_selection uid st db :
  List.filter
    (fun d => match (if includes_status st then as_str st else None) with
              | Some s => bool_decide (status d = s)
              | None => true
              end)
    (owned_by uid db)
  = selection uid st db.
Proof.
  unfold selection. destruct st; simpl; try apply filter_true.
  case_bool_decide; [done | apply filter_true].
Qed.

Lemma selection_owned uid st db : selection uid st db ⊆ owned_by uid db.
Proof.
  rewrite <- ranking_selection. intros x Hx%list_elem_of_In.
  apply filter_In in Hx as [Hx _]. by apply list_elem_of_In.
Qed.

(** With distinct creation dates, the descending order of [createdAt] fixes
    the ranking of the selection. *)
Lemma ranking_unique uid st db ranked :
  NoDup (createdAt <$> owned_by uid db) ->
  ranked ≡ₚ selection uid st db ->
  (forall i j a b, (i < j)%nat ->
     ranked !! i = Some a -> ranked !! j = Some b ->
     (createdAt a >= createdAt b)%Z) ->
  ranked = merge_sort newer_first (selection uid st db).
Proof.
  intros Hnd Hp Hs.
  apply (StronglySorted_unique_strong newer_first).
  - intros x1 x2 H1 H2 R12 R21. unfold newer_first in *.
    apply (NoDup_fmap_eq createdAt (owned_by uid db)); [done| | |lia].
    + apply (selection_owned uid st db). by rewrite <- Hp.
    + apply (selection_owned uid st db). by rewrite <- merge_sort_Permutation.
  - apply lookup_StronglySorted. intros i j a b Hij Hi Hj.
    unfold newer_first. pose proof (Hs i j a b Hij Hi Hj). lia.
  - apply StronglySorted_merge_sort; apply _.
  - by rewrite merge_sort_Permutation.
Qed.

(** X16: consecutive pages join up when the creation dates of the caller's
    items are distinct: on one collection, the page of [n] items after a
    skip of [k] followed by the page of [m] items after a skip of [k + n]
    is the page of [n + m] items after a skip of [k], and no item is
    repeated in it. The sort fixes no order among items of equal
    [createdAt]; with distinct dates the two pages are those of every
    ranking of the selected items in descending order of [createdAt]. *)
Theorem list_pages_join req db uid st n m k :
  user_id req = Some uid ->
  (0 < n)%nat -> (0 < m)%nat ->
  NoDup (createdAt <$> owned_by uid db) ->
  let q lim sk := {| q_status := st; q_limit := Some lim; q_skip := Some sk |} in
  exists p1 p2,
    getTodos req (q n k) db = Ok p1
    /\ getTodos req (q m (k + n)%nat) db = Ok p2
    /\ getTodos req (q (n + m)%nat k) db = Ok (p1 ++ p2)%list
    /\ NoDup (p1 ++ p2)%list
    /\ (forall ranked,
          ranked ≡ₚ selection uid st db ->
          (forall i j a b, (i < j)%nat ->
             ranked !! i = Some a -> ranked !! j = Some b ->
             (createdAt a >= createdAt b)%Z) ->
          p1 = take n (drop k ranked)
          /\ p2 = take m (drop (k + n) ranked)).
Proof.
  intros Hu Hn Hm Hnd q.
  rewrite !(getTodos_authenticated _ _ _ _ Hu). simpl.
  rewrite ranking_selection.
  rewrite !apply_limit_positive by lia.
  do 2 eexists. split; [done|]. split; [done|].
  assert (E : (take n (drop k (merge_sort newer_first (selection uid st db)))
               ++ take m (drop (k + n) (merge_sort newer_first (selection uid st db))))%list
              = take (n + m) (drop k (merge_sort newer_first (selection uid st db)))).
  { by rewrite <- drop_drop, take_take_drop. }
  split; [by rewrite E|]. split.
  - rewrite E.
    assert (Hs : NoDup (merge_sort newer_first (selection uid st db))).
    { rewrite merge_sort_Permutation, <- ranking_selection.
      apply NoDup_ListNoDup, List.NoDup_filter, NoDup_ListNoDup.
      by apply (NoDup_fmap_1 createdAt). }
    eapply sublist_NoDup; [|apply sublist_take].
    eapply sublist_NoDup; [exact Hs | apply sublist_drop].
  - intros ranked Hp Hs.
    by rewrite (ranking_unique uid st db ranked Hnd Hp Hs).
Qed.

Lemma list_pages_join_witness :
  let q lim sk := {| q_status := JUndefined; q_limit := Some lim; q_skip := Some sk |} in
  createdAt <$> owned_by alice five_db = [30; 10; 50; 20; 40]%Z
  /\ exists p1 p2,
    getTodos (request_of alice ∅ 0) (q 2 1)%nat five_db = Ok p1
    /\ getTodos (request_of alice ∅ 0) (q 2 (1 + 2))%nat five_db = Ok p2
    /\ getTodos (request_of alice ∅ 0) (q (2 + 2) 1)%nat five_db = Ok (p1 ++ p2)%list
    /\ NoDup (p1 ++ p2)%list
    /\ (forall ranked,
          ranked ≡ₚ selection alice JUndefined five_db ->
          (forall i j a b, (i < j)%nat ->
             ranked !! i = Some a -> ranked !! j = Some b ->
             (createdAt a >= createdAt b)%Z) ->
          p1 = take 2 (drop 1 ranked)
          /\ p2 = take 2 (drop (1 + 2) ranked)).
Proof.
  split; [by vm_compute|].
  apply (list_pages_join (request_of alice ∅ 0) five_db alice JUndefined 2 2 1);
    [reflexivity | lia | lia |].
  apply (bool_decide_unpack _). by vm_compute.
Defined.

(** ** The client against the server *)

Lemma validateForm_true title description :
  validateForm title description = true ->
  trim title <> [] /\ (length (trim title) <= 255)%nat
  /\ (length description <= 1000)%nat.
Proof.
  unfold validateForm, newErrors. intros H%bool_decide_eq_true.
  destruct (Nat.ltb_spec 1000 (length description)).
  { by apply insert_non_empty in H. }
  case_bool_decide.
  { by apply insert_non_empty in H. }
  destruct (Nat.ltb_spec 255 (length (trim title))).
  { by apply insert_non_empty in H. }
  done.
Qed.

Lemma handleSubmit_Some title description status todoData :
  handleSubmit title description status = Some todoData ->
  validateForm title description = true
  /\ get todoData "title" = JStr (trim title)
  /\ get todoData "description"
     = (if bool_decide (trim description = []) then JUndefined
        else JStr (trim description))
  /\ get todoData "status" = JStr status.
Proof.
  unfold handleSubmit. destruct (validateForm title description); [|done].
  intros [= <-]. autorewrite with js_get. repeat split.
  unfold js_or. rewrite truthy_str. by case_bool_decide.
Qed.

(** What a body that reads like the data of an accepted form satisfies. *)
Lemma submitted_body_valid title description status todoData body :
  handleSubmit title description status = Some todoData ->
  status ∈ statuses ->
  (forall k, get body k = get todoData k) ->
  valid_title (get body "title") = true
  /\ valid_description (get body "description") = true
  /\ valid_create_status (get body "status") = true
  /\ valid_update_body body = true.
Proof.
  intros (Hv & Ht & Hd & Hs)%handleSubmit_Some Hin Hb.
  apply validateForm_true in Hv as (Hne & Hl & Hdl).
  assert (Vt : valid_title (get body "title") = true).
  { rewrite Hb, Ht. unfold valid_title. rewrite trim_idemp.
    apply andb_true_intro. split; apply Nat.leb_le; [|done].
    destruct (trim title); [done | simpl; lia]. }
  assert (Vd : valid_description (get body "description") = true).
  { rewrite Hb, Hd. case_bool_decide; [done|]. unfold valid_description.
    rewrite trim_idemp. apply Nat.leb_le.
    pose proof (trim_length description). lia. }
  assert (Vs : includes_status (get body "status") = true).
  { rewrite Hb, Hs. simpl. by apply bool_decide_eq_true. }
  repeat split; try done.
  - unfold valid_create_status. by rewrite Vs, orb_true_r.
  - unfold valid_update_body. by rewrite Vt, Vd, Vs, !orb_true_r.
Qed.

(** X17: what the form accepts, the server accepts: when [validateForm]
    lets a form through, with a status of the enumeration, a create with
    the submitted data by an authenticated caller answers 201 and inserts
    the item with the trimmed title, the trimmed description (none when it
    is blank) and the status of the form. *)
Theorem form_accepted_by_create ftitle fdescription fstatus todoData req now db uid :
  handleSubmit ftitle fdescription fstatus = Some todoData ->
  fstatus ∈ statuses ->
  user_id req = Some uid ->
  (forall k, get (req_body req) k = get todoData k) ->
  exists doc,
    router POST_todos req now db = (inserted doc db, created_response doc)
    /\ title doc = trim ftitle
    /\ description doc
       = (if bool_decide (trim fdescription = []) then None
          else Some (trim fdescription))
    /\ status doc = fstatus
    /\ user doc = uid.
Proof.
  intros Hh Hin Hu Hb.
  destruct (submitted_body_valid _ _ _ _ _ Hh Hin Hb) as (Vt & Vd & Vs & _).
  apply handleSubmit_Some in Hh as (_ & Ht & Hd & Hs).
  rewrite (router_authenticated _ _ _ _ _ Hu).
  rewrite (createTodoController_valid _ _ _ _ Hu Vt Vd Vs).
  eexists. split; [done|]. unfold created. simpl.
  rewrite !Hb, Ht, Hd, Hs. simpl. rewrite trim_idemp.
  repeat split.
  - case_bool_decide; [done|]. simpl. by rewrite trim_idemp.
  - unfold js_or. rewrite (includes_status_truthy (JStr fstatus)); [done|].
    simpl. by apply bool_decide_eq_true.
Qed.

Lemma form_accepted_by_create_witness :
  exists doc,
    router POST_todos
      (request_of alice
         (<["title" := JStr (str "Buy milk")]>
            (<["status" := JStr (str "in_progress")]> ∅)) 0) 3 bobs_db
    = (inserted doc bobs_db, created_response doc)
    /\ title doc = trim (str " Buy milk ")
    /\ description doc
       = (if bool_decide (trim (str "  ") = []) then None
          else Some (trim (str "  ")))
    /\ status doc = str "in_progress"
    /\ user doc = alice.
Proof.
  apply (form_accepted_by_create (str " Buy milk ") (str "  ") (str "in_progress")
           (<["title" := JStr (str "Buy milk")]>
              (<["description" := JUndefined]>
                 (<["status" := JStr (str "in_progress")]> ∅)))
           (request_of alice
              (<["title" := JStr (str "Buy milk")]>
                 (<["status" := JStr (str "in_progress")]> ∅)) 0)
           3 bobs_db alice).
  - by vm_compute.
  - apply (bool_decide_unpack _). by vm_compute.
  - reflexivity.
  - intros k. unfold get. simpl. rewrite !lookup_insert.
    repeat case_decide; simplify_eq; done.
Defined.

(** X18: the edit form cannot clear a description: when the form is
    submitted with a blank description for an item of the caller, the
    Update answers 200, sets the title and the status of the form, and
    leaves the stored description as it was. *)
Theorem form_blank_description_kept ftitle fdescription fstatus todoData
    req now db uid i d :
  handleSubmit ftitle fdescription fstatus = Some todoData ->
  trim fdescription = [] ->
  fstatus ∈ statuses ->
  user_id req = Some uid ->
  (forall k, get (req_body req) k = get todoData k) ->
  unique_ids db -> docs db !! i = Some d ->
  _id d = req_id req -> user d = uid ->
  exists d',
    router PUT_todo req now db
    = (replaced i d' db,
       item_response d' (Some (Text "Todo updated successfully")))
    /\ description d' = description d
    /\ title d' = trim ftitle
    /\ status d' = fstatus.
Proof.
  intros Hh Hblank Hin Hu Hb Hnd Hi Hid Hud.
  destruct (submitted_body_valid _ _ _ _ _ Hh Hin Hb) as (_ & _ & _ & Hv).
  apply handleSubmit_Some in Hh as (_ & Ht & Hd & Hs).
  rewrite bool_decide_eq_true_2 in Hd by done.
  assert (Hf : list_find (matches (req_id req) uid) (docs db) = Some (i, d)).
  { rewrite <- Hid, <- Hud. by apply list_find_own. }
  rewrite (router_authenticated _ _ _ _ _ Hu).
  rewrite (updateTodoController_valid _ _ _ _ Hu Hv), Hf.
  eexists. split; [done|]. unfold update_of. simpl.
  rewrite !Hb, Ht, Hd, Hs. simpl. by rewrite trim_idemp.
Qed.

Lemma form_blank_description_kept_witness :
  let item :=
    {| _id := 0; title := str "Buy milk";
       description := Some (str "two litres");
       status := str "pending"; user := alice;
       createdAt := 5; updatedAt := 5 |} in
  let described := {| docs := [item]; next_id := 1 |} in
  exists d',
    router PUT_todo
      (request_of alice
         (<["title" := JStr (str "Buy milk")]>
            (<["status" := JStr (str "pending")]> ∅)) 0) 8 described
    = (replaced 0 d' described,
       item_response d' (Some (Text "Todo updated successfully")))
    /\ description d' = description item
    /\ title d' = trim (str "Buy milk")
    /\ status d' = str "pending".
Proof.
  intros item described.
  apply (form_blank_description_kept (str "Buy milk") [] (str "pending")
           (<["title" := JStr (str "Buy milk")]>
              (<["description" := JUndefined]>
                 (<["status" := JStr (str "pending")]> ∅)))
           (request_of alice
              (<["title" := JStr (str "Buy milk")]>
                 (<["status" := JStr (str "pending")]> ∅)) 0)
           8 described alice 0%nat item); try reflexivity.
  - apply (bool_decide_unpack _). by vm_compute.
  - intros k. unfold get. simpl. rewrite !lookup_insert.
    repeat case_decide; simplify_eq; done.
  - apply (bool_decide_unpack _). by vm_compute.
Defined.

(** ** The counts and labels of the list *)

Lemma count_status_others s (todos : list todo) :
  Forall (fun d => status d = s) todos ->
  count_status s todos = length todos
  /\ (forall s', s' <> s -> count_status s' todos = 0%nat).
Proof.
  unfold count_status. induction 1 as [|d l Hd _ [IH1 IH2]]; [done|]. simpl.
  rewrite bool_decide_eq_true_2 by done. simpl. split; [by rewrite IH1|].
  intros s' Hs'. rewrite bool_decide_eq_false_2 by congruence. by apply IH2.
Qed.

(** X19: the counts of the filter bar add up: over a list whose statuses
    are of the enumeration, as every list that the server returns from a
    reachable collection is, the counts of the three statuses sum to the
    count of all. *)
Theorem todoCounts_add_up todos :
  Forall (fun d => status d ∈ statuses) todos ->
  (pending (todoCounts todos) + in_progress (todoCounts todos)
   + completed (todoCounts todos) = all (todoCounts todos))%nat.
Proof.
  unfold todoCounts, count_status. simpl.
  induction 1 as [|d l Hd _ IH]; [done|]. simpl.
  unfold statuses in Hd. rewrite !elem_of_cons, elem_of_nil in Hd.
  destruct Hd as [-> | [-> | [-> | []]]];
    repeat (rewrite bool_decide_eq_true_2 by done
            || rewrite bool_decide_eq_false_2 by done);
    simpl; lia.
Qed.

Lemma todoCounts_add_up_witness :
  (pending (todoCounts (docs shared_db))
   + in_progress (todoCounts (docs shared_db))
   + completed (todoCounts (docs shared_db))
   = all (todoCounts (docs shared_db)))%nat.
Proof.
  apply (todoCounts_add_up (docs shared_db)).
  apply (bool_decide_unpack _). by vm_compute.
Defined.

(** X20: the counts are taken over the list that the server returned for
    the current filter: with a status as filter, the count of all equals
    the count of that status and the counts of the other two statuses are
    0, whatever the caller has stored. *)
Theorem todoCounts_under_filter req db uid s todos :
  user_id req = Some uid ->
  s ∈ statuses ->
  getTodos req (service_query s) db = Ok todos ->
  all (todoCounts todos) = count_status s todos
  /\ (forall s', s' <> s -> count_status s' todos = 0%nat)
  /\ (all (todoCounts todos) <= 50)%nat.
Proof.
  intros Hu Hs Hg.
  assert (Hq : q_status (service_query s) = JStr s).
  { unfold service_query. simpl.
    pose proof (statuses_nonempty _ Hs).
    rewrite (bool_decide_eq_false_2 (s = [])) by done.
    rewrite bool_decide_eq_false_2; [done|]. intros ->. revert Hs.
    unfold statuses. rewrite !elem_of_cons, elem_of_nil.
    intros [?|[?|[?|[]]]]; done. }
  destruct (list_complete_page (with_query (service_query s) req) db uid Hu)
    as (todos' & Hg' & Hf & _).
  simpl in Hg'. replace (getTodos (with_query (service_query s) req))
    with (getTodos req) in Hg' by done.
  rewrite Hg in Hg'. injection Hg' as <-.
  destruct (Hf s Hq Hs) as [Hall _].
  assert (Hst : Forall (fun d => status d = s) todos).
  { eapply Forall_impl; [exact Hall|]. by intros ? [? _]. }
  destruct (count_status_others s todos Hst) as [E1 E2].
  split; [by rewrite E1|]. split; [done|].
  rewrite (getTodos_authenticated _ _ _ _ Hu) in Hg. injection Hg as <-.
  simpl. rewrite length_take. lia.
Qed.

Lemma todoCounts_under_filter_witness :
  exists todos,
    getTodos (request_of alice ∅ 0) (service_query (str "completed")) shared_db
    = Ok todos
    /\ all (todoCounts todos) = count_status (str "completed") todos
    /\ (forall s', s' <> str "completed" -> count_status s' todos = 0%nat)
    /\ (all (todoCounts todos) <= 50)%nat.
Proof.
  eexists. split; [by vm_compute|].
  apply (todoCounts_under_filter (request_of alice ∅ 0) shared_db alice
           (str "completed")); [reflexivity | | by vm_compute].
  apply (bool_decide_unpack _). by vm_compute.
Defined.

(** X21: the description that an item shows is the stored one when it has
    at most 100 code units; a longer one is cut to its first 100 code
    units followed by three dots, 103 code units in all. *)
Theorem shown_description_bounds description :
  (length (shown_description description) <= 103)%nat
  /\ take 100 (shown_description description) = take 100 description
  /\ ((length description <= 100)%nat ->
      shown_description description = description)
  /\ ((100 < length description)%nat ->
      shown_description description = (take 100 description ++ str "...")%list
      /\ length (shown_description description) = 103%nat).
Proof.
  unfold shown_description.
  destruct (Nat.ltb_spec 100 (length description)) as [Hl|Hl].
  - assert (Ht : length (take 100 description) = 100%nat)
      by (rewrite length_take; lia).
    rewrite length_app, Ht. repeat split; try done; try lia.
    rewrite take_app_le by lia. apply take_ge. lia.
  - repeat split; try done; lia.
Qed.

(** X22: the tooltip of the status badge names the status that a toggle on
    the server leads to: for each status of the enumeration,
    [getNextStatusText] is [Mark as] followed by the label of
    [newStatus]. *)
Theorem next_status_text_matches_toggle s :
  s ∈ statuses ->
  getNextStatusText s = "Mark as " +:+ formatStatus (newStatus s).
Proof.
  unfold statuses. rewrite !elem_of_cons, elem_of_nil.
  intros [-> | [-> | [-> | []]]]; by vm_compute.
Qed.

Lemma next_status_text_matches_toggle_witness :
  getNextStatusText (str "in_progress")
  = "Mark as " +:+ formatStatus (newStatus (str "in_progress")).
Proof.
  apply (next_status_text_matches_toggle (str "in_progress")).
  apply (bool_decide_unpack _). by vm_compute.
Defined.
